(** * XLFMDataset: view extraction, spatial alignment and temporal indexing

    A shallow embedding of [utils/XLFMDataset.py] (the three dataset classes
    [XLFMDatasetFull], [XLFMDatasetFullRegistration] and [XLFMDatasetVol]) and
    the properties of its patch extractor, canonical window, square padding,
    border blanking, ingest loop and sample indexing.

    Conventions of the embedding:
    - a Python [int] is a [Z]; [//] by a positive constant is [Z.div] (both
      round towards minus infinity);
    - a tensor is its shape together with the map from index tuples to
      elements; every read the code performs is inside the shape, and a slice
      is normalised against the shape exactly as Python does it;
    - an exception is a value of [exn], and code that may raise returns a
      [result];
    - the random generator of [torch.randint] is an explicit state. *)

From Stdlib Require Import ZArith List Bool Lia.
Import ListNotations.
Open Scope Z_scope.

(** ** Exceptions and the error monad *)

Inductive exn : Type :=
| AssertionError
| IndexError
| TypeError
| ValueError
| RuntimeError.

Inductive result (A : Type) : Type :=
| Ok (a : A)
| Raise (e : exn).

Arguments Ok {A} a.
Arguments Raise {A} e.

Definition bind {A B : Type} (c : result A) (k : A -> result B) : result B :=
  match c with
  | Ok a => k a
  | Raise e => Raise e
  end.

Declare Scope result_scope.
Delimit Scope result_scope with result.
Notation "x <- c ;; k" := (bind c (fun x => k))
  (at level 61, c at next level, right associativity) : result_scope.
Notation "' p <- c ;; k" := (bind c (fun x => let 'p := x in k))
  (at level 61, p pattern, c at next level, right associativity) : result_scope.
Open Scope result_scope.

Definition is_ok {A : Type} (r : result A) : bool :=
  match r with Ok _ => true | Raise _ => false end.

(** ** Python sequences *)

Module Py.

Definition len {A : Type} (l : list A) : Z := Z.of_nat (length l).

(** [range(n)]: empty when [n <= 0]. *)
Definition range (n : Z) : list Z := map Z.of_nat (seq 0 (Z.to_nat n)).

(** [range(a, b)]. *)
Definition range2 (a b : Z) : list Z := map (fun k => a + k) (range (b - a)).

(** [l[i]] on a list, a numpy array or the first axis of a tensor of length
    [n]: a negative index counts from the end, anything outside
    [-n <= i < n] raises [IndexError]. [index i n] is the position read. *)
Definition index (i n : Z) : result Z :=
  if (0 <=? i) && (i <? n) then Ok i
  else if (- n <=? i) && (i <? 0) then Ok (i + n)
  else Raise IndexError.

Definition getitem {A : Type} (l : list A) (i : Z) : result A :=
  k <- index i (len l) ;;
  match nth_error l (Z.to_nat k) with
  | Some a => Ok a
  | None => Raise IndexError
  end.

(** [max(l)] and [min(l)] raise [ValueError] on an empty sequence. *)
Definition max (l : list Z) : result Z :=
  match l with
  | [] => Raise ValueError
  | x :: r => Ok (fold_left Z.max r x)
  end.

Definition min (l : list Z) : result Z :=
  match l with
  | [] => Raise ValueError
  | x :: r => Ok (fold_left Z.min r x)
  end.

(** [sorted(l)]. *)
Fixpoint insert (x : Z) (l : list Z) : list Z :=
  match l with
  | [] => [x]
  | y :: r => if x <=? y then x :: l else y :: insert x r
  end.

Definition sorted (l : list Z) : list Z := fold_right insert [] l.

Fixpoint list_eqb (a b : list Z) : bool :=
  match a, b with
  | [], [] => true
  | x :: a', y :: b' => (x =? y) && list_eqb a' b'
  | _, _ => false
  end.

(** A bound [i] of a slice over an axis of length [n], as
    [slice.indices] adjusts it (step 1). *)
Definition adjust (i n : Z) : Z :=
  if i <? 0 then Z.max (i + n) 0 else Z.min i n.

(** [lo:hi] over an axis of length [n]: the first position and the number
    of positions selected. A missing bound is [None]. *)
Definition slice (lo hi : option Z) (n : Z) : Z * Z :=
  let a := match lo with Some i => adjust i n | None => 0 end in
  let b := match hi with Some i => adjust i n | None => n end in
  (a, Z.max (b - a) 0).

End Py.

(** ** Tensors *)

(** The element types the code stores: they have a zero ([torch.zeros], the
    constant written by border blanking) and a test for infinity
    ([torch.isinf]). *)
Class Scalar (A : Type) : Type := {
  zero : A;
  isinf : A -> bool
}.

(** Integer tensors: no infinity. *)
#[export] Instance Scalar_Z : Scalar Z := {| zero := 0; isinf := fun _ => false |}.

(** A float16 element, by class: a finite value (its payload is the value in
    units the development never inspects), an infinity or a NaN. *)
Inductive half : Type :=
| Fin (v : Z)
| Inf (negative : bool)
| NaN.

#[export] Instance Scalar_half : Scalar half := {|
  zero := Fin 0;
  isinf := fun x => match x with Inf _ => true | _ => false end
|}.

(** [torch.isfinite]. *)
Definition isfinite (x : half) : bool :=
  match x with Fin _ => true | _ => false end.

Record tensor2 (A : Type) : Type := T2 {
  n2_0 : Z; n2_1 : Z;
  get2 : Z -> Z -> A
}.
Record tensor3 (A : Type) : Type := T3 {
  n3_0 : Z; n3_1 : Z; n3_2 : Z;
  get3 : Z -> Z -> Z -> A
}.
Record tensor4 (A : Type) : Type := T4 {
  n4_0 : Z; n4_1 : Z; n4_2 : Z; n4_3 : Z;
  get4 : Z -> Z -> Z -> Z -> A
}.
Record tensor5 (A : Type) : Type := T5 {
  n5_0 : Z; n5_1 : Z; n5_2 : Z; n5_3 : Z; n5_4 : Z;
  get5 : Z -> Z -> Z -> Z -> Z -> A
}.

Arguments T2 {A}.
Arguments n2_0 {A}.
Arguments n2_1 {A}.
Arguments get2 {A}.
Arguments T3 {A}.
Arguments n3_0 {A}.
Arguments n3_1 {A}.
Arguments n3_2 {A}.
Arguments get3 {A}.
Arguments T4 {A}.
Arguments n4_0 {A}.
Arguments n4_1 {A}.
Arguments n4_2 {A}.
Arguments n4_3 {A}.
Arguments get4 {A}.
Arguments T5 {A}.
Arguments n5_0 {A}.
Arguments n5_1 {A}.
Arguments n5_2 {A}.
Arguments n5_3 {A}.
Arguments n5_4 {A}.
Arguments get5 {A}.

(** A size is never negative. *)
Definition shape4_ok {A : Type} (t : tensor4 A) : Prop :=
  0 <= n4_0 t /\ 0 <= n4_1 t /\ 0 <= n4_2 t /\ 0 <= n4_3 t.

Definition shape3_ok {A : Type} (t : tensor3 A) : Prop :=
  0 <= n3_0 t /\ 0 <= n3_1 t /\ 0 <= n3_2 t.

Definition shape2_ok {A : Type} (t : tensor2 A) : Prop :=
  0 <= n2_0 t /\ 0 <= n2_1 t.

(** [inside i a n]: position [i] is one of the [n] positions from [a]. *)
Definition inside (i a n : Z) : bool := (a <=? i) && (i <? a + n).

(** Broadcasting one axis of an assignment [dst[...] = src]: an axis of [m]
    source positions fills [n] destination positions when [m = n], or when
    [m = 1] (the single position is repeated); otherwise the assignment
    raises. The result maps a destination offset to the source offset. *)
Definition bcast (n m : Z) : result (Z -> Z) :=
  if m =? n then Ok (fun i => i)
  else if m =? 1 then Ok (fun _ => 0)
  else Raise RuntimeError.

(** Nested lists, for writing tensors down and reading them back. *)
Definition rows_of {A : Type} (t : tensor2 A) : list (list A) :=
  map (fun i => map (fun j => get2 t i j) (Py.range (n2_1 t))) (Py.range (n2_0 t)).

Definition of_rows {A : Type} (d : A) (l : list (list A)) : tensor2 A :=
  T2 (Py.len l) (Py.len (hd [] l))
     (fun i j => nth (Z.to_nat j) (nth (Z.to_nat i) l []) d).

(** ** PatchExtractor: [extract_views]

    The three classes carry the same static method. [image] has shape
    [batch, channel, H, W]; [lenslet_coords] is the integer table of centers
    (one row [(cx, cy)] per lenslet, [cx] along axis 2 and [cy] along axis 3),
    whose arithmetic is that of the integers; [debug] is off. *)

Section ExtractViews.

Context {A : Type} `{Scalar A}.

(** [torch.zeros(size=[b, c, n, ph, pw])]: a negative size raises. *)
Definition zeros5 (b c n ph pw : Z) : result (tensor5 A) :=
  if (0 <=? b) && (0 <=? c) && (0 <=? n) && (0 <=? ph) && (0 <=? pw)
  then Ok (T5 b c n ph pw (fun _ _ _ _ _ => zero))
  else Raise RuntimeError.

(** One turn of the loop over lenslets, for lenslet [nLens] with center
    [currCoords]:
<<
    lower_bounds = [currCoords[0]-half_subimg_shape[0], currCoords[1]-half_subimg_shape[1]]
    lower_bounds = [max(lower_bounds[kk],0) for kk in range(2)]
    currPatch = image[:,:,lower_bounds[0] : currCoords[0]+half_subimg_shape[0],
                          lower_bounds[1] : currCoords[1]+half_subimg_shape[1]]
    stacked_views[:,:,nLens,-currPatch.shape[2]:,-currPatch.shape[3]:] = currPatch
>>
    The upper bounds go to the slice as they are; the slice itself stops at
    the end of the axis, and reads a negative bound from the end. *)
Definition place_patch (image : tensor4 A) (half_subimg_shape : Z * Z)
    (currCoords : Z * Z) (nLens : Z) (stacked_views : tensor5 A)
    : result (tensor5 A) :=
  let lower_bounds :=
    (fst currCoords - fst half_subimg_shape, snd currCoords - snd half_subimg_shape) in
  let lower_bounds := (Z.max (fst lower_bounds) 0, Z.max (snd lower_bounds) 0) in
  let '(r0, h) := Py.slice (Some (fst lower_bounds))
                    (Some (fst currCoords + fst half_subimg_shape)) (n4_2 image) in
  let '(c0, w) := Py.slice (Some (snd lower_bounds))
                    (Some (snd currCoords + snd half_subimg_shape)) (n4_3 image) in
  let '(dr, rh) := Py.slice (Some (- h)) None (n5_3 stacked_views) in
  let '(dc, rw) := Py.slice (Some (- w)) None (n5_4 stacked_views) in
  fr <- bcast rh h ;;
  fc <- bcast rw w ;;
  Ok (T5 (n5_0 stacked_views) (n5_1 stacked_views) (n5_2 stacked_views)
         (n5_3 stacked_views) (n5_4 stacked_views)
         (fun b c n i j =>
            if (n =? nLens) && inside i dr rh && inside j dc rw
            then get4 image b c (r0 + fr (i - dr)) (c0 + fc (j - dc))
            else get5 stacked_views b c n i j)).

(** [for nLens in range(n_lenslets)], from lenslet [nLens] on. *)
Fixpoint extract_loop (image : tensor4 A) (half_subimg_shape : Z * Z)
    (coords : list (Z * Z)) (nLens : Z) (stacked_views : tensor5 A)
    : result (tensor5 A) :=
  match coords with
  | [] => Ok stacked_views
  | currCoords :: rest =>
      sv <- place_patch image half_subimg_shape currCoords nLens stacked_views ;;
      extract_loop image half_subimg_shape rest (nLens + 1) sv
  end.

Definition extract_views (image : tensor4 A) (lenslet_coords : list (Z * Z))
    (subimage_shape : Z * Z) : result (tensor5 A) :=
  let half_subimg_shape := (fst subimage_shape / 2, snd subimage_shape / 2) in
  let n_lenslets := Py.len lenslet_coords in
  stacked_views <- zeros5 (n4_0 image) (n4_1 image) n_lenslets
                     (fst subimage_shape) (snd subimage_shape) ;;
  extract_loop image half_subimg_shape lenslet_coords 0 stacked_views.

(** *** The geometry of one axis *)

(** The ideal interval [[c - p/2, c + p/2)] of a patch of size [p] centered
    at [c] meets an axis of length [n]: after the lower bound is raised to 0
    and the slice has stopped at [n], at least one position is left. *)
Definition meets (c p n : Z) : Prop := Z.max (c - p / 2) 0 < Z.min (c + p / 2) n.

(** The ideal interval lies inside the axis: nothing is clamped. *)
Definition interior (c p n : Z) : Prop := 0 <= c - p / 2 /\ c + p / 2 <= n.

(** First source position and length of the truncated patch along an axis. *)
Definition patch_start (c p : Z) : Z := Z.max (c - p / 2) 0.
Definition patch_len (c p n : Z) : Z := Z.min (c + p / 2) n - Z.max (c - p / 2) 0.

(** Every lenslet of the table keeps at least one pixel of the frame. *)
Definition table_meets (image : tensor4 A) (coords : list (Z * Z)) (sub : Z * Z) : Prop :=
  Forall (fun cc => meets (fst cc) (fst sub) (n4_2 image)
                    /\ meets (snd cc) (snd sub) (n4_3 image)) coords.

(** What the slot of a lenslet holds at offset [(i, j)] once its patch is
    in: the patch sits in the last [patch_len] rows and columns, over [old]. *)
Definition slot_pixel (image : tensor4 A) (sub cc : Z * Z) (b c i j : Z) (old : A) : A :=
  let h := patch_len (fst cc) (fst sub) (n4_2 image) in
  let w := patch_len (snd cc) (snd sub) (n4_3 image) in
  if (fst sub - h <=? i) && (i <? fst sub) && (snd sub - w <=? j) && (j <? snd sub)
  then get4 image b c (patch_start (fst cc) (fst sub) + (i - (fst sub - h)))
                      (patch_start (snd cc) (snd sub) + (j - (snd sub - w)))
  else old.

End ExtractViews.

(** ** SpatialAligner: canonical window, border blanking, square padding *)

Section Spatial.

Context {A : Type} `{Scalar A}.

(** The window of [__init__], from the first volume read ([currVol], of
    shape [H, W, depth]):
<<
    odd_size = [currVol.shape[0], currVol.shape[1]]
    half_volume_shape = [odd_size[0]//2,odd_size[1]//2]
    self.volStart = [currVol.shape[0]//2-half_volume_shape[0], currVol.shape[1]//2-half_volume_shape[1]]
    self.volEnd = [odd_size[n] + self.volStart[n] for n in range(len(self.volStart))]
>>
    (the two lines that made [odd_size] odd are commented out in the
    source). *)
Definition canonical_window (currVol : tensor3 A) : (Z * Z) * (Z * Z) :=
  let odd_size := (n3_0 currVol, n3_1 currVol) in
  let half_volume_shape := (fst odd_size / 2, snd odd_size / 2) in
  let volStart := (n3_0 currVol / 2 - fst half_volume_shape,
                   n3_1 currVol / 2 - snd half_volume_shape) in
  let volEnd := (fst odd_size + fst volStart, snd odd_size + snd volStart) in
  (volStart, volEnd).

(** [t[lo:hi, ...] = 0], [t[:, lo:hi, ...] = 0] and [t[:, :, lo:hi] = 0]. *)
Definition fill0_axis0 (lo hi : option Z) (t : tensor3 A) : tensor3 A :=
  let '(a, n) := Py.slice lo hi (n3_0 t) in
  T3 (n3_0 t) (n3_1 t) (n3_2 t)
     (fun i j k => if inside i a n then zero else get3 t i j k).

Definition fill0_axis1 (lo hi : option Z) (t : tensor3 A) : tensor3 A :=
  let '(a, n) := Py.slice lo hi (n3_1 t) in
  T3 (n3_0 t) (n3_1 t) (n3_2 t)
     (fun i j k => if inside j a n then zero else get3 t i j k).

Definition fill0_axis2 (lo hi : option Z) (t : tensor3 A) : tensor3 A :=
  let '(a, n) := Py.slice lo hi (n3_2 t) in
  T3 (n3_0 t) (n3_1 t) (n3_2 t)
     (fun i j k => if inside k a n then zero else get3 t i j k).

(** The blanking step of the ingest loop:
<<
    if border_blanking>0:
        currVol[:border_blanking,...] = 0
        currVol[-border_blanking:,...] = 0
        currVol[:,:border_blanking,...] = 0
        currVol[:,-border_blanking:,...] = 0
        currVol[:,:,:border_blanking] = 0
        currVol[:,:,-border_blanking:] = 0
>> *)
Definition blank_border (border_blanking : Z) (currVol : tensor3 A) : tensor3 A :=
  if 0 <? border_blanking then
    let currVol := fill0_axis0 None (Some border_blanking) currVol in
    let currVol := fill0_axis0 (Some (- border_blanking)) None currVol in
    let currVol := fill0_axis1 None (Some border_blanking) currVol in
    let currVol := fill0_axis1 (Some (- border_blanking)) None currVol in
    let currVol := fill0_axis2 None (Some border_blanking) currVol in
    let currVol := fill0_axis2 (Some (- border_blanking)) None currVol in
    currVol
  else currVol.

(** A voxel lies within [b] of one of the six faces. *)
Definition near_face (b : Z) (t : tensor3 A) (i j k : Z) : bool :=
  (i <? b) || (n3_0 t - b <=? i) ||
  (j <? b) || (n3_1 t - b <=? j) ||
  (k <? b) || (n3_2 t - b <=? k).

(** [F.pad(image.unsqueeze(0).unsqueeze(0), [l, r, t, b])[0,0]], constant
    mode with value 0, on a 2D [image]: [l] and [r] pad the last axis, [t]
    and [b] the one before. The library first removes the positions of every
    negative amount ([narrow], which raises when an axis has fewer positions
    than are removed). When no amount is positive it returns the narrowed
    frame as it is, empty when an axis is used up; when some amount is
    positive it goes on to check that each new size is positive and fills
    the rest with the value. *)
Definition F_pad (image : tensor2 A) (l r t b : Z) : result (tensor2 A) :=
  let new_w := n2_1 image + l + r in
  let new_h := n2_0 image + t + b in
  let narrow_w := n2_1 image + Z.min l 0 + Z.min r 0 in
  let narrow_h := n2_0 image + Z.min t 0 + Z.min b 0 in
  let all_pads_non_positive := (l <=? 0) && (r <=? 0) && (t <=? 0) && (b <=? 0) in
  if (0 <=? narrow_w) && (0 <=? narrow_h)
     && (all_pads_non_positive || ((0 <? new_w) && (0 <? new_h)))
  then
    Ok (T2 new_h new_w
          (fun i j =>
             if inside (i - t) 0 (n2_0 image) && inside (j - l) 0 (n2_1 image)
             then get2 image (i - t) (j - l) else zero))
  else Raise RuntimeError.

(** [pad_img_to_min]:
<<
    min_size = min(image.shape[-2:])
    img_pad = [min_size-image.shape[-1], min_size-image.shape[-2]]
    img_pad = [img_pad[0]//2, img_pad[0]//2, img_pad[1],img_pad[1]]
    image = F.pad(image.unsqueeze(0).unsqueeze(0), img_pad)[0,0]
>> *)
Definition pad_img_to_min (image : tensor2 A) : result (tensor2 A) :=
  let min_size := Z.min (n2_0 image) (n2_1 image) in
  let img_pad := (min_size - n2_1 image, min_size - n2_0 image) in
  F_pad image (fst img_pad / 2) (fst img_pad / 2) (snd img_pad) (snd img_pad).

(** [torch.isinf(currVol).any()]. *)
Definition any_isinf (currVol : tensor3 A) : bool :=
  existsb (fun i =>
    existsb (fun j =>
      existsb (fun k => isinf (get3 currVol i j k)) (Py.range (n3_2 currVol)))
      (Py.range (n3_1 currVol)))
    (Py.range (n3_0 currVol)).

(** [assert not torch.isinf(currVol).any()]. *)
Definition assert_no_inf (currVol : tensor3 A) : result unit :=
  if any_isinf currVol then Raise AssertionError else Ok tt.

End Spatial.

(** ** DatasetAssembler *)

Fixpoint mapM {X Y : Type} (f : X -> result Y) (l : list X) : result (list Y) :=
  match l with
  | [] => Ok []
  | x :: r => y <- f x ;; ys <- mapM f r ;; Ok (y :: ys)
  end.

(** [for x in l: st = step(x, st)], stopping at the first exception. *)
Fixpoint foldM {X S : Type} (step : X -> S -> result S) (l : list X) (st : S)
    : result S :=
  match l with
  | [] => Ok st
  | x :: r => st' <- step x st ;; foldM step r st'
  end.

Section Indexing.

Context {A : Type}.

(** [t[i, ...]] on the first axis. *)
Definition select3 (t : tensor3 A) (i : Z) : result (tensor2 A) :=
  k <- Py.index i (n3_0 t) ;;
  Ok (T2 (n3_1 t) (n3_2 t) (fun a b => get3 t k a b)).

Definition select4 (t : tensor4 A) (i : Z) : result (tensor3 A) :=
  k <- Py.index i (n4_0 t) ;;
  Ok (T3 (n4_1 t) (n4_2 t) (n4_3 t) (fun a b c => get4 t k a b c)).

(** [t[indices, ...]] with a list of integers on the first axis. *)
Definition gather3 (t : tensor3 A) (indices : list Z) : result (tensor3 A) :=
  ks <- mapM (fun i => Py.index i (n3_0 t)) indices ;;
  Ok (T3 (Py.len indices) (n3_1 t) (n3_2 t)
         (fun n a b => get3 t (nth (Z.to_nat n) ks 0) a b)).

Definition gather4 (t : tensor4 A) (indices : list Z) : result (tensor4 A) :=
  ks <- mapM (fun i => Py.index i (n4_0 t)) indices ;;
  Ok (T4 (Py.len indices) (n4_1 t) (n4_2 t) (n4_3 t)
         (fun n a b c => get4 t (nth (Z.to_nat n) ks 0) a b c)).

(** [t.permute(2,0,1)]. *)
Definition permute201 (t : tensor3 A) : tensor3 A :=
  T3 (n3_2 t) (n3_0 t) (n3_1 t) (fun d i j => get3 t i j d).

End Indexing.

(** The state the three classes keep. [vols] is [None] for the placeholder
    [255*torch.ones(1)] of a dataset built without volumes. [images_to_use]
    is the constructor's argument as given ([None] when omitted): only
    [XLFMDatasetFull] stores it. *)
Record dataset (A : Type) : Type := Dataset {
  images_to_use : option (list Z);
  load_vols : bool;
  load_imgs : bool;
  temporal_shifts : list Z;
  use_random_shifts : bool;
  n_images : Z;
  volStart : Z * Z;
  volEnd : Z * Z;
  vols : option (tensor4 A);
  stacked_views : tensor3 A
}.

Arguments Dataset {A}.
Arguments images_to_use {A}.
Arguments load_vols {A}.
Arguments load_imgs {A}.
Arguments temporal_shifts {A}.
Arguments use_random_shifts {A}.
Arguments n_images {A}.
Arguments volStart {A}.
Arguments volEnd {A}.
Arguments vols {A}.
Arguments stacked_views {A}.

Definition get_n_temporal_frames {A : Type} (self : dataset A) : Z :=
  Py.len (temporal_shifts self).

(** *** [XLFMDatasetFull] (the paired policy)

    The constructor is modelled without the secondary channel
    ([load_sparse = False]). What it reads from disk is given decoded:
    [img_dataset] is the frame stack of [imread] (shape [n_frames, h, w],
    elements as [astype(np.float16)] leaves them), and [files] lists, in the
    order of [sorted(glob.glob(vols_path))], the tensor [read_tiff_stack]
    returns for each volume file (shape [H, W, depth]). [center_crop] comes
    from [utils.misc_utils], which is not part of the sources at hand: it is
    a parameter, standing for
    [center_crop(image.unsqueeze(0).unsqueeze(0), img_shape)[0,0,...]]. *)

Module XLFMDatasetFull.

Section Ingest.

Context {A : Type} `{Scalar A}.
Variable center_crop : tensor2 A -> Z * Z -> tensor2 A.

(** [torch.zeros(n, a, b)] and [torch.zeros(n, d, a, b)]. *)
Definition zeros3 (n a b : Z) : result (tensor3 A) :=
  if (0 <=? n) && (0 <=? a) && (0 <=? b)
  then Ok (T3 n a b (fun _ _ _ => zero))
  else Raise RuntimeError.

Definition zeros4 (n d a b : Z) : result (tensor4 A) :=
  if (0 <=? n) && (0 <=? d) && (0 <=? a) && (0 <=? b)
  then Ok (T4 n d a b (fun _ _ _ _ => zero))
  else Raise RuntimeError.

(** [self.vols[nImg,:currVol.shape[2],:,:] =
      currVol.permute(2,0,1)[:,self.volStart[0]:self.volEnd[0],self.volStart[1]:self.volEnd[1]]] *)
Definition store_vol (vStart vEnd : Z * Z) (nImg : Z) (currVol : tensor3 A)
    (vols : tensor4 A) : result (tensor4 A) :=
  let src := permute201 currVol in
  let '(a0, l0) := Py.slice (Some (fst vStart)) (Some (fst vEnd)) (n3_1 src) in
  let '(a1, l1) := Py.slice (Some (snd vStart)) (Some (snd vEnd)) (n3_2 src) in
  n <- Py.index nImg (n4_0 vols) ;;
  let '(d0, ld) := Py.slice None (Some (n3_2 currVol)) (n4_1 vols) in
  fd <- bcast ld (n3_0 src) ;;
  f0 <- bcast (n4_2 vols) l0 ;;
  f1 <- bcast (n4_3 vols) l1 ;;
  Ok (T4 (n4_0 vols) (n4_1 vols) (n4_2 vols) (n4_3 vols)
         (fun m d i j =>
            if (m =? n) && inside d d0 ld && inside i 0 (n4_2 vols)
               && inside j 0 (n4_3 vols)
            then get3 src (fd (d - d0)) (a0 + f0 i) (a1 + f1 j)
            else get4 vols m d i j)).

(** [self.stacked_views[nImg,...] = image] for a 2D [image]. *)
Definition store_view (nImg : Z) (image : tensor2 A) (views : tensor3 A)
    : result (tensor3 A) :=
  n <- Py.index nImg (n3_0 views) ;;
  f0 <- bcast (n3_1 views) (n2_0 image) ;;
  f1 <- bcast (n3_2 views) (n2_1 image) ;;
  Ok (T3 (n3_0 views) (n3_1 views) (n3_2 views)
         (fun m i j =>
            if (m =? n) && inside i 0 (n3_1 views) && inside j 0 (n3_2 views)
            then get2 image (f0 i) (f1 j)
            else get3 views m i j)).

(** The volume half of one turn of the ingest loop, up to the store: read,
    check, blank. *)
Definition ingest_vol (all_files : list (tensor3 A)) (border_blanking : Z)
    (curr_img : Z) : result (tensor3 A) :=
  currVol <- Py.getitem all_files curr_img ;;
  _ <- assert_no_inf currVol ;;
  Ok (blank_border border_blanking currVol).

(** The frame half: read, pad, crop. *)
Definition ingest_img (img_dataset : tensor3 A) (img_shape : Z * Z)
    (curr_img : Z) : result (tensor2 A) :=
  image <- select3 img_dataset curr_img ;;
  image <- pad_img_to_min image ;;
  Ok (center_crop image img_shape).

(** One turn of [for nImg in range(n_images_to_load)], with
    [curr_img = nImg]. The state is [(self.vols, self.stacked_views)]; the
    first component is not looked at when [load_vols] is [False]. *)
Definition ingest_step (all_files : list (tensor3 A)) (img_dataset : tensor3 A)
    (img_shape : Z * Z) (border_blanking : Z) (load_vols : bool)
    (vStart vEnd : Z * Z) (nImg : Z)
    (st : tensor4 A * tensor3 A) : result (tensor4 A * tensor3 A) :=
  let curr_img := nImg in
  vols' <- (if load_vols then
              currVol <- ingest_vol all_files border_blanking curr_img ;;
              store_vol vStart vEnd nImg currVol (fst st)
            else Ok (fst st)) ;;
  image <- ingest_img img_dataset img_shape curr_img ;;
  views' <- store_view nImg image (snd st) ;;
  Ok (vols', views').

(** The list [self.all_files] the loop reads from. *)
Definition select_files (files : list (tensor3 A)) (images_to_use : list Z)
    (n_images : Z) (load_vols : bool) : result (list (tensor3 A)) :=
  if (0 <? Py.len files) && load_vols
  then mapM (fun i => k <- Py.getitem images_to_use i ;; Py.getitem files k)
         (Py.range n_images)
  else Ok files.

Definition __init__ (files : list (tensor3 A)) (img_dataset : tensor3 A)
    (img_shape : Z * Z) (images_to_use : option (list Z))
    (n_depths_to_fill border_blanking : Z) (load_vols : bool)
    (temporal_shifts : list Z) (use_random_shifts : bool)
    : result (dataset A) :=
  let self_images_to_use := images_to_use in
  let n_frames := n3_0 img_dataset in
  let images_to_use :=
    match images_to_use with Some l => l | None => Py.range n_frames end in
  let n_images := Z.min (Py.len images_to_use) n_frames in
  mi <- Py.max images_to_use ;;
  ms <- Py.max temporal_shifts ;;
  let n_images_to_load := mi + ms + 1 in
  all_files <- select_files files images_to_use n_images load_vols ;;
  '(window, vols) <-
    (if load_vols then
       currVol <- Py.getitem all_files 0 ;;
       v <- zeros4 n_images_to_load n_depths_to_fill (n3_0 currVol) (n3_1 currVol) ;;
       Ok (canonical_window currVol, v)
     else Ok (((0, 0), (0, 0)), T4 0 0 0 0 (fun _ _ _ _ => zero))) ;;
  views <- zeros3 n_images_to_load (fst img_shape) (snd img_shape) ;;
  st <- foldM (ingest_step all_files img_dataset img_shape border_blanking load_vols
                 (fst window) (snd window))
          (Py.range n_images_to_load) (vols, views) ;;
  Ok (Dataset self_images_to_use load_vols true temporal_shifts use_random_shifts
        n_images (fst window) (snd window)
        (if load_vols then Some (fst st) else None) (snd st)).

End Ingest.

Section Access.

Context {A : Type}.

(** ['Denotes the total number of samples'] *)
Definition __len__ (self : dataset A) : Z := n_images self.

(** [__getitem__]; the second component is [None] for the placeholder [0]
    returned when [load_vols] is [False]. A missing [images_to_use] cannot
    be subscripted. *)
Definition __getitem__ (self : dataset A) (index : Z)
    : result (tensor3 A * option (tensor3 A)) :=
  let n_frames := get_n_temporal_frames self in
  new_index <- match images_to_use self with
               | Some l => Py.getitem l index
               | None => Raise TypeError
               end ;;
  let temporal_shifts_ixs := temporal_shifts self in
  indices <- mapM (fun i => s <- Py.getitem temporal_shifts_ixs i ;; Ok (new_index + s))
               (Py.range n_frames) ;;
  views_out <- gather3 (stacked_views self) indices ;;
  if negb (load_vols self) then Ok (views_out, None)
  else
    match vols self with
    | Some v => vol_out <- select4 v index ;; Ok (views_out, Some vol_out)
    | None => Raise IndexError
    end.

End Access.

End XLFMDatasetFull.

(** *** Where a stored entry comes from *)

Section Provenance.

Context {A : Type} `{Scalar A}.

(** Two tensors of one shape; two tensors with the same entry at position
    [m] of the first axis. *)
Definition same_shape4 (a b : tensor4 A) : Prop :=
  n4_0 a = n4_0 b /\ n4_1 a = n4_1 b /\ n4_2 a = n4_2 b /\ n4_3 a = n4_3 b.

Definition same_shape3 (a b : tensor3 A) : Prop :=
  n3_0 a = n3_0 b /\ n3_1 a = n3_1 b /\ n3_2 a = n3_2 b.

Definition same_entry4 (m : Z) (a b : tensor4 A) : Prop :=
  forall d i j, get4 a m d i j = get4 b m d i j.

Definition same_entry3 (m : Z) (a b : tensor3 A) : Prop :=
  forall i j, get3 a m i j = get3 b m i j.

(** [vol] is what the ingest loop stores at position [nImg] of a zeroed
    tensor shaped like [vols] when it is handed the volume [currVol]. *)
Definition vol_written_from (vStart vEnd : Z * Z) (nImg : Z) (currVol : tensor3 A)
    (vols : tensor4 A) (vol : tensor3 A) : Prop :=
  exists stored,
    XLFMDatasetFull.store_vol vStart vEnd nImg currVol
      (T4 (n4_0 vols) (n4_1 vols) (n4_2 vols) (n4_3 vols) (fun _ _ _ _ => zero))
      = Ok stored /\
    forall d i j, get3 vol d i j = get4 stored nImg d i j.

(** Entry [n] of [views] is what the ingest loop stores at position [nImg]
    of a zeroed tensor shaped like [stacked] when it is handed [image]. *)
Definition view_written_from (nImg : Z) (image : tensor2 A) (stacked : tensor3 A)
    (n : Z) (views : tensor3 A) : Prop :=
  exists stored,
    XLFMDatasetFull.store_view nImg image
      (T3 (n3_0 stacked) (n3_1 stacked) (n3_2 stacked) (fun _ _ _ => zero))
      = Ok stored /\
    forall i j, get3 views n i j = get3 stored nImg i j.

End Provenance.

(** ** TemporalIndexer: the registration and volume-only policies *)

(** The state of torch's default random generator: the numbers it will
    hand out, and how many it has handed out so far. *)
Record generator : Type := Generator {
  stream : nat -> Z;
  cursor : nat
}.

(** [torch.randint(low, high, size)] for a one-dimensional [size = [n]]
    ([Some n]); the call without its [size] argument ([None]) matches no
    signature of [randint] and raises [TypeError]. An empty range
    [high <= low] raises. Each number drawn lies in [[low, high)]. *)
Definition torch_randint (low high : Z) (size : option Z) (g : generator)
    : result (list Z * generator) :=
  match size with
  | None => Raise TypeError
  | Some n =>
      if high <=? low then Raise RuntimeError
      else if n <? 0 then Raise RuntimeError
      else
        Ok (map (fun k => low + stream g (cursor g + k) mod (high - low))
                (seq 0 (Z.to_nat n)),
            Generator (stream g) (cursor g + Z.to_nat n))
  end.

(** [np.max(l)]: raises [ValueError] on an empty sequence. *)
Definition np_max (l : list Z) : result Z := Py.max l.

(** The lines that resolve the frame window, the same text in
    [XLFMDatasetFullRegistration.__getitem__] and [XLFMDatasetVol.__getitem__]:
<<
    n_frames = self.get_n_temporal_frames()
    newIndex = index
    temporal_shifts_ixs = list(range(n_frames))
    if len(self.temporal_shifts)>0 and not sorted(self.temporal_shifts) == list(range(min(self.temporal_shifts), max(self.temporal_shifts)+1)):
        temporal_shifts_ixs = self.temporal_shifts
        newIndex = index
        if self.use_random_shifts:
            temporal_shifts_ixs = torch.randint(0, self.n_images-1,[3]).numpy()
            newIndex = 0
    img_index = newIndex
    indices = [img_index + temporal_shifts_ixs[i] for i in range(n_frames)]
>> *)
Definition is_contiguous (shifts : list Z) : result bool :=
  lo <- Py.min shifts ;;
  hi <- Py.max shifts ;;
  Ok (Py.list_eqb (Py.sorted shifts) (Py.range2 lo (hi + 1))).

Definition window_indices {A : Type} (self : dataset A) (index : Z) (g : generator)
    : result (list Z * generator) :=
  let n_frames := get_n_temporal_frames self in
  let newIndex := index in
  let temporal_shifts_ixs := Py.range n_frames in
  '(temporal_shifts_ixs, newIndex, g) <-
    (if 0 <? Py.len (temporal_shifts self) then
       contiguous <- is_contiguous (temporal_shifts self) ;;
       if negb contiguous then
         if use_random_shifts self then
           '(r, g') <- torch_randint 0 (n_images self - 1) (Some 3) g ;;
           Ok (r, 0, g')
         else Ok (temporal_shifts self, index, g)
       else Ok (temporal_shifts_ixs, newIndex, g)
     else Ok (temporal_shifts_ixs, newIndex, g)) ;;
  let img_index := newIndex in
  indices <- mapM (fun i => s <- Py.getitem temporal_shifts_ixs i ;; Ok (img_index + s))
               (Py.range n_frames) ;;
  Ok (indices, g).

Module XLFMDatasetFullRegistration.

(** The constructor, without the secondary channel ([load_sparse = False])
    and with its inputs decoded as for [XLFMDatasetFull]. The statements that
    read, check, blank and store a volume, and those that read, pad, crop and
    store a frame, are the text of [XLFMDatasetFull]'s loop; what differs is
    the number of turns ([self.n_images]), the image number of a turn
    ([images_to_use[nImg]]) and that [images_to_use] is not kept. *)
Section Ingest.

Context {A : Type} `{Scalar A}.
Variable center_crop : tensor2 A -> Z * Z -> tensor2 A.

(** One turn of [for nImg in range(self.n_images)], with
    [curr_img = images_to_use[nImg]]: volume and frame are read at
    [curr_img] and stored at [nImg]. *)
Definition ingest_step (images_to_use : list Z) (all_files : list (tensor3 A))
    (img_dataset : tensor3 A) (img_shape : Z * Z) (border_blanking : Z)
    (load_vols : bool) (vStart vEnd : Z * Z) (nImg : Z)
    (st : tensor4 A * tensor3 A) : result (tensor4 A * tensor3 A) :=
  curr_img <- Py.getitem images_to_use nImg ;;
  vols' <- (if load_vols then
              currVol <- XLFMDatasetFull.ingest_vol all_files border_blanking curr_img ;;
              XLFMDatasetFull.store_vol vStart vEnd nImg currVol (fst st)
            else Ok (fst st)) ;;
  image <- XLFMDatasetFull.ingest_img center_crop img_dataset img_shape curr_img ;;
  views' <- XLFMDatasetFull.store_view nImg image (snd st) ;;
  Ok (vols', views').

Definition __init__ (files : list (tensor3 A)) (img_dataset : tensor3 A)
    (img_shape : Z * Z) (images_to_use : option (list Z))
    (n_depths_to_fill border_blanking : Z) (load_vols : bool)
    (temporal_shifts : list Z) (use_random_shifts : bool)
    : result (dataset A) :=
  let n_frames := n3_0 img_dataset in
  let images_to_use :=
    match images_to_use with Some l => l | None => Py.range n_frames end in
  let n_images := Z.min (Py.len images_to_use) n_frames in
  all_files <- XLFMDatasetFull.select_files files images_to_use n_images load_vols ;;
  '(window, vols) <-
    (if load_vols then
       currVol <- Py.getitem all_files 0 ;;
       v <- XLFMDatasetFull.zeros4 n_images n_depths_to_fill
              (n3_0 currVol) (n3_1 currVol) ;;
       Ok (canonical_window currVol, v)
     else Ok (((0, 0), (0, 0)), T4 0 0 0 0 (fun _ _ _ _ => zero))) ;;
  views <- XLFMDatasetFull.zeros3 n_images (fst img_shape) (snd img_shape) ;;
  st <- foldM (ingest_step images_to_use all_files img_dataset img_shape
                 border_blanking load_vols (fst window) (snd window))
          (Py.range n_images) (vols, views) ;;
  Ok (Dataset None load_vols true temporal_shifts use_random_shifts
        n_images (fst window) (snd window)
        (if load_vols then Some (fst st) else None) (snd st)).

End Ingest.

Section Access.

Context {A : Type}.

(** ['Denotes the total number of samples'] *)
Definition __len__ (self : dataset A) : result Z :=
  if use_random_shifts self then Ok (n_images self)
  else m <- np_max (temporal_shifts self) ;; Ok (n_images self - m).

(** [__getitem__]. Its last lines are
<<
    vol_out1 = self.vols[index,...]
    vol_out2 = self.vols[torch.randint(0,self.__len__()),...]
    return views_out,vol_out2
>>
    where [randint] is called without a [size]. *)
Definition __getitem__ (self : dataset A) (index : Z) (g : generator)
    : result ((tensor3 A * option (tensor4 A)) * generator) :=
  '(indices, g) <- window_indices self index g ;;
  views_out <- gather3 (stacked_views self) indices ;;
  if negb (load_vols self) then Ok ((views_out, None), g)
  else
    match vols self with
    | Some v =>
        vol_out1 <- select4 v index ;;
        n <- __len__ self ;;
        '(r, g) <- torch_randint 0 n None g ;;
        vol_out2 <- gather4 v r ;;
        Ok ((views_out, Some vol_out2), g)
    | None => Raise IndexError
    end.

End Access.

End XLFMDatasetFullRegistration.

Module XLFMDatasetVol.

Section Access.

Context {A : Type}.

Definition __len__ (self : dataset A) : result Z :=
  if use_random_shifts self then Ok (n_images self)
  else m <- np_max (temporal_shifts self) ;; Ok (n_images self - m).

(** [__getitem__]: views and volumes are both read at [indices]; a part
    that was not loaded is the placeholder [0] ([None]). *)
Definition __getitem__ (self : dataset A) (index : Z) (g : generator)
    : result ((option (tensor3 A) * option (tensor4 A)) * generator) :=
  '(indices, g) <- window_indices self index g ;;
  views_out <- (if load_imgs self
                then v <- gather3 (stacked_views self) indices ;; Ok (Some v)
                else Ok None) ;;
  vol_out <- (if load_vols self
              then match vols self with
                   | Some v => o <- gather4 v indices ;; Ok (Some o)
                   | None => Raise IndexError
                   end
              else Ok None) ;;
  Ok ((views_out, vol_out), g).

End Access.

End XLFMDatasetVol.

(** ** Accessors and normalisation

    The same text in the three classes; the branches taken without the
    secondary channel ([load_sparse = False]). The reductions ([max],
    [mean], [std]) and the element arithmetic are those of the element
    type: they are parameters here. *)

(** [get_n_depths]: [self.vols.shape[1]]. The placeholder
    [255*torch.ones(1)] has a single axis, so its shape has no entry 1. *)
Definition get_n_depths {A : Type} (self : dataset A) : result Z :=
  match vols self with
  | Some v => Ok (n4_1 v)
  | None => Raise IndexError
  end.

Section Normalisation.

Context {A : Type}.
Variables (max_views mean_views std_views : tensor3 A -> A).
Variables (max_vols mean_vols std_vols : option (tensor4 A) -> A).
Variables (sub div : A -> A -> A).

(** [get_max]: three values, the views' maximum twice. *)
Definition get_max (self : dataset A) : list A :=
  [max_views (stacked_views self); max_views (stacked_views self);
   max_vols (vols self)].

(** [get_statistics]: four values without the secondary channel. *)
Definition get_statistics (self : dataset A) : list A :=
  [mean_views (stacked_views self); std_views (stacked_views self);
   mean_vols (vols self); std_vols (vols self)].

(** [standarize]:
<<
    mean_imgs, std_imgs, mean_imgs_s, std_imgs_s, mean_vols, std_vols = stats
    ...
    self.stacked_views[...] = (self.stacked_views[...]-mean_imgs) / std_imgs
    self.vols = (self.vols-mean_vols) / std_vols
>>
    The unpacking needs exactly six values: [None] (the default) raises
    [TypeError], any other count raises [ValueError]. The placeholder of a
    dataset without volumes stays a placeholder. *)
Definition standarize (self : dataset A) (stats : option (list A))
    : result (dataset A) :=
  match stats with
  | None => Raise TypeError
  | Some [mean_imgs; std_imgs; mean_imgs_s; std_imgs_s; mean_v; std_v] =>
      let sv := stacked_views self in
      Ok (Dataset (images_to_use self) (load_vols self) (load_imgs self)
            (temporal_shifts self) (use_random_shifts self) (n_images self)
            (volStart self) (volEnd self)
            (option_map
               (fun v => T4 (n4_0 v) (n4_1 v) (n4_2 v) (n4_3 v)
                           (fun n d i j => div (sub (get4 v n d i j) mean_v) std_v))
               (vols self))
            (T3 (n3_0 sv) (n3_1 sv) (n3_2 sv)
                (fun n i j => div (sub (get3 sv n i j) mean_imgs) std_imgs)))
  | Some _ => Raise ValueError
  end.

End Normalisation.

(** ** Finite and infinite voxels *)

(** The volume holds [+inf] or [-inf] somewhere inside its shape. *)
Definition has_inf (v : tensor3 half) : Prop :=
  exists i j k,
    0 <= i < n3_0 v /\ 0 <= j < n3_1 v /\ 0 <= k < n3_2 v /\
    exists negative, get3 v i j k = Inf negative.

(** The volume holds a value that is not finite (an infinity or a NaN). *)
Definition has_nonfinite (v : tensor3 half) : Prop :=
  exists i j k,
    0 <= i < n3_0 v /\ 0 <= j < n3_1 v /\ 0 <= k < n3_2 v /\
    isfinite (get3 v i j k) = false.

(** ** Parts of the repository that are not among the sources *)

(** Modelled from the spec: [center_crop] of [utils.misc_utils], which the
    frame half of the ingest loop calls. The spec says only that the padded
    frame is center-cropped to the target view shape: the result has the
    target shape and is read around the middle of the frame. *)
Definition center_crop {A : Type} (image : tensor2 A) (img_shape : Z * Z)
    : tensor2 A :=
  T2 (fst img_shape) (snd img_shape)
     (fun i j => get2 image (i + (n2_0 image - fst img_shape) / 2)
                            (j + (n2_1 image - snd img_shape) / 2)).

(** ** Sample inputs *)

(** A single 6 x 6 frame whose pixel at [(i, j)] is [10 * i + j]. *)
Definition ramp_image : tensor4 Z := T4 1 1 6 6 (fun _ _ i j => 10 * i + j).

(** A volume of odd spatial extent, 5 x 7, with 3 depths. *)
Definition odd_volume : tensor3 Z := T3 5 7 3 (fun i j d => 100 * i + 10 * j + d).

(** A 10 x 10 x 10 volume without a zero voxel. *)
Definition cube10 : tensor3 Z := T3 10 10 10 (fun i j d => 1 + 100 * i + 10 * j + d).

(** A landscape frame, 4 rows by 6 columns. *)
Definition wide_frame : tensor2 Z := T2 4 6 (fun i j => 10 * i + j).

(** A portrait frame, 6 rows by 4 columns. *)
Definition tall_frame : tensor2 Z := T2 6 4 (fun i j => 10 * i + j).

(** Twelve 1 x 1 frames, frame [n] holding the value [n]. *)
Definition frames12 : tensor3 Z := T3 12 1 1 (fun n _ _ => n).

(** A paired dataset over the first ten of them, three-frame windows,
    without volumes. *)
Definition paired_sample : result (dataset Z) :=
  XLFMDatasetFull.__init__ center_crop [] frames12 (1, 1) (Some (Py.range 10))
    1 0 false [0; 1; 2] false.

(** A generator, and the state of a registration or volume-only dataset
    over ten stored frames and volumes, entry [n] holding the value [n]. *)
Definition gen0 : generator := Generator (fun k => 7 * Z.of_nat k + 5) 0.

Definition stored_sample (shifts : list Z) (random with_vols : bool) : dataset Z :=
  Dataset None with_vols true shifts random 10 (0, 0) (0, 0)
    (Some (T4 10 1 1 1 (fun n _ _ _ => n))) (T3 10 1 1 (fun n _ _ => n)).

(** A decoded volume of one voxel, a NaN, and the one-frame stack that
    goes with it. *)
Definition nan_volume : tensor3 half := T3 1 1 1 (fun _ _ _ => NaN).

Definition one_frame : tensor3 half := T3 1 1 1 (fun _ _ _ => Fin 7).

(** A decoded volume of one voxel, [+inf]. *)
Definition inf_volume : tensor3 half := T3 1 1 1 (fun _ _ _ => Inf false).

(** Two volume files and two frames that can be told apart: volume file
    [n] holds [10 + n], frame [n] holds [20 + n]. *)
Definition two_volumes : list (tensor3 Z) :=
  [T3 1 1 1 (fun _ _ _ => 10); T3 1 1 1 (fun _ _ _ => 11)].

Definition two_frames : tensor3 Z := T3 2 1 1 (fun n _ _ => 20 + n).

(** A paired dataset with volumes that uses the two images in the order
    [[1, 0]]. *)
Definition swapped_sample : result (dataset Z) :=
  XLFMDatasetFull.__init__ center_crop two_volumes two_frames (1, 1)
    (Some [1; 0]) 1 0 true [0] false.

(** A paired dataset built with [images_to_use] left out, without volumes. *)
Definition default_sample : result (dataset Z) :=
  XLFMDatasetFull.__init__ center_crop [] frames12 (1, 1) None 1 0 false [0] false.

(** Three volume files of one voxel and five frames of one pixel. *)
Definition three_volumes : list (tensor3 Z) :=
  [T3 1 1 1 (fun _ _ _ => 10); T3 1 1 1 (fun _ _ _ => 11);
   T3 1 1 1 (fun _ _ _ => 12)].

Definition five_frames : tensor3 Z := T3 5 1 1 (fun n _ _ => 20 + n).

(** A registration dataset with volumes that uses the two images in the
    order [[1, 0]], and one without volumes over ten of the twelve frames. *)
Definition swapped_registration : result (dataset Z) :=
  XLFMDatasetFullRegistration.__init__ center_crop two_volumes two_frames (1, 1)
    (Some [1; 0]) 1 0 true [0] false.

Definition registration_sample : result (dataset Z) :=
  XLFMDatasetFullRegistration.__init__ center_crop [] frames12 (1, 1)
    (Some (Py.range 10)) 1 0 false [0; 1; 2] false.

(** * Properties *)

(** ** Slices *)

Lemma slice_clamped (lo hi n : Z) :
  Z.max lo 0 < Z.min hi n ->
  Py.slice (Some (Z.max lo 0)) (Some hi) n = (Z.max lo 0, Z.min hi n - Z.max lo 0).
Proof.
  intros Hm. unfold Py.slice, Py.adjust.
  destruct (Z.ltb_spec (Z.max lo 0) 0); [lia|].
  destruct (Z.ltb_spec hi 0); [lia|].
  f_equal; lia.
Qed.

Lemma slice_tail (h p : Z) :
  0 < h <= p -> Py.slice (Some (- h)) None p = (p - h, h).
Proof.
  intros Hh. unfold Py.slice, Py.adjust.
  destruct (Z.ltb_spec (- h) 0); [|lia].
  f_equal; lia.
Qed.

Lemma slice_head (b n : Z) :
  0 < b -> 0 <= n -> Py.slice None (Some b) n = (0, Z.min b n).
Proof.
  intros Hb Hn. unfold Py.slice, Py.adjust.
  destruct (Z.ltb_spec b 0); [lia|].
  f_equal; lia.
Qed.

Lemma slice_last (b n : Z) :
  0 < b -> 0 <= n -> Py.slice (Some (- b)) None n = (Z.max (n - b) 0, Z.min b n).
Proof.
  intros Hb Hn. unfold Py.slice, Py.adjust.
  destruct (Z.ltb_spec (- b) 0); [|lia].
  f_equal; lia.
Qed.

Lemma bcast_same (n : Z) : bcast n n = Ok (fun i => i).
Proof. unfold bcast. now rewrite Z.eqb_refl. Qed.

Lemma inside_spec (i a n : Z) : inside i a n = true <-> a <= i < a + n.
Proof. unfold inside. rewrite andb_true_iff, Z.leb_le, Z.ltb_lt. tauto. Qed.

Lemma inside_head (b n i : Z) :
  0 < b -> 0 <= i < n -> inside i 0 (Z.min b n) = (i <? b).
Proof.
  intros Hb Hi. unfold inside.
  destruct (Z.leb_spec 0 i), (Z.ltb_spec i (0 + Z.min b n)), (Z.ltb_spec i b);
    cbn [andb]; try reflexivity; lia.
Qed.

Lemma inside_last (b n i : Z) :
  0 < b -> 0 <= i < n ->
  inside i (Z.max (n - b) 0) (Z.min b n) = (n - b <=? i).
Proof.
  intros Hb Hi. unfold inside.
  destruct (Z.leb_spec (Z.max (n - b) 0) i),
           (Z.ltb_spec i (Z.max (n - b) 0 + Z.min b n)),
           (Z.leb_spec (n - b) i);
    cbn [andb]; try reflexivity; lia.
Qed.

Lemma half_bounds (p : Z) : 0 <= p -> 0 <= p / 2 /\ 2 * (p / 2) <= p.
Proof.
  intros Hp. split.
  - apply Z.div_pos; lia.
  - pose proof (Z.mul_div_le p 2). lia.
Qed.

Lemma even_half (p : Z) : Z.even p = true -> 2 * (p / 2) = p.
Proof.
  intros He. pose proof (Z.div_mod p 2) as Hd.
  pose proof (Zmod_even p) as Hm. rewrite He in Hm. lia.
Qed.

(** ** PatchExtractor *)

Section ExtractViewsFacts.

Context {A : Type} `{Scalar A}.
Variable image : tensor4 A.
Variables ph pw : Z.

Lemma meets_len (c p n : Z) :
  meets c p n -> 0 < patch_len c p n <= p.
Proof.
  unfold meets, patch_len. intros Hm.
  assert (0 < p / 2) by lia.
  assert (0 <= p).
  { destruct (Z.lt_ge_cases p 0) as [Hn|]; [|lia].
    pose proof (Z.div_lt_upper_bound p 2 0). lia. }
  pose proof (half_bounds p). lia.
Qed.

(** One lenslet: the patch goes into the last rows and columns of slot
    [nLens], every other slot is left as it was. *)
Lemma place_patch_spec (cc : Z * Z) (nLens : Z) (sv : tensor5 A) :
  meets (fst cc) ph (n4_2 image) -> meets (snd cc) pw (n4_3 image) ->
  n5_3 sv = ph -> n5_4 sv = pw ->
  exists sv',
    place_patch image (ph / 2, pw / 2) cc nLens sv = Ok sv' /\
    n5_0 sv' = n5_0 sv /\ n5_1 sv' = n5_1 sv /\ n5_2 sv' = n5_2 sv /\
    n5_3 sv' = ph /\ n5_4 sv' = pw /\
    forall b c n i j,
      get5 sv' b c n i j =
        if n =? nLens then slot_pixel image (ph, pw) cc b c i j (get5 sv b c n i j)
        else get5 sv b c n i j.
Proof.
  intros Hr Hc Hp Hq.
  pose proof (meets_len _ _ _ Hr) as Hh.
  pose proof (meets_len _ _ _ Hc) as Hw.
  unfold place_patch. cbn [fst snd].
  rewrite (slice_clamped _ _ _ Hr), (slice_clamped _ _ _ Hc).
  fold (patch_len (fst cc) ph (n4_2 image)) (patch_len (snd cc) pw (n4_3 image)).
  rewrite Hp, Hq, (slice_tail _ _ Hh), (slice_tail _ _ Hw), !bcast_same.
  cbn [bind]. eexists. split; [reflexivity|]. cbn.
  repeat split; try assumption.
  intros b c n i j. unfold slot_pixel, patch_start. cbn [fst snd].
  destruct (n =? nLens); cbn [andb]; [|reflexivity].
  unfold inside.
  replace (ph - patch_len (fst cc) ph (n4_2 image)
           + patch_len (fst cc) ph (n4_2 image)) with ph by lia.
  replace (pw - patch_len (snd cc) pw (n4_3 image)
           + patch_len (snd cc) pw (n4_3 image)) with pw by lia.
  destruct (_ <=? i), (i <? _), (_ <=? j), (j <? _); reflexivity.
Qed.

Lemma extract_loop_spec (coords : list (Z * Z)) :
  forall (k : Z) (sv : tensor5 A),
    table_meets image coords (ph, pw) ->
    n5_3 sv = ph -> n5_4 sv = pw ->
    exists out,
      extract_loop image (ph / 2, pw / 2) coords k sv = Ok out /\
      n5_0 out = n5_0 sv /\ n5_1 out = n5_1 sv /\ n5_2 out = n5_2 sv /\
      n5_3 out = ph /\ n5_4 out = pw /\
      forall b c n i j,
        get5 out b c n i j =
          match (if k <=? n then nth_error coords (Z.to_nat (n - k)) else None) with
          | Some cc => slot_pixel image (ph, pw) cc b c i j (get5 sv b c n i j)
          | None => get5 sv b c n i j
          end.
Proof.
  induction coords as [|cc rest IH]; intros k sv Ht Hp Hq.
  - exists sv. cbn. repeat split; try assumption.
    intros b c n i j. destruct (k <=? n); [destruct (Z.to_nat (n - k))|]; reflexivity.
  - unfold table_meets in Ht. apply Forall_cons_iff in Ht as [[Hr Hc] Ht'].
    cbn [fst snd] in Hr, Hc.
    destruct (place_patch_spec cc k sv Hr Hc Hp Hq)
      as (sv1 & E1 & D0 & D1 & D2 & D3 & D4 & G1).
    destruct (IH (k + 1) sv1 Ht' D3 D4)
      as (out & E2 & O0 & O1 & O2 & O3 & O4 & G2).
    exists out. cbn [extract_loop]. rewrite E1. cbn [bind].
    split; [exact E2|]. repeat split; try congruence.
    intros b c n i j. rewrite G2, G1.
    destruct (Z.leb_spec k n) as [Hkn|Hkn].
    + destruct (Z.eqb_spec n k) as [->|Hne].
      * rewrite Z.sub_diag. cbn [Z.to_nat nth_error].
        destruct (Z.leb_spec (k + 1) k); [lia|reflexivity].
      * destruct (Z.leb_spec (k + 1) n); [|lia].
        replace (Z.to_nat (n - k)) with (S (Z.to_nat (n - (k + 1)))) by lia.
        reflexivity.
    + destruct (Z.leb_spec (k + 1) n); [lia|].
      destruct (Z.eqb_spec n k); [lia|reflexivity].
Qed.

(** The whole table: every slot holds its lenslet's patch over zeros. *)
Lemma extract_views_spec (coords : list (Z * Z)) :
  shape4_ok image -> 0 <= ph -> 0 <= pw ->
  table_meets image coords (ph, pw) ->
  exists out,
    extract_views image coords (ph, pw) = Ok out /\
    n5_0 out = n4_0 image /\ n5_1 out = n4_1 image /\ n5_2 out = Py.len coords /\
    n5_3 out = ph /\ n5_4 out = pw /\
    forall n cc, nth_error coords n = Some cc ->
      forall b c i j,
        get5 out b c (Z.of_nat n) i j = slot_pixel image (ph, pw) cc b c i j zero.
Proof.
  intros (H0 & H1 & _ & _) Hph Hpw Ht.
  unfold extract_views, zeros5. cbn [fst snd].
  assert (Hn : 0 <= Py.len coords) by (unfold Py.len; lia).
  repeat match goal with
         | Hx : 0 <= ?x |- context [0 <=? ?x] =>
             rewrite (proj2 (Z.leb_le 0 x) Hx)
         end.
  cbn [andb bind].
  destruct (extract_loop_spec coords 0
              (T5 (n4_0 image) (n4_1 image) (Py.len coords) ph pw
                  (fun _ _ _ _ _ => zero)) Ht eq_refl eq_refl)
    as (out & E & O0 & O1 & O2 & O3 & O4 & G).
  exists out. split; [exact E|]. repeat split; try assumption.
  intros n cc Hcc b c i j. rewrite G. cbn [get5].
  destruct (Z.leb_spec 0 (Z.of_nat n)); [|lia].
  rewrite Z.sub_0_r, Nat2Z.id, Hcc. reflexivity.
Qed.

End ExtractViewsFacts.

(** C1. A lenslet whose ideal rectangle
    [[cx - ph//2, cx + ph//2) x [cy - pw//2, cy + pw//2)] lies inside the
    frame: [extract_views] returns, and the whole [ph x pw] slot of that
    lenslet holds the pixels of the rectangle, slot offset [(i, j)] holding
    frame position [(cx - ph//2 + i, cy - pw//2 + j)], for every batch and
    channel index; no position of the slot is left at zero padding. The patch
    dimensions are even, as the contract of the extractor assumes (the
    rectangle then has [ph x pw] positions), and the other lenslets of the
    table keep at least one pixel of the frame, so that the call returns. *)
Theorem extract_views_interior_fills_slot :
  forall (A : Type) (SA : Scalar A) (image : tensor4 A)
         (lenslet_coords : list (Z * Z)) (ph pw : Z),
    shape4_ok image ->
    0 <= ph -> 0 <= pw -> Z.even ph = true -> Z.even pw = true ->
    table_meets image lenslet_coords (ph, pw) ->
    exists out,
      extract_views image lenslet_coords (ph, pw) = Ok out /\
      n5_2 out = Py.len lenslet_coords /\ n5_3 out = ph /\ n5_4 out = pw /\
      forall nLens cx cy,
        nth_error lenslet_coords nLens = Some (cx, cy) ->
        interior cx ph (n4_2 image) -> interior cy pw (n4_3 image) ->
        forall b c i j, 0 <= i < ph -> 0 <= j < pw ->
          0 <= cx - ph / 2 + i < n4_2 image /\
          0 <= cy - pw / 2 + j < n4_3 image /\
          get5 out b c (Z.of_nat nLens) i j
            = get4 image b c (cx - ph / 2 + i) (cy - pw / 2 + j).
Proof.
  intros A SA image coords ph pw Hs Hph Hpw Eph Epw Ht.
  destruct (extract_views_spec image ph pw coords Hs Hph Hpw Ht)
    as (out & E & _ & _ & O2 & O3 & O4 & G).
  exists out. split; [exact E|].
  split; [exact O2|]. split; [exact O3|]. split; [exact O4|].
  intros nLens cx cy Hn Hx Hy b c i j Hi Hj.
  pose proof (even_half ph Eph) as Hph2. pose proof (even_half pw Epw) as Hpw2.
  unfold interior in Hx, Hy.
  split; [lia|]. split; [lia|].
  - rewrite (G _ _ Hn). unfold slot_pixel, patch_len, patch_start.
    cbn [fst snd].
    rewrite !Z.max_l, !Z.min_l by lia.
    replace (ph - (cx + ph / 2 - (cx - ph / 2))) with 0 by lia.
    replace (pw - (cy + pw / 2 - (cy - pw / 2))) with 0 by lia.
    destruct (Z.leb_spec 0 i); [|lia]. destruct (Z.ltb_spec i ph); [|lia].
    destruct (Z.leb_spec 0 j); [|lia]. destruct (Z.ltb_spec j pw); [|lia].
    cbn [andb]. f_equal; lia.
Qed.

(** C2. A lenslet whose ideal rectangle is cut by the frame: only the lower
    bound of each axis is raised to 0 ([r0], [c0]); the upper bound goes to
    the slice unchanged, which stops at the end of the axis. The truncated
    patch, of [h x w] positions, is placed against the bottom right of the
    [ph x pw] slot: the slot is zero outside its last [h] rows and last [w]
    columns, and inside them it holds the frame from [(r0, c0)] on. For a
    rectangle that sticks out at the top or the left, [r0] or [c0] is 0. *)
Theorem extract_views_truncated_bottom_right :
  forall (A : Type) (SA : Scalar A) (image : tensor4 A)
         (lenslet_coords : list (Z * Z)) (ph pw : Z),
    shape4_ok image ->
    0 <= ph -> 0 <= pw ->
    table_meets image lenslet_coords (ph, pw) ->
    exists out,
      extract_views image lenslet_coords (ph, pw) = Ok out /\
      forall nLens cx cy,
        nth_error lenslet_coords nLens = Some (cx, cy) ->
        let r0 := Z.max (cx - ph / 2) 0 in
        let c0 := Z.max (cy - pw / 2) 0 in
        let h := Z.min (cx + ph / 2) (n4_2 image) - r0 in
        let w := Z.min (cy + pw / 2) (n4_3 image) - c0 in
        0 < h <= ph /\ 0 < w <= pw /\
        (cx - ph / 2 < 0 -> r0 = 0) /\ (cy - pw / 2 < 0 -> c0 = 0) /\
        forall b c i j, 0 <= i < ph -> 0 <= j < pw ->
          get5 out b c (Z.of_nat nLens) i j
            = if (ph - h <=? i) && (pw - w <=? j)
              then get4 image b c (r0 + (i - (ph - h))) (c0 + (j - (pw - w)))
              else zero.
Proof.
  intros A SA image coords ph pw Hs Hph Hpw Ht.
  destruct (extract_views_spec image ph pw coords Hs Hph Hpw Ht)
    as (out & E & _ & _ & _ & _ & _ & G).
  exists out. split; [exact E|].
  intros n cx cy Hn r0 c0 h w.
  pose proof Ht as Ht0. unfold table_meets in Ht0.
  rewrite Forall_forall in Ht0.
  destruct (Ht0 _ (nth_error_In _ _ Hn)) as [Hr Hc]. cbn [fst snd] in Hr, Hc.
  split; [exact (meets_len _ _ _ Hr)|].
  split; [exact (meets_len _ _ _ Hc)|].
  split; [subst r0; lia|]. split; [subst c0; lia|].
  intros b c i j Hi Hj. rewrite (G _ _ Hn).
  unfold slot_pixel, patch_start. cbn [fst snd].
  fold r0 c0. change (patch_len cx ph (n4_2 image)) with h.
  change (patch_len cy pw (n4_3 image)) with w.
  destruct (Z.ltb_spec i ph); [|lia]. destruct (Z.ltb_spec j pw); [|lia].
  destruct (ph - h <=? i), (pw - w <=? j); reflexivity.
Qed.

Lemma extract_views_interior_witness :
  exists out,
    extract_views ramp_image [(3, 3)] (4, 4) = Ok out /\
    forall i j, 0 <= i < 4 -> 0 <= j < 4 ->
      get5 out 0 0 0 i j = 10 * (1 + i) + (1 + j).
Proof.
  destruct (extract_views_interior_fills_slot Z Scalar_Z ramp_image [(3, 3)] 4 4)
    as (out & E & _ & _ & _ & G).
  - unfold shape4_ok; cbn; lia.
  - lia.
  - lia.
  - reflexivity.
  - reflexivity.
  - repeat constructor; unfold meets; cbn; lia.
  - exists out. split; [exact E|]. intros i j Hi Hj.
    destruct (G 0%nat 3 3 eq_refl) with (b := 0) (c := 0) (i := i) (j := j)
      as (_ & _ & Hg); try (unfold interior; cbn; lia).
    change (Z.of_nat 0) with 0 in Hg. rewrite Hg. cbn. lia.
Defined.

Lemma extract_views_corner_witness :
  exists out,
    extract_views ramp_image [(0, 0)] (4, 4) = Ok out /\
    forall i j, 0 <= i < 4 -> 0 <= j < 4 ->
      get5 out 0 0 0 i j
        = if (2 <=? i) && (2 <=? j) then 10 * (i - 2) + (j - 2) else 0.
Proof.
  destruct (extract_views_truncated_bottom_right Z Scalar_Z ramp_image [(0, 0)] 4 4)
    as (out & E & G).
  - unfold shape4_ok; cbn; lia.
  - lia.
  - lia.
  - repeat constructor; unfold meets; cbn; lia.
  - exists out. split; [exact E|]. intros i j Hi Hj.
    destruct (G 0%nat 0 0 eq_refl) as (_ & _ & _ & _ & Hg).
    change (Z.of_nat 0) with 0 in Hg. rewrite (Hg 0 0 i j Hi Hj). reflexivity.
Defined.

(** With an odd patch height the slice has one row less than the slot, and
    the first row of the slot stays zero even for an interior lenslet. *)
Example extract_views_odd_patch_height :
  exists out,
    extract_views ramp_image [(3, 3)] (3, 4) = Ok out /\
    map (fun i => map (fun j => get5 out 0 0 0 i j) (Py.range 4)) (Py.range 3)
      = [[0; 0; 0; 0]; [21; 22; 23; 24]; [31; 32; 33; 34]].
Proof. eexists. split; reflexivity. Qed.

(** ** SpatialAligner *)

(** C5, as the code has it. For every spatial extent [(H, W)], even or odd,
    [half = (H//2, W//2)], [start = (H//2 - half_h, W//2 - half_w) = (0, 0)]
    and [end = start + (H, W) = (H, W)]: the window is the full extent, and
    it depends on the extent alone, so computing it again on a volume of the
    same extent gives the same window. *)
Theorem canonical_window_full_extent :
  forall (A : Type) (currVol : tensor3 A),
    canonical_window currVol = ((0, 0), (n3_0 currVol, n3_1 currVol)) /\
    forall again : tensor3 A,
      n3_0 again = n3_0 currVol -> n3_1 again = n3_1 currVol ->
      canonical_window again = canonical_window currVol.
Proof.
  intros A v. unfold canonical_window. cbn [fst snd]. split.
  - rewrite !Z.sub_diag, !Z.add_0_r. reflexivity.
  - intros v' -> ->. reflexivity.
Qed.

(** C5, against the claim: on a 5 x 7 volume the window is not shifted by a
    voxel, it starts at [(0, 0)] and ends at [(5, 7)]. *)
Lemma canonical_window_odd_not_shifted :
  canonical_window odd_volume = ((0, 0), (5, 7)).
Proof. reflexivity. Qed.

Section Fill0.

Context {A : Type} `{Scalar A}.
Variables (lo hi : option Z) (t : tensor3 A).

Lemma fill0_axis0_n0 : n3_0 (fill0_axis0 lo hi t) = n3_0 t.
Proof. unfold fill0_axis0. now destruct (Py.slice lo hi (n3_0 t)). Qed.
Lemma fill0_axis0_n1 : n3_1 (fill0_axis0 lo hi t) = n3_1 t.
Proof. unfold fill0_axis0. now destruct (Py.slice lo hi (n3_0 t)). Qed.
Lemma fill0_axis0_n2 : n3_2 (fill0_axis0 lo hi t) = n3_2 t.
Proof. unfold fill0_axis0. now destruct (Py.slice lo hi (n3_0 t)). Qed.
Lemma fill0_axis1_n0 : n3_0 (fill0_axis1 lo hi t) = n3_0 t.
Proof. unfold fill0_axis1. now destruct (Py.slice lo hi (n3_1 t)). Qed.
Lemma fill0_axis1_n1 : n3_1 (fill0_axis1 lo hi t) = n3_1 t.
Proof. unfold fill0_axis1. now destruct (Py.slice lo hi (n3_1 t)). Qed.
Lemma fill0_axis1_n2 : n3_2 (fill0_axis1 lo hi t) = n3_2 t.
Proof. unfold fill0_axis1. now destruct (Py.slice lo hi (n3_1 t)). Qed.
Lemma fill0_axis2_n0 : n3_0 (fill0_axis2 lo hi t) = n3_0 t.
Proof. unfold fill0_axis2. now destruct (Py.slice lo hi (n3_2 t)). Qed.
Lemma fill0_axis2_n1 : n3_1 (fill0_axis2 lo hi t) = n3_1 t.
Proof. unfold fill0_axis2. now destruct (Py.slice lo hi (n3_2 t)). Qed.
Lemma fill0_axis2_n2 : n3_2 (fill0_axis2 lo hi t) = n3_2 t.
Proof. unfold fill0_axis2. now destruct (Py.slice lo hi (n3_2 t)). Qed.

Lemma fill0_axis0_get (i j k : Z) :
  get3 (fill0_axis0 lo hi t) i j k
    = if inside i (fst (Py.slice lo hi (n3_0 t))) (snd (Py.slice lo hi (n3_0 t)))
      then zero else get3 t i j k.
Proof. unfold fill0_axis0. now destruct (Py.slice lo hi (n3_0 t)). Qed.

Lemma fill0_axis1_get (i j k : Z) :
  get3 (fill0_axis1 lo hi t) i j k
    = if inside j (fst (Py.slice lo hi (n3_1 t))) (snd (Py.slice lo hi (n3_1 t)))
      then zero else get3 t i j k.
Proof. unfold fill0_axis1. now destruct (Py.slice lo hi (n3_1 t)). Qed.

Lemma fill0_axis2_get (i j k : Z) :
  get3 (fill0_axis2 lo hi t) i j k
    = if inside k (fst (Py.slice lo hi (n3_2 t))) (snd (Py.slice lo hi (n3_2 t)))
      then zero else get3 t i j k.
Proof. unfold fill0_axis2. now destruct (Py.slice lo hi (n3_2 t)). Qed.

End Fill0.

Create Rewrite HintDb fill0.
#[export] Hint Rewrite
  @fill0_axis0_n0 @fill0_axis0_n1 @fill0_axis0_n2
  @fill0_axis1_n0 @fill0_axis1_n1 @fill0_axis1_n2
  @fill0_axis2_n0 @fill0_axis2_n1 @fill0_axis2_n2
  @fill0_axis0_get @fill0_axis1_get @fill0_axis2_get : fill0.

(** C9. With [border_blanking = b > 0], the volume the ingest loop goes on
    with has the shape of the decoded one, is zero at every voxel within [b]
    of one of the six faces of its three axes, and holds the decoded value at
    every other voxel. *)
Theorem ingest_blanks_border_faces :
  forall (A : Type) (SA : Scalar A) (all_files : list (tensor3 A))
         (border_blanking curr_img : Z) (currVol : tensor3 A),
    Py.getitem all_files curr_img = Ok currVol ->
    any_isinf currVol = false ->
    shape3_ok currVol ->
    0 < border_blanking ->
    exists blanked,
      XLFMDatasetFull.ingest_vol all_files border_blanking curr_img = Ok blanked /\
      n3_0 blanked = n3_0 currVol /\ n3_1 blanked = n3_1 currVol /\
      n3_2 blanked = n3_2 currVol /\
      forall i j k,
        0 <= i < n3_0 currVol -> 0 <= j < n3_1 currVol -> 0 <= k < n3_2 currVol ->
        get3 blanked i j k
          = if near_face border_blanking currVol i j k then zero
            else get3 currVol i j k.
Proof.
  intros A SA all_files b n v Hget Hinf (H0 & H1 & H2) Hb.
  unfold XLFMDatasetFull.ingest_vol, assert_no_inf.
  rewrite Hget. cbn [bind]. rewrite Hinf. cbn [bind].
  eexists. split; [reflexivity|].
  unfold blank_border. rewrite (proj2 (Z.ltb_lt 0 b) Hb).
  autorewrite with fill0. repeat split.
  intros i j k Hi Hj Hk. unfold near_face.
  autorewrite with fill0.
  rewrite !slice_head, !slice_last by assumption. cbn [fst snd].
  rewrite !inside_head, !inside_last by assumption.
  destruct (i <? b), (n3_0 v - b <=? i), (j <? b), (n3_1 v - b <=? j),
           (k <? b), (n3_2 v - b <=? k); reflexivity.
Qed.

Lemma ingest_blanks_border_witness :
  exists blanked,
    XLFMDatasetFull.ingest_vol [cube10] 2 0 = Ok blanked /\
    forall i j k, 0 <= i < 10 -> 0 <= j < 10 -> 0 <= k < 10 ->
      get3 blanked i j k
        = if (2 <=? i) && (i <? 8) && (2 <=? j) && (j <? 8) && (2 <=? k) && (k <? 8)
          then get3 cube10 i j k else 0.
Proof.
  destruct (ingest_blanks_border_faces Z Scalar_Z [cube10] 2 0 cube10)
    as (v & E & _ & _ & _ & G).
  - reflexivity.
  - reflexivity.
  - unfold shape3_ok; cbn; lia.
  - lia.
  - exists v. split; [exact E|]. intros i j k Hi Hj Hk.
    rewrite (G i j k Hi Hj Hk). unfold near_face. cbn [n3_0 n3_1 n3_2 cube10].
    change (10 - 2) with 8.
    rewrite (Z.leb_antisym i 2), (Z.leb_antisym j 2), (Z.leb_antisym k 2),
      (Z.ltb_antisym 8 i), (Z.ltb_antisym 8 j), (Z.ltb_antisym 8 k).
    destruct (i <? 2), (8 <=? i), (j <? 2), (8 <=? j), (k <? 2), (8 <=? k);
      reflexivity.
Defined.

Section Pad.

Context {A : Type} `{Scalar A}.

(** With no positive amount [F.pad] only narrows: it returns as long as no
    axis is left with a negative size. *)
Lemma F_pad_narrows (image : tensor2 A) (l r t b : Z) :
  l <= 0 -> r <= 0 -> t <= 0 -> b <= 0 ->
  0 <= n2_1 image + l + r -> 0 <= n2_0 image + t + b ->
  F_pad image l r t b
    = Ok (T2 (n2_0 image + t + b) (n2_1 image + l + r)
            (fun i j =>
               if inside (i - t) 0 (n2_0 image) && inside (j - l) 0 (n2_1 image)
               then get2 image (i - t) (j - l) else zero)).
Proof.
  intros Hl Hr Ht Hb Hw Hh. unfold F_pad. cbv zeta.
  rewrite !Z.min_l by assumption.
  rewrite (proj2 (Z.leb_le _ _) Hw), (proj2 (Z.leb_le _ _) Hh),
          (proj2 (Z.leb_le _ _) Hl), (proj2 (Z.leb_le _ _) Hr),
          (proj2 (Z.leb_le _ _) Ht), (proj2 (Z.leb_le _ _) Hb).
  reflexivity.
Qed.

Lemma F_pad_narrow_raises (image : tensor2 A) (l r t b : Z) :
  l <= 0 -> r <= 0 -> t <= 0 -> b <= 0 ->
  n2_1 image + l + r < 0 \/ n2_0 image + t + b < 0 ->
  F_pad image l r t b = Raise RuntimeError.
Proof.
  intros Hl Hr Ht Hb Hneg. unfold F_pad. cbv zeta.
  rewrite !Z.min_l by assumption.
  destruct Hneg as [Hneg|Hneg].
  - rewrite (proj2 (Z.leb_gt _ _) Hneg). reflexivity.
  - rewrite (proj2 (Z.leb_gt _ _) Hneg), andb_false_r. reflexivity.
Qed.

End Pad.

(** C7. [pad_img_to_min] hands [F.pad] the amounts
    [(min(h,w) - w)//2] for the left and for the right of the width axis, and
    the whole difference [min(h,w) - h] for the top and again for the bottom
    of the height axis. None of them is positive, so positions are removed:
    whenever the resulting sizes are positive the call returns a frame of
    shape [(h + 2*(min(h,w) - h), w + 2*((min(h,w) - w)//2))] that holds the
    input shifted by the top and left amounts. *)
Theorem pad_img_to_min_asymmetric :
  forall (A : Type) (SA : Scalar A) (image : tensor2 A),
    let h := n2_0 image in
    let w := n2_1 image in
    let m := Z.min h w in
    0 < h + 2 * (m - h) ->
    0 < w + 2 * ((m - w) / 2) ->
    exists out,
      pad_img_to_min image = Ok out /\
      pad_img_to_min image
        = F_pad image ((m - w) / 2) ((m - w) / 2) (m - h) (m - h) /\
      n2_0 out = h + 2 * (m - h) /\
      n2_1 out = w + 2 * ((m - w) / 2) /\
      forall i j, 0 <= i < n2_0 out -> 0 <= j < n2_1 out ->
        0 <= i - (m - h) < h /\ 0 <= j - (m - w) / 2 < w /\
        get2 out i j = get2 image (i - (m - h)) (j - (m - w) / 2).
Proof.
  intros A SA image h w m Hh Hw.
  assert (Hp : (m - w) / 2 <= 0).
  { pose proof (Z.div_mod (m - w) 2). pose proof (Z.mod_pos_bound (m - w) 2). lia. }
  unfold pad_img_to_min. cbn [fst snd]. fold h w m.
  rewrite (F_pad_narrows image) by (fold h w; lia).
  eexists. split; [reflexivity|]. split; [reflexivity|].
  cbn [n2_0 n2_1 get2]. fold h w. split; [lia|]. split; [lia|].
  intros i j Hi Hj.
  assert (Hi' : 0 <= i - (m - h) < h) by lia.
  assert (Hj' : 0 <= j - (m - w) / 2 < w) by lia.
  split; [exact Hi'|]. split; [exact Hj'|].
  rewrite (proj2 (inside_spec _ 0 h)), (proj2 (inside_spec _ 0 w)) by lia.
  reflexivity.
Qed.

Lemma pad_img_to_min_witness :
  exists out,
    pad_img_to_min wide_frame = Ok out /\
    n2_0 out = 4 /\ n2_1 out = 4 /\
    forall i j, 0 <= i < 4 -> 0 <= j < 4 -> get2 out i j = get2 wide_frame i (j + 1).
Proof.
  destruct (pad_img_to_min_asymmetric Z Scalar_Z wide_frame)
    as (out & E & _ & R & C & G).
  - cbn. lia.
  - cbn. lia.
  - exists out. split; [exact E|]. split; [exact R|]. split; [exact C|].
    intros i j Hi Hj.
    destruct (G i j) as (_ & _ & Hg); [rewrite R; exact Hi | rewrite C; exact Hj |].
    rewrite Hg. unfold wide_frame. cbn [get2 n2_0 n2_1].
    change (Z.min 4 6) with 4. change ((4 - 6) / 2) with (-1). lia.
Defined.

(** On a portrait frame the height loses the difference twice: 6 x 4 gives
    2 x 4, not a square. *)
Example pad_img_to_min_tall :
  exists out, pad_img_to_min tall_frame = Ok out /\
    rows_of out = [[20; 21; 22; 23]; [30; 31; 32; 33]].
Proof. eexists. split; reflexivity. Qed.

(** ** Python sequences *)

Lemma fold_max_spec (r : list Z) :
  forall x, let m := fold_left Z.max r x in
    (m = x \/ In m r) /\ x <= m /\ forall y, In y r -> y <= m.
Proof.
  induction r as [|a r IH]; intros x; cbn.
  - split; [left; reflexivity|]. split; [lia|]. intros y [].
  - destruct (IH (Z.max x a)) as ([E|E] & Hx & Hr).
    + split; [|split; [lia|intros y [<-|Hy]; [lia|auto]]].
      rewrite E. destruct (Z.max_spec x a) as [[_ ->]|[_ ->]]; auto.
    + split; [auto|]. split; [lia|]. intros y [<-|Hy]; [lia|auto].
Qed.

Lemma fold_min_spec (r : list Z) :
  forall x, let m := fold_left Z.min r x in
    (m = x \/ In m r) /\ m <= x /\ forall y, In y r -> m <= y.
Proof.
  induction r as [|a r IH]; intros x; cbn.
  - split; [left; reflexivity|]. split; [lia|]. intros y [].
  - destruct (IH (Z.min x a)) as ([E|E] & Hx & Hr).
    + split; [|split; [lia|intros y [<-|Hy]; [lia|auto]]].
      rewrite E. destruct (Z.min_spec x a) as [[_ ->]|[_ ->]]; auto.
    + split; [auto|]. split; [lia|]. intros y [<-|Hy]; [lia|auto].
Qed.

(** [max(l)] is the greatest element of a sequence that has one. *)
Lemma py_max_greatest (l : list Z) (m : Z) :
  In m l -> (forall x, In x l -> x <= m) -> Py.max l = Ok m.
Proof.
  destruct l as [|x r]; [intros []|]. intros Hin Hle. cbn. f_equal.
  destruct (fold_max_spec r x) as (Hm & Hx & Hr).
  assert (fold_left Z.max r x <= m).
  { destruct Hm as [->|Hm]; apply Hle; [left; reflexivity | right; exact Hm]. }
  destruct Hin as [<-|Hin]; [lia|]. specialize (Hr _ Hin). lia.
Qed.

Lemma py_min_least (l : list Z) (m : Z) :
  In m l -> (forall x, In x l -> m <= x) -> Py.min l = Ok m.
Proof.
  destruct l as [|x r]; [intros []|]. intros Hin Hle. cbn. f_equal.
  destruct (fold_min_spec r x) as (Hm & Hx & Hr).
  assert (m <= fold_left Z.min r x).
  { destruct Hm as [->|Hm]; apply Hle; [left; reflexivity | right; exact Hm]. }
  destruct Hin as [<-|Hin]; [lia|]. specialize (Hr _ Hin). lia.
Qed.

Lemma len_range (n : Z) : 0 <= n -> Py.len (Py.range n) = n.
Proof.
  intros Hn. unfold Py.len, Py.range. rewrite length_map, length_seq. lia.
Qed.

Lemma in_range (n x : Z) : In x (Py.range n) <-> 0 <= x < n.
Proof.
  unfold Py.range. rewrite in_map_iff. split.
  - intros (k & <- & Hk). apply in_seq in Hk. lia.
  - intros Hx. exists (Z.to_nat x). split; [lia|]. apply in_seq. lia.
Qed.

Lemma list_eqb_refl (l : list Z) : Py.list_eqb l l = true.
Proof. induction l; cbn; [reflexivity|]. now rewrite Z.eqb_refl. Qed.

Lemma sorted_seq (k : nat) :
  forall a, Py.sorted (map Z.of_nat (seq a k)) = map Z.of_nat (seq a k).
Proof.
  induction k as [|k IH]; intros a; [reflexivity|].
  cbn [seq map Py.sorted fold_right]. fold (Py.sorted (map Z.of_nat (seq (S a) k))).
  rewrite IH. destruct k as [|k]; [reflexivity|].
  cbn [seq map Py.insert].
  destruct (Z.leb_spec (Z.of_nat a) (Z.of_nat (S a))); [reflexivity|lia].
Qed.

(** [[0, 1, ..., n-1]] passes the test for a contiguous run. *)
Lemma range_is_contiguous (n : Z) : 0 < n -> is_contiguous (Py.range n) = Ok true.
Proof.
  intros Hn. unfold is_contiguous.
  rewrite (py_min_least (Py.range n) 0), (py_max_greatest (Py.range n) (n - 1)).
  - cbn [bind]. f_equal. unfold Py.range2.
    replace (n - 1 + 1 - 0) with n by lia.
    rewrite (map_ext (fun k => 0 + k) (fun k => k)) by (intros; lia).
    rewrite map_id. unfold Py.range. rewrite sorted_seq. apply list_eqb_refl.
  - apply in_range. lia.
  - intros x Hx. apply in_range in Hx. lia.
  - apply in_range. lia.
  - intros x Hx. apply in_range in Hx. lia.
Qed.

Lemma skipn_nth {X : Type} (l : list X) :
  forall a, (a < length l)%nat ->
    exists x, nth_error l a = Some x /\ skipn a l = x :: skipn (S a) l.
Proof.
  induction l as [|y l IH]; intros a Ha; cbn in Ha; [lia|].
  destruct a as [|a].
  - exists y. split; reflexivity.
  - destruct (IH a) as (x & E1 & E2); [lia|]. exists x. split; assumption.
Qed.

Lemma getitem_nat {X : Type} (l : list X) (a : nat) (x : X) :
  nth_error l a = Some x -> Py.getitem l (Z.of_nat a) = Ok x.
Proof.
  intros E. assert (a < length l)%nat by (apply nth_error_Some; congruence).
  unfold Py.getitem, Py.index, Py.len.
  destruct (Z.leb_spec 0 (Z.of_nat a)); [|lia].
  destruct (Z.ltb_spec (Z.of_nat a) (Z.of_nat (length l))); [|lia].
  cbn [andb bind]. rewrite Nat2Z.id, E. reflexivity.
Qed.

(** Reading the first [k] entries of a sequence one by one. *)
Lemma mapM_getitem_seq {X Y : Type} (f : X -> Y) (l : list X) (k : nat) :
  forall a, (a + k <= length l)%nat ->
    mapM (fun i => s <- Py.getitem l i ;; Ok (f s)) (map Z.of_nat (seq a k))
      = Ok (map f (firstn k (skipn a l))).
Proof.
  induction k as [|k IH]; intros a Ha; [reflexivity|].
  destruct (skipn_nth l a) as (x & E1 & E2); [lia|].
  cbn [seq map mapM]. rewrite (getitem_nat l a x E1). cbn [bind].
  rewrite IH by lia. cbn [bind]. rewrite E2. reflexivity.
Qed.

Lemma mapM_getitem_range {X Y : Type} (f : X -> Y) (l : list X) (n : Z) :
  0 <= n <= Py.len l ->
  mapM (fun i => s <- Py.getitem l i ;; Ok (f s)) (Py.range n)
    = Ok (map f (firstn (Z.to_nat n) l)).
Proof.
  intros Hn. unfold Py.range. rewrite mapM_getitem_seq; [reflexivity|].
  unfold Py.len in Hn. lia.
Qed.

(** ** TemporalIndexer *)

Lemma firstn_len {X : Type} (l : list X) : firstn (Z.to_nat (Py.len l)) l = l.
Proof. unfold Py.len. rewrite Nat2Z.id. apply firstn_all. Qed.

Lemma length_map_len {X Y : Type} (f : X -> Y) (l : list X) :
  Py.len (map f l) = Py.len l.
Proof. unfold Py.len. now rewrite length_map. Qed.

Lemma len_nonneg {X : Type} (l : list X) : 0 <= Py.len l.
Proof. unfold Py.len. lia. Qed.

(** C3, as the code has it by design. (a) When the configured shifts are
    [[0, 1, ..., n-1]] and [use_random_shifts] is not set, frame [i] of the
    window is [index + i], and nothing is drawn. (b) When the shifts are not
    a contiguous run and [use_random_shifts] is not set, the configured
    shifts are used: frame [i] is [index + shifts[i]], and nothing is drawn.
    (c) When the shifts are not a contiguous run, [use_random_shifts] is
    set, there are at most three shifts and at least two stored images,
    three numbers are drawn, each in [[0, n_images - 1)]; the first
    [len(shifts)] of them are taken as the frames themselves (the base
    index is 0), and the generator moves on, so the next access draws
    again. *)
Theorem window_indices_by_case :
  forall (A : Type) (self : dataset A) (index : Z) (g : generator),
    (forall n, 0 < n -> temporal_shifts self = Py.range n ->
     use_random_shifts self = false ->
       window_indices self index g
         = Ok (map (fun i => index + i) (Py.range n), g)) /\
    (is_contiguous (temporal_shifts self) = Ok false ->
     use_random_shifts self = false ->
       window_indices self index g
         = Ok (map (fun s => index + s) (temporal_shifts self), g)) /\
    (is_contiguous (temporal_shifts self) = Ok false ->
     use_random_shifts self = true ->
     Py.len (temporal_shifts self) <= 3 -> 1 < n_images self ->
       exists r g',
         torch_randint 0 (n_images self - 1) (Some 3) g = Ok (r, g') /\
         length r = 3%nat /\
         Forall (fun x => 0 <= x < n_images self - 1) r /\
         cursor g' = (cursor g + 3)%nat /\
         window_indices self index g
           = Ok (map (fun s => 0 + s)
                   (firstn (length (temporal_shifts self)) r), g')).
Proof.
  intros A self index g. split; [|split].
  - intros n Hn Hs _. unfold window_indices, get_n_temporal_frames.
    rewrite Hs, (len_range n) by lia.
    rewrite (proj2 (Z.ltb_lt 0 n) Hn), (range_is_contiguous n Hn).
    cbn [bind negb].
    rewrite (mapM_getitem_range (fun s => index + s) (Py.range n) n)
      by (rewrite len_range; lia).
    cbn [bind]. rewrite <- (len_range n) at 1 by lia. rewrite firstn_len.
    reflexivity.
  - intros Hc Hr. unfold window_indices, get_n_temporal_frames.
    destruct (Z.ltb_spec 0 (Py.len (temporal_shifts self))) as [Hl|Hl].
    + rewrite Hc, Hr. cbn [bind negb].
      rewrite (mapM_getitem_range (fun s => index + s))
        by (pose proof (len_nonneg (temporal_shifts self)); lia).
      cbn [bind]. rewrite firstn_len. reflexivity.
    + destruct (temporal_shifts self) as [|x r]; [discriminate Hc|].
      unfold Py.len in Hl. cbn [length] in Hl. lia.
  - intros Hc Hr Hl3 Hn. unfold window_indices, get_n_temporal_frames.
    destruct (Z.ltb_spec 0 (Py.len (temporal_shifts self))) as [Hl|Hl].
    + rewrite Hc, Hr. cbn [bind negb]. unfold torch_randint.
      destruct (Z.leb_spec (n_images self - 1) 0); [lia|].
      cbn [Z.ltb Z.compare bind].
      eexists. eexists. split; [reflexivity|].
      split; [reflexivity|]. split.
      { cbn [seq map Z.to_nat Pos.to_nat Pos.iter_op Nat.add].
        rewrite Z.sub_0_r.
        repeat constructor;
          try (apply Z.mod_pos_bound; lia);
          pose proof (Z.mod_pos_bound
                        (stream g (cursor g + 0)) (n_images self - 1));
          pose proof (Z.mod_pos_bound
                        (stream g (cursor g + 1)) (n_images self - 1));
          pose proof (Z.mod_pos_bound
                        (stream g (cursor g + 2)) (n_images self - 1));
          lia. }
      split; [reflexivity|].
      rewrite (mapM_getitem_range (fun s => 0 + s)).
      * cbn [bind]. unfold Py.len. rewrite Nat2Z.id. reflexivity.
      * split; [apply len_nonneg|]. exact Hl3.
    + destruct (temporal_shifts self) as [|x r]; [discriminate Hc|].
      unfold Py.len in Hl. cbn [length] in Hl. lia.
Qed.

Lemma window_indices_witness :
  window_indices (stored_sample [0; 1; 2] false false) 3 gen0
    = Ok ([3; 4; 5], gen0).
Proof.
  exact (proj1 (window_indices_by_case Z (stored_sample [0; 1; 2] false false) 3 gen0)
           3 eq_refl eq_refl eq_refl).
Defined.

(** C3, against the claim. Shifts [[0, 2, 4]] are not contiguous, yet
    without [use_random_shifts] sample 3 resolves to [[3, 5, 7]]: the
    configured shifts, with nothing drawn. The generator is left as it was,
    and the window is the same from another state of the generator. *)
Lemma window_indices_not_redrawn :
  window_indices (stored_sample [0; 2; 4] false false) 3 gen0
    = Ok ([3; 5; 7], gen0) /\
  window_indices (stored_sample [0; 2; 4] false false) 3 (Generator (stream gen0) 3)
    = Ok ([3; 5; 7], Generator (stream gen0) 3).
Proof. split; reflexivity. Qed.

(** The one case that draws: three frame numbers below [n_images - 1],
    used from base 0 whatever the sample index. *)
Example window_indices_random_draw :
  window_indices (stored_sample [0; 2; 4] true false) 3 gen0
    = Ok ([5; 3; 1], Generator (stream gen0) 3) /\
  window_indices (stored_sample [0; 2; 4] true false) 3 (Generator (stream gen0) 3)
    = Ok ([8; 6; 4], Generator (stream gen0) 6).
Proof. split; reflexivity. Qed.

(** ** Sample counts *)

(** A computation that returned: its first step returned too. *)
Ltac bind_ok E :=
  match type of E with
  | bind ?c _ = Ok _ =>
      destruct c eqn:?; cbn [bind] in E; [|discriminate E]
  end.

Lemma init_fields {A : Type} `{Scalar A}
    (cc : tensor2 A -> Z * Z -> tensor2 A) (files : list (tensor3 A))
    (img_dataset : tensor3 A) (img_shape : Z * Z) (itu : option (list Z))
    (n_depths b : Z) (lv : bool) (shifts : list Z) (rnd : bool) (self : dataset A) :
  XLFMDatasetFull.__init__ cc files img_dataset img_shape itu n_depths b lv shifts rnd
    = Ok self ->
  images_to_use self = itu /\ load_vols self = lv /\
  temporal_shifts self = shifts /\ use_random_shifts self = rnd /\
  n_images self
    = Z.min (Py.len (match itu with Some l => l | None => Py.range (n3_0 img_dataset) end))
            (n3_0 img_dataset).
Proof.
  unfold XLFMDatasetFull.__init__. intros E.
  do 4 bind_ok E.
  match type of E with
  | context [match ?p with pair _ _ => _ end] => destruct p as [window vols0]
  end.
  do 2 bind_ok E.
  injection E as <-. cbn. repeat split; reflexivity.
Qed.

(** C4, as the code has it. A paired dataset ([XLFMDatasetFull]) reports
    [n_images = min(len(images_to_use), n_frames)] samples whatever the
    shifts and whether or not [use_random_shifts] is set (its constructor
    loads [max(shifts)] frames beyond the last one used instead). It is the
    registration and the volume-only datasets that report
    [n_images - max(shifts)] when [use_random_shifts] is false and [n_images]
    when it is true. *)
Theorem len_by_policy :
  forall (A : Type) (SA : Scalar A)
         (crop : tensor2 A -> Z * Z -> tensor2 A)
         (files : list (tensor3 A)) (img_dataset : tensor3 A) (img_shape : Z * Z)
         (itu : list Z) (n_depths_to_fill border_blanking : Z)
         (with_vols : bool) (shifts : list Z) (random : bool)
         (self : dataset A),
    XLFMDatasetFull.__init__ crop files img_dataset img_shape
      (Some itu) n_depths_to_fill border_blanking with_vols shifts random
      = Ok self ->
    XLFMDatasetFull.__len__ self = Z.min (Py.len itu) (n3_0 img_dataset) /\
    temporal_shifts self = shifts /\ use_random_shifts self = random /\
    forall (other : dataset A) (m : Z),
      In m (temporal_shifts other) ->
      (forall x, In x (temporal_shifts other) -> x <= m) ->
      XLFMDatasetFullRegistration.__len__ other
        = Ok (if use_random_shifts other then n_images other
              else n_images other - m) /\
      XLFMDatasetVol.__len__ other
        = Ok (if use_random_shifts other then n_images other
              else n_images other - m).
Proof.
  intros A SA crop files img_dataset img_shape itu nd b lv shifts rnd self E.
  destruct (init_fields _ _ _ _ _ _ _ _ _ _ _ E) as (_ & _ & Hs & Hr & Hn).
  split; [exact Hn|]. split; [exact Hs|]. split; [exact Hr|].
  intros other m Hin Hle.
  unfold XLFMDatasetFullRegistration.__len__, XLFMDatasetVol.__len__, np_max.
  rewrite (py_max_greatest _ m Hin Hle). cbn [bind].
  destruct (use_random_shifts other); split; reflexivity.
Qed.

Lemma len_by_policy_witness :
  (self <- paired_sample ;; Ok (XLFMDatasetFull.__len__ self)) = Ok 10 /\
  XLFMDatasetFullRegistration.__len__ (stored_sample [0; 1; 2] false false) = Ok 8 /\
  XLFMDatasetFullRegistration.__len__ (stored_sample [0; 1; 2] true false) = Ok 10.
Proof.
  unfold paired_sample.
  destruct (XLFMDatasetFull.__init__ center_crop [] frames12 (1, 1)
              (Some (Py.range 10)) 1 0 false [0; 1; 2] false)
    as [self|e] eqn:E; [|vm_compute in E; discriminate E].
  destruct (len_by_policy Z Scalar_Z center_crop [] frames12 (1, 1) (Py.range 10)
              1 0 false [0; 1; 2] false self E)
    as (Hn & _ & _ & Hl).
  cbn [bind]. rewrite Hn. split; [reflexivity|]. split.
  - exact (proj1 (Hl (stored_sample [0; 1; 2] false false) 2
                    (or_intror (or_intror (or_introl eq_refl)))
                    ltac:(cbn; intros x [<-|[<-|[<-|[]]]]; lia))).
  - exact (proj1 (Hl (stored_sample [0; 1; 2] true false) 2
                    (or_intror (or_intror (or_introl eq_refl)))
                    ltac:(cbn; intros x [<-|[<-|[<-|[]]]]; lia))).
Defined.

(** C4, against the claim: a paired dataset over ten images with shifts
    [[0, 1, 2]] and [use_random_shifts = False] has length 10, not
    [10 - max(shifts) = 8]. *)
Lemma len_paired_not_reduced :
  (self <- paired_sample ;;
   Ok (XLFMDatasetFull.__len__ self, n_images self,
       temporal_shifts self, use_random_shifts self))
    = Ok (10, 10, [0; 1; 2], false).
Proof. vm_compute. reflexivity. Qed.

(** ** The registration policy *)

(** C8, on the code. With volumes loaded, [__getitem__] of the registration
    dataset never returns: once the views and [vol_out1] are read and
    [__len__()] is evaluated, [torch.randint(0, self.__len__())] is called
    without the [size] argument that the call three lines above passes
    ([[3]]), and raises [TypeError]; any earlier failure is an exception
    too. No volume, random or not, is handed back. *)
Theorem registration_getitem_raises :
  forall (A : Type) (self : dataset A) (index : Z) (g : generator),
    load_vols self = true ->
    is_ok (XLFMDatasetFullRegistration.__getitem__ self index g) = false /\
    forall indices g1 views v vol_out1 n,
      window_indices self index g = Ok (indices, g1) ->
      gather3 (stacked_views self) indices = Ok views ->
      vols self = Some v ->
      select4 v index = Ok vol_out1 ->
      XLFMDatasetFullRegistration.__len__ self = Ok n ->
      XLFMDatasetFullRegistration.__getitem__ self index g = Raise TypeError.
Proof.
  intros A self index g Hlv. unfold XLFMDatasetFullRegistration.__getitem__.
  rewrite Hlv. cbn [negb]. split.
  - destruct (window_indices self index g) as [[indices g1]|]; [|reflexivity].
    cbn [bind]. destruct (gather3 _ indices); [|reflexivity].
    cbn [bind]. destruct (vols self); [|reflexivity].
    destruct (select4 _ index); [|reflexivity].
    cbn [bind]. destruct (XLFMDatasetFullRegistration.__len__ self); reflexivity.
  - intros indices g1 views v vol_out1 n E1 E2 E3 E4 E5.
    rewrite E1. cbn [bind]. rewrite E2. cbn [bind]. rewrite E3, E4. cbn [bind].
    rewrite E5. reflexivity.
Qed.

Lemma registration_getitem_witness :
  XLFMDatasetFullRegistration.__getitem__ (stored_sample [0] false true) 0 gen0
    = Raise TypeError.
Proof.
  destruct (registration_getitem_raises Z (stored_sample [0] false true) 0 gen0 eq_refl)
    as [_ Hr].
  eapply Hr; vm_compute; reflexivity.
Defined.

(** ** The ingest loop and its assertion *)

Lemma foldM_app {X S : Type} (step : X -> S -> result S) (l1 l2 : list X) (st : S) :
  foldM step (l1 ++ l2) st = (st' <- foldM step l1 st ;; foldM step l2 st').
Proof.
  revert st. induction l1 as [|x l1 IH]; intros st; cbn [app foldM bind].
  - reflexivity.
  - destruct (step x st); cbn [bind]; [apply IH|reflexivity].
Qed.

(** A loop raises exactly when one of its turns does, the turns before it
    having gone through. *)
Lemma foldM_raise {X S : Type} (step : X -> S -> result S) (e : exn) (l : list X) :
  forall st,
    foldM step l st = Raise e <->
    exists before x after st',
      l = before ++ x :: after /\
      foldM step before st = Ok st' /\ step x st' = Raise e.
Proof.
  induction l as [|y l IH]; intros st; cbn [foldM].
  - split; [discriminate|].
    intros (before & x & after & st' & E & _). destruct before; discriminate E.
  - split.
    + intros E. destruct (step y st) as [st1|e1] eqn:Ey; cbn [bind] in E.
      * apply IH in E. destruct E as (before & x & after & st' & -> & E1 & E2).
        exists (y :: before), x, after, st'. cbn [app foldM]. rewrite Ey.
        repeat split; assumption.
      * exists [], y, l, st. repeat split. congruence.
    + intros (before & x & after & st' & E & E1 & E2).
      destruct before as [|z before]; cbn [app] in E; injection E as -> ->.
      * cbn [foldM] in E1. injection E1 as ->. rewrite E2. reflexivity.
      * cbn [foldM] in E1. destruct (step z st) as [st1|]; cbn [bind] in *;
          [|discriminate E1].
        apply IH. exists before, x, after, st'. repeat split; assumption.
Qed.

Section NoAssertion.

Context {A : Type} `{Scalar A}.

Ltac never_assert :=
  intros E;
  repeat match type of E with
         | (let '(_, _) := ?p in _) = _ => destruct p
         | (if ?b then _ else _) = _ => destruct b
         | bind ?c _ = _ => destruct c eqn:?; cbn [bind] in E
         end;
  try discriminate E.

Lemma index_never_asserts (i n : Z) : Py.index i n <> Raise AssertionError.
Proof. unfold Py.index. never_assert. Qed.

Lemma getitem_never_asserts {X : Type} (l : list X) (i : Z) :
  Py.getitem l i <> Raise AssertionError.
Proof.
  unfold Py.getitem. intros E. destruct (Py.index i (Py.len l)) eqn:Ei; cbn [bind] in E.
  - destruct (nth_error l (Z.to_nat a)); discriminate E.
  - (injection E as ->; exact (index_never_asserts _ _ Ei)).
Qed.

Lemma bcast_never_asserts (n m : Z) : bcast n m <> Raise AssertionError.
Proof. unfold bcast. never_assert. Qed.

Lemma store_vol_never_asserts (vS vE : Z * Z) (nImg : Z) (v : tensor3 A)
    (vols : tensor4 A) :
  XLFMDatasetFull.store_vol vS vE nImg v vols <> Raise AssertionError.
Proof.
  unfold XLFMDatasetFull.store_vol. intros E.
  repeat match type of E with
         | (let '(_, _) := ?p in _) = _ => destruct p
         end.
  destruct (Py.index nImg (n4_0 vols)) eqn:E0; cbn [bind] in E;
    [|(injection E as ->; exact (index_never_asserts _ _ E0))].
  repeat match type of E with
         | (let '(_, _) := ?p in _) = _ => destruct p
         | bind (bcast ?n ?m) _ = _ =>
             let Eb := fresh "Eb" in
             destruct (bcast n m) eqn:Eb; cbn [bind] in E;
             [|(injection E as ->; exact (bcast_never_asserts _ _ Eb))]
         end.
  discriminate E.
Qed.

Lemma store_view_never_asserts (nImg : Z) (image : tensor2 A) (views : tensor3 A) :
  XLFMDatasetFull.store_view nImg image views <> Raise AssertionError.
Proof.
  unfold XLFMDatasetFull.store_view. intros E.
  destruct (Py.index nImg (n3_0 views)) eqn:E0; cbn [bind] in E;
    [|(injection E as ->; exact (index_never_asserts _ _ E0))].
  repeat match type of E with
         | bind (bcast ?n ?m) _ = _ =>
             let Eb := fresh "Eb" in
             destruct (bcast n m) eqn:Eb; cbn [bind] in E;
             [|(injection E as ->; exact (bcast_never_asserts _ _ Eb))]
         end.
  discriminate E.
Qed.

Lemma ingest_img_never_asserts (crop : tensor2 A -> Z * Z -> tensor2 A)
    (img_dataset : tensor3 A) (img_shape : Z * Z) (curr_img : Z) :
  XLFMDatasetFull.ingest_img crop img_dataset img_shape curr_img
    <> Raise AssertionError.
Proof.
  unfold XLFMDatasetFull.ingest_img, select3. intros E.
  destruct (Py.index curr_img (n3_0 img_dataset)) eqn:E0; cbn [bind] in E;
    [|(injection E as ->; exact (index_never_asserts _ _ E0))].
  unfold pad_img_to_min, F_pad in E.
  match type of E with
  | bind (if ?b then _ else _) _ = _ => destruct b
  end; discriminate E.
Qed.

(** One turn of the loop fails its assertion exactly when the volume it
    reads holds an infinity according to [torch.isinf]. *)
Lemma ingest_step_asserts (crop : tensor2 A -> Z * Z -> tensor2 A)
    (all_files : list (tensor3 A)) (img_dataset : tensor3 A) (img_shape : Z * Z)
    (b : Z) (vS vE : Z * Z) (nImg : Z) (st : tensor4 A * tensor3 A) :
  XLFMDatasetFull.ingest_step crop all_files img_dataset img_shape b true vS vE nImg st
    = Raise AssertionError
  <-> exists currVol,
        Py.getitem all_files nImg = Ok currVol /\ any_isinf currVol = true.
Proof.
  unfold XLFMDatasetFull.ingest_step, XLFMDatasetFull.ingest_vol, assert_no_inf.
  split.
  - intros E. destruct (Py.getitem all_files nImg) as [v|e] eqn:Eg; cbn [bind] in E.
    + exists v. split; [reflexivity|].
      destruct (any_isinf v); [reflexivity|]. exfalso. cbn [bind] in E.
      destruct (XLFMDatasetFull.store_vol vS vE nImg _ (fst st)) eqn:Es;
        cbn [bind] in E; [|(injection E as ->; exact (store_vol_never_asserts _ _ _ _ _ Es))].
      destruct (XLFMDatasetFull.ingest_img crop img_dataset img_shape nImg) eqn:Ei;
        cbn [bind] in E; [|(injection E as ->; exact (ingest_img_never_asserts _ _ _ _ Ei))].
      destruct (XLFMDatasetFull.store_view nImg _ (snd st)) eqn:Ev;
        cbn [bind] in E; [|(injection E as ->; exact (store_view_never_asserts _ _ _ Ev))].
      discriminate E.
    + exfalso. (injection E as ->; exact (getitem_never_asserts _ _ Eg)).
  - intros (v & -> & Hv). cbn [bind]. rewrite Hv. reflexivity.
Qed.

End NoAssertion.

Lemma existsb_range (p : Z -> bool) (n : Z) :
  existsb p (Py.range n) = true <-> exists i, 0 <= i < n /\ p i = true.
Proof.
  rewrite existsb_exists. split; intros (i & Hi & Hp); exists i; split; try assumption;
    apply in_range; assumption.
Qed.

Lemma any_isinf_has_inf (v : tensor3 half) : any_isinf v = true <-> has_inf v.
Proof.
  unfold any_isinf, has_inf. rewrite existsb_range. split.
  - intros (i & Hi & Hj). apply existsb_range in Hj as (j & Hj & Hk).
    apply existsb_range in Hk as (k & Hk & Hx).
    exists i, j, k. repeat split; try lia.
    destruct (get3 v i j k) as [x|s|]; try discriminate Hx. exists s. reflexivity.
  - intros (i & j & k & Hi & Hj & Hk & s & Hx). exists i. split; [exact Hi|].
    apply existsb_range. exists j. split; [exact Hj|].
    apply existsb_range. exists k. split; [exact Hk|]. rewrite Hx. reflexivity.
Qed.

Lemma getitem_in {X : Type} (l : list X) (i : Z) (x : X) :
  Py.getitem l i = Ok x -> In x l.
Proof.
  unfold Py.getitem. destruct (Py.index i (Py.len l)) as [k|]; cbn [bind]; [|discriminate].
  destruct (nth_error l (Z.to_nat k)) eqn:E; [|discriminate].
  intros [= <-]. exact (nth_error_In _ _ E).
Qed.

Lemma mapM_in {X Y : Type} (f : X -> result Y) (l : list X) :
  forall ys, mapM f l = Ok ys ->
    forall y, In y ys -> exists x, In x l /\ f x = Ok y.
Proof.
  induction l as [|x l IH]; intros ys E y Hy; cbn [mapM] in E.
  - injection E as <-. destruct Hy.
  - destruct (f x) as [y0|] eqn:Ex; cbn [bind] in E; [|discriminate E].
    destruct (mapM f l) as [ys0|]; cbn [bind] in E; [|discriminate E].
    injection E as <-. destruct Hy as [<-|Hy].
    + exists x. split; [left; reflexivity|exact Ex].
    + destruct (IH ys0 eq_refl y Hy) as (x' & Hx' & Ex').
      exists x'. split; [right; exact Hx'|exact Ex'].
Qed.

Lemma mapM_never {X Y : Type} (f : X -> result Y) (e : exn) (l : list X) :
  (forall x, f x <> Raise e) -> mapM f l <> Raise e.
Proof.
  intros Hf. induction l as [|x l IH]; cbn [mapM]; [discriminate|].
  intros E. destruct (f x) eqn:Ex; cbn [bind] in E.
  - destruct (mapM f l) eqn:El; cbn [bind] in E; [discriminate E|].
    injection E as ->. exact (IH eq_refl).
  - injection E as ->. exact (Hf x Ex).
Qed.

Section InitNoAssertion.

Context {A : Type} `{Scalar A}.
Variable crop : tensor2 A -> Z * Z -> tensor2 A.

Lemma select_files_in (files : list (tensor3 A)) (itu : list Z) (n : Z) (lv : bool)
    (all_files : list (tensor3 A)) :
  XLFMDatasetFull.select_files files itu n lv = Ok all_files ->
  forall v, In v all_files -> In v files.
Proof.
  unfold XLFMDatasetFull.select_files.
  destruct ((0 <? Py.len files) && lv).
  - intros E v Hv. destruct (mapM_in _ _ _ E v Hv) as (i & _ & Ei).
    destruct (Py.getitem itu i) as [k|]; cbn [bind] in Ei; [|discriminate Ei].
    exact (getitem_in _ _ _ Ei).
  - intros [= <-] v Hv. exact Hv.
Qed.

Lemma select_files_never_asserts (files : list (tensor3 A)) (itu : list Z) (n : Z)
    (lv : bool) :
  XLFMDatasetFull.select_files files itu n lv <> Raise AssertionError.
Proof.
  unfold XLFMDatasetFull.select_files.
  destruct ((0 <? Py.len files) && lv); [|discriminate].
  apply mapM_never. intros i E.
  destruct (Py.getitem itu i) eqn:Ei; cbn [bind] in E.
  - exact (getitem_never_asserts _ _ E).
  - injection E as ->. exact (getitem_never_asserts _ _ Ei).
Qed.

Lemma ingest_step_without_vols (all_files : list (tensor3 A))
    (img_dataset : tensor3 A) (img_shape : Z * Z) (b : Z) (vS vE : Z * Z)
    (nImg : Z) (st : tensor4 A * tensor3 A) :
  XLFMDatasetFull.ingest_step crop all_files img_dataset img_shape b false vS vE nImg st
    <> Raise AssertionError.
Proof.
  unfold XLFMDatasetFull.ingest_step. cbn [bind]. intros E.
  destruct (XLFMDatasetFull.ingest_img crop img_dataset img_shape nImg) eqn:Ei;
    cbn [bind] in E; [|injection E as ->; exact (ingest_img_never_asserts _ _ _ _ Ei)].
  destruct (XLFMDatasetFull.store_view nImg _ (snd st)) eqn:Ev;
    cbn [bind] in E; [|injection E as ->; exact (store_view_never_asserts _ _ _ Ev)].
  discriminate E.
Qed.

(** The constructor fails an assertion only on a volume file with an
    infinity in it. *)
Lemma init_asserts_on_inf (files : list (tensor3 A)) (img_dataset : tensor3 A)
    (img_shape : Z * Z) (itu : option (list Z)) (nd b : Z) (lv : bool)
    (shifts : list Z) (rnd : bool) :
  XLFMDatasetFull.__init__ crop files img_dataset img_shape itu nd b lv shifts rnd
    = Raise AssertionError ->
  lv = true /\ exists v, In v files /\ any_isinf v = true.
Proof.
  unfold XLFMDatasetFull.__init__. intros E.
  match type of E with
  | bind (Py.max ?l) _ = _ => destruct l; cbn [Py.max bind] in E; [discriminate E|]
  end.
  destruct shifts as [|s0 shifts]; cbn [Py.max bind] in E; [discriminate E|].
  match type of E with
  | bind (XLFMDatasetFull.select_files ?f ?i ?n ?l) _ = _ =>
      destruct (XLFMDatasetFull.select_files f i n l) as [all_files|] eqn:Ef;
      cbn [bind] in E;
      [|injection E as ->; exfalso; exact (select_files_never_asserts _ _ _ _ Ef)]
  end.
  destruct lv.
  - split; [reflexivity|].
    destruct (Py.getitem all_files 0) as [v0|] eqn:E0; cbn [bind] in E;
      [|injection E as ->; exfalso; exact (getitem_never_asserts _ _ E0)].
    unfold XLFMDatasetFull.zeros4, XLFMDatasetFull.zeros3 in E.
    match type of E with
    | bind (bind (if ?c then _ else _) _) _ = _ =>
        destruct c; cbn [bind] in E; [|discriminate E]
    end.
    match type of E with
    | bind (if ?c then _ else _) _ = _ =>
        destruct c; cbn [bind] in E; [|discriminate E]
    end.
    match type of E with
    | bind ?c _ = _ => destruct c eqn:El; cbn [bind] in E; [discriminate E|]
    end.
    injection E as ->. apply foldM_raise in El.
    destruct El as (before & x & after & st' & _ & _ & Es).
    apply ingest_step_asserts in Es. destruct Es as (v & Eg & Hv).
    exists v. split; [|exact Hv].
    exact (select_files_in _ _ _ _ _ Ef v (getitem_in _ _ _ Eg)).
  - exfalso. cbn [bind] in E.
    unfold XLFMDatasetFull.zeros3 in E.
    match type of E with
    | bind (if ?c then _ else _) _ = _ =>
        destruct c; cbn [bind] in E; [|discriminate E]
    end.
    match type of E with
    | bind ?c _ = _ => destruct c eqn:El; cbn [bind] in E; [discriminate E|]
    end.
    injection E as ->. apply foldM_raise in El.
    destruct El as (before & x & after & st' & _ & _ & Es).
    exact (ingest_step_without_vols _ _ _ _ _ _ _ _ Es).
Qed.

End InitNoAssertion.

(** C10, as the code has it. The check is [torch.isinf]: the ingest loop
    fails with [AssertionError] exactly when, the turns before having gone
    through, it reads a decoded volume that holds [+inf] or [-inf]. A volume
    passes the check exactly when it holds no infinity, and a NaN is not one:
    a volume of NaNs passes. When no volume file holds an infinity, the
    constructor does not fail an assertion. *)
Theorem ingest_fails_on_infinity :
  forall (crop : tensor2 half -> Z * Z -> tensor2 half)
         (all_files : list (tensor3 half)) (img_dataset : tensor3 half)
         (img_shape : Z * Z) (border_blanking : Z) (vStart vEnd : Z * Z)
         (frames : list Z) (st : tensor4 half * tensor3 half),
    let turn := XLFMDatasetFull.ingest_step crop all_files img_dataset img_shape
                  border_blanking true vStart vEnd in
    (foldM turn frames st = Raise AssertionError <->
     exists before nImg after st' currVol,
       frames = before ++ nImg :: after /\
       foldM turn before st = Ok st' /\
       Py.getitem all_files nImg = Ok currVol /\ has_inf currVol) /\
    (forall currVol : tensor3 half,
       assert_no_inf currVol = Ok tt <-> ~ has_inf currVol) /\
    (forall currVol : tensor3 half,
       (forall i j k, get3 currVol i j k = NaN) -> assert_no_inf currVol = Ok tt) /\
    (forall files images_to_use n_depths_to_fill with_vols shifts random,
       (forall v, In v files -> ~ has_inf v) ->
       XLFMDatasetFull.__init__ crop files img_dataset img_shape images_to_use
         n_depths_to_fill border_blanking with_vols shifts random
         <> Raise AssertionError).
Proof.
  intros crop all_files img_dataset img_shape b vS vE frames st turn.
  assert (Hpass : forall v : tensor3 half, assert_no_inf v = Ok tt <-> ~ has_inf v).
  { intros v. rewrite <- any_isinf_has_inf. unfold assert_no_inf.
    destruct (any_isinf v).
    - split; [discriminate | intros Hx; exfalso; apply Hx; reflexivity].
    - split; [intros _ Hx; discriminate Hx | reflexivity]. }
  split; [|split; [exact Hpass|split]].
  - rewrite foldM_raise. split.
    + intros (before & x & after & st' & E & E1 & E2).
      apply ingest_step_asserts in E2. destruct E2 as (v & Eg & Hv).
      exists before, x, after, st', v. repeat split; try assumption.
      apply any_isinf_has_inf. exact Hv.
    + intros (before & x & after & st' & v & E & E1 & Eg & Hv).
      exists before, x, after, st'. repeat split; try assumption.
      apply ingest_step_asserts. exists v. split; [exact Eg|].
      apply any_isinf_has_inf. exact Hv.
  - intros v Hnan. apply Hpass. intros (i & j & k & _ & _ & _ & s & Hx).
    rewrite Hnan in Hx. discriminate Hx.
  - intros files itu nd lv shifts rnd Hfin E.
    apply init_asserts_on_inf in E. destruct E as (_ & v & Hv & Hinf).
    apply any_isinf_has_inf in Hinf. exact (Hfin v Hv Hinf).
Qed.

(** C10, against the claim: a decoded volume whose one voxel is a NaN is
    not finite, and the constructor goes through all the same; with [+inf]
    in its place it fails the assertion. *)
Lemma ingest_accepts_nan :
  isfinite (get3 nan_volume 0 0 0) = false /\
  is_ok (XLFMDatasetFull.__init__ center_crop [nan_volume] one_frame (1, 1)
           (Some [0]) 1 0 true [0] false) = true /\
  (self <- XLFMDatasetFull.__init__ center_crop [inf_volume] one_frame (1, 1)
             (Some [0]) 1 0 true [0] false ;; Ok (n_images self))
    = Raise AssertionError.
Proof. vm_compute. repeat split. Qed.

(** ** Stores of the ingest loop *)

Section StoreFacts.

Context {A : Type} `{Scalar A}.

Lemma index_in_range (i n : Z) : 0 <= i < n -> Py.index i n = Ok i.
Proof.
  intros Hi. unfold Py.index.
  destruct (Z.leb_spec 0 i); [|lia]. destruct (Z.ltb_spec i n); [|lia].
  reflexivity.
Qed.

Lemma index_ok_range (i n k : Z) : 0 <= i -> Py.index i n = Ok k -> k = i /\ i < n.
Proof.
  intros Hi. unfold Py.index.
  destruct (Z.leb_spec 0 i); [|lia]. destruct (Z.ltb_spec i n); cbn [andb].
  - intros [= <-]. split; [reflexivity|assumption].
  - destruct (Z.ltb_spec i 0); [lia|]. rewrite andb_false_r. discriminate.
Qed.

(** A store at position [x] keeps the shape and every other position. *)
Lemma store_vol_frame (vS vE : Z * Z) (x : Z) (cv : tensor3 A) (vols vols' : tensor4 A) :
  XLFMDatasetFull.store_vol vS vE x cv vols = Ok vols' ->
  0 <= x < n4_0 vols ->
  same_shape4 vols' vols /\
  forall m, m <> x -> same_entry4 m vols' vols.
Proof.
  unfold XLFMDatasetFull.store_vol. intros E Hx.
  rewrite (index_in_range x _ Hx) in E.
  repeat match type of E with
         | (let '(_, _) := ?p in _) = _ => destruct p
         | bind (Ok _) _ = _ => cbn [bind] in E
         | bind ?c _ = _ => destruct c; cbn [bind] in E; [|discriminate E]
         end.
  injection E as <-. split; [repeat split|].
  intros m Hm d i j. cbn [get4].
  destruct (Z.eqb_spec m x); [contradiction|reflexivity].
Qed.

(** What a store writes at position [x] depends on the shape of the tensor
    and on its entry at [x] only. *)
Lemma store_vol_ext (vS vE : Z * Z) (x : Z) (cv : tensor3 A)
    (vols1 vols2 r1 : tensor4 A) :
  same_shape4 vols1 vols2 ->
  0 <= x < n4_0 vols1 ->
  same_entry4 x vols1 vols2 ->
  XLFMDatasetFull.store_vol vS vE x cv vols1 = Ok r1 ->
  exists r2,
    XLFMDatasetFull.store_vol vS vE x cv vols2 = Ok r2 /\ same_entry4 x r1 r2.
Proof.
  intros (S0 & S1 & S2 & S3) Hx Hs. unfold XLFMDatasetFull.store_vol.
  rewrite <- S0, <- S1, <- S2, <- S3, (index_in_range x _ Hx).
  intros E.
  repeat match type of E with
         | (let '(_, _) := ?p in _) = _ => destruct p
         | bind (Ok _) _ = _ => cbn [bind] in E
         | bind ?c _ = _ => destruct c; cbn [bind] in E; [|discriminate E]
         end.
  injection E as <-. cbn [bind]. eexists. split; [reflexivity|].
  intros d i j. cbn [get4].
  match goal with |- (if ?c then _ else _) = _ => destruct c end;
    [reflexivity|apply Hs].
Qed.

Lemma store_view_frame (x : Z) (image : tensor2 A) (views views' : tensor3 A) :
  XLFMDatasetFull.store_view x image views = Ok views' ->
  0 <= x < n3_0 views ->
  same_shape3 views' views /\
  forall m, m <> x -> same_entry3 m views' views.
Proof.
  unfold XLFMDatasetFull.store_view. intros E Hx.
  rewrite (index_in_range x _ Hx) in E.
  repeat match type of E with
         | bind (Ok _) _ = _ => cbn [bind] in E
         | bind ?c _ = _ => destruct c; cbn [bind] in E; [|discriminate E]
         end.
  injection E as <-. split; [repeat split|].
  intros m Hm i j. cbn [get3].
  destruct (Z.eqb_spec m x); [contradiction|reflexivity].
Qed.

Lemma store_view_ext (x : Z) (image : tensor2 A) (views1 views2 r1 : tensor3 A) :
  same_shape3 views1 views2 ->
  0 <= x < n3_0 views1 ->
  same_entry3 x views1 views2 ->
  XLFMDatasetFull.store_view x image views1 = Ok r1 ->
  exists r2,
    XLFMDatasetFull.store_view x image views2 = Ok r2 /\ same_entry3 x r1 r2.
Proof.
  intros (S0 & S1 & S2) Hx Hs. unfold XLFMDatasetFull.store_view.
  rewrite <- S0, <- S1, <- S2, (index_in_range x _ Hx).
  intros E.
  repeat match type of E with
         | bind (Ok _) _ = _ => cbn [bind] in E
         | bind ?c _ = _ => destruct c; cbn [bind] in E; [|discriminate E]
         end.
  injection E as <-. cbn [bind]. eexists. split; [reflexivity|].
  intros i j. cbn [get3].
  match goal with |- (if ?c then _ else _) = _ => destruct c end;
    [reflexivity|apply Hs].
Qed.

End StoreFacts.

Section Entries.

Context {A : Type}.

Lemma same_shape4_trans (a b c : tensor4 A) :
  same_shape4 a b -> same_shape4 b c -> same_shape4 a c.
Proof. unfold same_shape4. intuition congruence. Qed.

Lemma same_shape3_trans (a b c : tensor3 A) :
  same_shape3 a b -> same_shape3 b c -> same_shape3 a c.
Proof. unfold same_shape3. intuition congruence. Qed.

Lemma same_entry4_trans (m : Z) (a b c : tensor4 A) :
  same_entry4 m a b -> same_entry4 m b c -> same_entry4 m a c.
Proof. unfold same_entry4. intros Hab Hbc d i j. now rewrite Hab. Qed.

Lemma same_entry3_trans (m : Z) (a b c : tensor3 A) :
  same_entry3 m a b -> same_entry3 m b c -> same_entry3 m a c.
Proof. unfold same_entry3. intros Hab Hbc i j. now rewrite Hab. Qed.

End Entries.

Section PairedIngest.

Context {A : Type} `{Scalar A}.
Variable crop : tensor2 A -> Z * Z -> tensor2 A.
Variable all_files : list (tensor3 A).
Variable img_dataset : tensor3 A.
Variables (img_shape : Z * Z) (b : Z) (vS vE : Z * Z).

Local Abbreviation turn :=
  (XLFMDatasetFull.ingest_step crop all_files img_dataset img_shape b true vS vE).

Lemma ingest_step_inv (x : Z) (st st' : tensor4 A * tensor3 A) :
  turn x st = Ok st' ->
  exists v image,
    Py.getitem all_files x = Ok v /\
    XLFMDatasetFull.store_vol vS vE x (blank_border b v) (fst st) = Ok (fst st') /\
    XLFMDatasetFull.ingest_img crop img_dataset img_shape x = Ok image /\
    XLFMDatasetFull.store_view x image (snd st) = Ok (snd st').
Proof.
  unfold XLFMDatasetFull.ingest_step, XLFMDatasetFull.ingest_vol. intros E.
  destruct (Py.getitem all_files x) as [v|]; cbn [bind] in E; [|discriminate E].
  destruct (assert_no_inf v); cbn [bind] in E; [|discriminate E].
  destruct (XLFMDatasetFull.store_vol vS vE x _ (fst st)) as [vols'|] eqn:Ev;
    cbn [bind] in E; [|discriminate E].
  destruct (XLFMDatasetFull.ingest_img crop img_dataset img_shape x) as [image|];
    cbn [bind] in E; [|discriminate E].
  destruct (XLFMDatasetFull.store_view x image (snd st)) as [views'|] eqn:Ew;
    cbn [bind] in E; [|discriminate E].
  injection E as <-. exists v, image. cbn [fst snd]. repeat split; assumption.
Qed.

(** The loop over distinct positions: the shapes stay, a position that is
    not visited keeps its entries, and a visited position [x] holds what the
    stores of its turn wrote, on a state whose entries at [x] were still
    those of the start. *)
Lemma ingest_loop_entries (l : list Z) :
  forall st st',
    foldM turn l st = Ok st' ->
    NoDup l ->
    (forall x, In x l -> 0 <= x < n4_0 (fst st) /\ 0 <= x < n3_0 (snd st)) ->
    same_shape4 (fst st') (fst st) /\ same_shape3 (snd st') (snd st) /\
    (forall m, ~ In m l ->
       same_entry4 m (fst st') (fst st) /\ same_entry3 m (snd st') (snd st)) /\
    (forall x, In x l ->
       exists v image st1 st2,
         Py.getitem all_files x = Ok v /\
         XLFMDatasetFull.ingest_img crop img_dataset img_shape x = Ok image /\
         XLFMDatasetFull.store_vol vS vE x (blank_border b v) (fst st1) = Ok (fst st2) /\
         XLFMDatasetFull.store_view x image (snd st1) = Ok (snd st2) /\
         same_shape4 (fst st1) (fst st) /\ same_shape3 (snd st1) (snd st) /\
         same_entry4 x (fst st1) (fst st) /\ same_entry3 x (snd st1) (snd st) /\
         same_entry4 x (fst st') (fst st2) /\ same_entry3 x (snd st') (snd st2)).
Proof.
  induction l as [|y l IH]; intros st st' E Hnd Hr; cbn [foldM] in E.
  - injection E as <-.
    split; [repeat split|]. split; [repeat split|].
    split; [intros m _; split; intro; reflexivity|]. intros x [].
  - destruct (turn y st) as [sa|] eqn:Ey; cbn [bind] in E; [|discriminate E].
    destruct (ingest_step_inv _ _ _ Ey) as (v & image & Eg & Ev & Ei & Ew).
    destruct (Hr y (or_introl eq_refl)) as [Hy4 Hy3].
    destruct (store_vol_frame _ _ _ _ _ _ Ev Hy4) as [S4 F4].
    destruct (store_view_frame _ _ _ _ Ew Hy3) as [S3 F3].
    apply NoDup_cons_iff in Hnd as [Hny Hnd].
    destruct (IH sa st' E Hnd) as (T4' & T3' & Hout & Hin).
    { intros x Hx. destruct (Hr x (or_intror Hx)) as [Hx4 Hx3].
      destruct S4 as (-> & _). destruct S3 as (-> & _). split; assumption. }
    split; [exact (same_shape4_trans _ _ _ T4' S4)|].
    split; [exact (same_shape3_trans _ _ _ T3' S3)|].
    split.
    + intros m Hm. destruct (Hout m) as [O4 O3]; [intros Hx; apply Hm; right; exact Hx|].
      assert (m <> y) by (intros ->; apply Hm; left; reflexivity).
      split.
      * exact (same_entry4_trans _ _ _ _ O4 (F4 m ltac:(assumption))).
      * exact (same_entry3_trans _ _ _ _ O3 (F3 m ltac:(assumption))).
    + intros x [<-|Hx].
      * destruct (Hout y Hny) as [O4 O3].
        exists v, image, st, sa.
        repeat split; try assumption; intro; reflexivity.
      * destruct (Hin x Hx)
          as (v' & image' & st1 & st2 & G1 & G2 & G3 & G4 & G5 & G6 & G7 & G8 & G9 & G10).
        assert (x <> y) by (intros ->; contradiction).
        exists v', image', st1, st2.
        split; [exact G1|]. split; [exact G2|]. split; [exact G3|]. split; [exact G4|].
        split; [exact (same_shape4_trans _ _ _ G5 S4)|].
        split; [exact (same_shape3_trans _ _ _ G6 S3)|].
        split; [exact (same_entry4_trans _ _ _ _ G7 (F4 x ltac:(assumption)))|].
        split; [exact (same_entry3_trans _ _ _ _ G8 (F3 x ltac:(assumption)))|].
        split; assumption.
Qed.

End PairedIngest.

Lemma py_max_upper (l : list Z) (m : Z) :
  Py.max l = Ok m -> forall x, In x l -> x <= m.
Proof.
  destruct l as [|y r]; [discriminate|]. cbn [Py.max]. intros [= <-] x Hx.
  destruct (fold_max_spec r y) as (_ & Hy & Hr).
  destruct Hx as [<-|Hx]; [exact Hy|exact (Hr x Hx)].
Qed.

Lemma NoDup_range (n : Z) : NoDup (Py.range n).
Proof.
  unfold Py.range. apply NoDup_map_NoDup_ForallPairs.
  - intros a c _ _ Hac. lia.
  - apply seq_NoDup.
Qed.

Lemma nth_error_range (n : Z) (k : nat) (x : Z) :
  nth_error (Py.range n) k = Some x -> x = Z.of_nat k /\ Z.of_nat k < n.
Proof.
  unfold Py.range. intros E.
  assert (Hk : (k < length (map Z.of_nat (seq 0 (Z.to_nat n))))%nat)
    by (apply nth_error_Some; congruence).
  rewrite length_map, length_seq in Hk.
  rewrite nth_error_map, nth_error_seq in E.
  destruct (Nat.ltb_spec k (Z.to_nat n)); [|lia].
  cbn in E. injection E as <-. split; lia.
Qed.

Lemma getitem_nonneg_nth {X : Type} (l : list X) (i : Z) (x : X) :
  0 <= i -> Py.getitem l i = Ok x ->
  nth_error l (Z.to_nat i) = Some x /\ i < Py.len l.
Proof.
  intros Hi. unfold Py.getitem.
  destruct (Py.index i (Py.len l)) as [k|] eqn:Ek; cbn [bind]; [|discriminate].
  destruct (index_ok_range _ _ _ Hi Ek) as [-> Hlt].
  destruct (nth_error l (Z.to_nat i)); [|discriminate].
  intros [= <-]. split; [reflexivity|exact Hlt].
Qed.

Lemma mapM_nth {X Y : Type} (f : X -> result Y) (l : list X) :
  forall ys, mapM f l = Ok ys ->
    forall n y, nth_error ys n = Some y ->
      exists x, nth_error l n = Some x /\ f x = Ok y.
Proof.
  induction l as [|x l IH]; intros ys E n y Hn; cbn [mapM] in E.
  - injection E as <-. destruct n; discriminate Hn.
  - destruct (f x) as [y0|] eqn:Ex; cbn [bind] in E; [|discriminate E].
    destruct (mapM f l) as [ys0|]; cbn [bind] in E; [|discriminate E].
    injection E as <-. destruct n as [|n]; cbn [nth_error] in *.
    + injection Hn as <-. exists x. split; [reflexivity|exact Ex].
    + exact (IH ys0 eq_refl n y Hn).
Qed.

Lemma mapM_index_id (n : Z) (l : list Z) :
  (forall x, In x l -> 0 <= x < n) ->
  mapM (fun i => Py.index i n) l = Ok l.
Proof.
  induction l as [|x l IH]; intros Hl; cbn [mapM]; [reflexivity|].
  rewrite (index_in_range x n) by (apply Hl; left; reflexivity). cbn [bind].
  rewrite IH by (intros y Hy; apply Hl; right; exact Hy). reflexivity.
Qed.

Section InitInversion.

Context {A : Type} `{Scalar A}.
Variable crop : tensor2 A -> Z * Z -> tensor2 A.

(** What a constructor call with volumes has gone through when it returns. *)
Lemma init_inv (files : list (tensor3 A)) (img_dataset : tensor3 A)
    (img_shape : Z * Z) (itu : list Z) (nd b : Z) (shifts : list Z) (rnd : bool)
    (self : dataset A) :
  XLFMDatasetFull.__init__ crop files img_dataset img_shape (Some itu) nd b true
    shifts rnd = Ok self ->
  exists mi ms all_files v0 st',
    Py.max itu = Ok mi /\ Py.max shifts = Ok ms /\
    XLFMDatasetFull.select_files files itu
      (Z.min (Py.len itu) (n3_0 img_dataset)) true = Ok all_files /\
    Py.getitem all_files 0 = Ok v0 /\
    0 <= mi + ms + 1 /\
    foldM (XLFMDatasetFull.ingest_step crop all_files img_dataset img_shape b true
             (fst (canonical_window v0)) (snd (canonical_window v0)))
      (Py.range (mi + ms + 1))
      (T4 (mi + ms + 1) nd (n3_0 v0) (n3_1 v0) (fun _ _ _ _ => zero),
       T3 (mi + ms + 1) (fst img_shape) (snd img_shape) (fun _ _ _ => zero))
      = Ok st' /\
    self = Dataset (Some itu) true true shifts rnd
             (Z.min (Py.len itu) (n3_0 img_dataset))
             (fst (canonical_window v0)) (snd (canonical_window v0))
             (Some (fst st')) (snd st').
Proof.
  unfold XLFMDatasetFull.__init__. intros E.
  destruct (Py.max itu) as [mi|] eqn:E1; cbn [bind] in E; [|discriminate E].
  destruct (Py.max shifts) as [ms|] eqn:E2; cbn [bind] in E; [|discriminate E].
  destruct (XLFMDatasetFull.select_files files itu _ true) as [all_files|] eqn:E3;
    cbn [bind] in E; [|discriminate E].
  destruct (Py.getitem all_files 0) as [v0|] eqn:E4; cbn [bind] in E;
    [|discriminate E].
  unfold XLFMDatasetFull.zeros4, XLFMDatasetFull.zeros3 in E.
  destruct (Z.leb_spec 0 (mi + ms + 1)); cbn [andb bind] in E; [|discriminate E].
  match type of E with
  | bind (bind (if ?c then _ else _) _) _ = _ =>
      destruct c; cbn [bind] in E; [|discriminate E]
  end.
  match type of E with
  | bind (if ?c then _ else _) _ = _ =>
      destruct c; cbn [bind] in E; [|discriminate E]
  end.
  match type of E with
  | bind ?c _ = _ => destruct c as [st'|] eqn:E5; cbn [bind] in E; [|discriminate E]
  end.
  injection E as <-.
  exists mi, ms, all_files, v0, st'. cbn [fst snd] in *.
  repeat split; assumption.
Qed.

End InitInversion.

(** ** The paired policy: which frame and which volume a sample holds *)

(** C6, as the code has it. [self.all_files] is already
    [sorted(glob)[images_to_use[i]]], so the turn [nImg] of the ingest loop,
    which reads [self.all_files[nImg]], stores at position [nImg] the volume
    of file [images_to_use[nImg]]. For a dataset built with volumes and every
    stored position [index], [__getitem__(index)] returns: its volume is the
    blanked volume of file [k = images_to_use[index]] as the loop stores it;
    its view [n] is frame [k + shifts[n]], padded and cropped, as the loop
    stores it. Views and volume belong to timestep [k] whether or not
    [k = index]. (Image numbers and shifts are not negative.) *)
Theorem paired_sample_same_timestep :
  forall (A : Type) (SA : Scalar A) (crop : tensor2 A -> Z * Z -> tensor2 A)
         (files : list (tensor3 A)) (img_dataset : tensor3 A) (img_shape : Z * Z)
         (itu : list Z) (n_depths_to_fill border_blanking : Z)
         (shifts : list Z) (random : bool) (self : dataset A) (index : Z),
    XLFMDatasetFull.__init__ crop files img_dataset img_shape (Some itu)
      n_depths_to_fill border_blanking true shifts random = Ok self ->
    Forall (fun x => 0 <= x) itu ->
    Forall (fun s => 0 <= s) shifts ->
    0 <= index < n3_0 (stacked_views self) ->
    exists k v stored_vols views vol,
      index < n_images self /\
      Py.getitem itu index = Ok k /\
      Py.getitem files k = Ok v /\
      vols self = Some stored_vols /\
      XLFMDatasetFull.__getitem__ self index = Ok (views, Some vol) /\
      vol_written_from (volStart self) (volEnd self) index
        (blank_border border_blanking v) stored_vols vol /\
      n3_0 views = Py.len shifts /\
      forall n s, nth_error shifts n = Some s ->
        exists frame padded,
          select3 img_dataset (k + s) = Ok frame /\
          pad_img_to_min frame = Ok padded /\
          view_written_from (k + s) (crop padded img_shape) (stacked_views self)
            (Z.of_nat n) views.
Proof.
  intros A SA crop files imgs img_shape itu nd b shifts rnd self index
         Einit Hitu Hshifts Hidx.
  destruct (init_inv crop _ _ _ _ _ _ _ _ _ Einit)
    as (mi & ms & all_files & v0 & st' & E1 & E2 & E3 & E4 & Hn & E5 & ->).
  cbn [stacked_views n_images vols volStart volEnd] in *.
  set (vS := fst (canonical_window v0)) in *.
  set (vE := snd (canonical_window v0)) in *.
  set (zV := T4 (mi + ms + 1) nd (n3_0 v0) (n3_1 v0) (fun _ _ _ _ => zero)) in E5.
  set (zS := T3 (mi + ms + 1) (fst img_shape) (snd img_shape) (fun _ _ _ => zero)) in E5.
  destruct (ingest_loop_entries crop all_files imgs img_shape b vS vE
              (Py.range (mi + ms + 1)) (zV, zS) st' E5 (NoDup_range _))
    as (S4 & S3 & _ & Hin).
  { intros x Hx. apply in_range in Hx. cbn. split; lia. }
  cbn [fst snd] in S4, S3, Hin.
  assert (N3 : n3_0 (snd st') = mi + ms + 1) by (destruct S3 as (-> & _); reflexivity).
  assert (N4 : n4_0 (fst st') = mi + ms + 1) by (destruct S4 as (-> & _); reflexivity).
  rewrite N3 in Hidx.
  destruct (Hin index (proj2 (in_range _ _) Hidx))
    as (v & image & st1 & st2 & G1 & G2 & G3 & G4 & G5 & G6 & G7 & G8 & G9 & G10).
  (* the file read at turn [index] *)
  assert (Hk : index < Z.min (Py.len itu) (n3_0 imgs) /\
               exists k, Py.getitem itu index = Ok k /\ Py.getitem files k = Ok v).
  { destruct (getitem_nonneg_nth _ _ _ (proj1 Hidx) G1) as [Hnth Hlen].
    unfold XLFMDatasetFull.select_files in E3.
    destruct (Z.ltb_spec 0 (Py.len files)); cbn [andb] in E3.
    - destruct (mapM_nth _ _ _ E3 _ _ Hnth) as (x & Hx & Ex).
      apply nth_error_range in Hx. destruct Hx as [-> Hx].
      rewrite Z2Nat.id in * by lia. split; [exact Hx|].
      destruct (Py.getitem itu index) as [k|]; cbn [bind] in Ex; [|discriminate Ex].
      exists k. split; [reflexivity|exact Ex].
    - injection E3 as <-. lia. }
  destruct Hk as (Hlt & k & Ek & Ev).
  assert (Hk0 : 0 <= k <= mi).
  { pose proof (getitem_in _ _ _ Ek) as Hin_k. split.
    - rewrite Forall_forall in Hitu. exact (Hitu k Hin_k).
    - exact (py_max_upper _ _ E1 k Hin_k). }
  assert (Hs0 : forall s, In s shifts -> 0 <= s <= ms).
  { intros s Hs. split.
    - rewrite Forall_forall in Hshifts. exact (Hshifts s Hs).
    - exact (py_max_upper _ _ E2 s Hs). }
  exists k, v, (fst st'). eexists. eexists.
  split; [exact Hlt|]. split; [exact Ek|]. split; [exact Ev|].
  split; [reflexivity|]. split.
  { unfold XLFMDatasetFull.__getitem__, get_n_temporal_frames.
    cbn [images_to_use temporal_shifts stacked_views load_vols vols].
    rewrite Ek. cbn [bind].
    rewrite (mapM_getitem_range (fun s => k + s) shifts (Py.len shifts))
      by (pose proof (len_nonneg shifts); lia).
    rewrite firstn_len. cbn [bind]. unfold gather3. rewrite N3.
    rewrite mapM_index_id.
    2:{ intros x Hx. apply in_map_iff in Hx. destruct Hx as (s & <- & Hs).
        specialize (Hs0 s Hs). lia. }
    cbn [bind negb]. unfold select4. rewrite N4, (index_in_range index) by lia.
    cbn [bind]. reflexivity. }
  split.
  { unfold vol_written_from.
    destruct (store_vol_ext vS vE index (blank_border b v) (fst st1)
                (T4 (n4_0 (fst st')) (n4_1 (fst st')) (n4_2 (fst st')) (n4_3 (fst st'))
                    (fun _ _ _ _ => zero)) (fst st2)) as (r2 & Er & Hr).
    - unfold same_shape4 in *. cbn [n4_0 n4_1 n4_2 n4_3] in *. intuition congruence.
    - destruct G5 as (-> & _). cbn. lia.
    - intros d i j. rewrite (G7 d i j). reflexivity.
    - exact G3.
    - exists r2. split; [exact Er|]. intros d i j. cbn [get3].
      rewrite (G9 d i j). apply Hr. }
  split; [rewrite length_map_len; reflexivity|].
  intros n s Hns.
  assert (Hs : In s shifts) by exact (nth_error_In _ _ Hns).
  specialize (Hs0 s Hs).
  assert (Hp : In (k + s) (Py.range (mi + ms + 1))) by (apply in_range; lia).
  destruct (Hin (k + s) Hp)
    as (v' & image' & sa & sb & P1 & P2 & P3 & P4 & P5 & P6 & P7 & P8 & P9 & P10).
  unfold XLFMDatasetFull.ingest_img in P2.
  destruct (select3 imgs (k + s)) as [frame|] eqn:Ef; cbn [bind] in P2;
    [|discriminate P2].
  destruct (pad_img_to_min frame) as [padded|] eqn:Ep; cbn [bind] in P2;
    [|discriminate P2].
  injection P2 as <-.
  exists frame, padded. split; [reflexivity|]. split; [exact Ep|].
  unfold view_written_from.
  destruct (store_view_ext (k + s) (crop padded img_shape) (snd sa)
              (T3 (n3_0 (snd st')) (n3_1 (snd st')) (n3_2 (snd st'))
                  (fun _ _ _ => zero)) (snd sb)) as (r2 & Er & Hr).
  - unfold same_shape3 in *. cbn [n3_0 n3_1 n3_2] in *. intuition congruence.
  - destruct P6 as (-> & _). cbn. lia.
  - intros i j. rewrite (P8 i j). reflexivity.
  - exact P4.
  - exists r2. split; [exact Er|]. intros i j. cbn [get3].
    rewrite Nat2Z.id.
    rewrite (nth_error_nth _ _ 0 (map_nth_error (fun s => k + s) _ _ Hns)).
    rewrite (P10 i j). apply Hr.
Qed.

(** The constructor stores [max(images_to_use) + max(shifts) + 1] frames. *)
Lemma init_stored_count {A : Type} `{Scalar A}
    (crop : tensor2 A -> Z * Z -> tensor2 A) (files : list (tensor3 A))
    (img_dataset : tensor3 A) (img_shape : Z * Z) (itu : list Z) (nd b : Z)
    (shifts : list Z) (rnd : bool) (self : dataset A) :
  XLFMDatasetFull.__init__ crop files img_dataset img_shape (Some itu) nd b true
    shifts rnd = Ok self ->
  exists mi ms,
    Py.max itu = Ok mi /\ Py.max shifts = Ok ms /\
    n3_0 (stacked_views self) = mi + ms + 1.
Proof.
  intros Einit.
  destruct (init_inv crop _ _ _ _ _ _ _ _ _ Einit)
    as (mi & ms & all_files & v0 & st' & E1 & E2 & _ & _ & Hn & E5 & ->).
  exists mi, ms. split; [exact E1|]. split; [exact E2|].
  destruct (ingest_loop_entries crop all_files img_dataset img_shape b _ _
              (Py.range (mi + ms + 1)) _ st' E5 (NoDup_range _))
    as (_ & (S0 & _) & _).
  - intros x Hx. apply in_range in Hx. cbn. split; lia.
  - cbn [stacked_views]. rewrite S0. reflexivity.
Qed.

Lemma paired_sample_witness :
  exists self views vol,
    swapped_sample = Ok self /\
    XLFMDatasetFull.__getitem__ self 0 = Ok (views, Some vol) /\
    Py.getitem [1; 0] 0 = Ok 1 /\
    exists v, Py.getitem two_volumes 1 = Ok v /\
      exists stored_vols,
        vol_written_from (volStart self) (volEnd self) 0 (blank_border 0 v)
          stored_vols vol.
Proof.
  unfold swapped_sample.
  destruct (XLFMDatasetFull.__init__ center_crop two_volumes two_frames (1, 1)
              (Some [1; 0]) 1 0 true [0] false) as [self|e] eqn:E;
    [|vm_compute in E; discriminate E].
  destruct (init_stored_count _ _ _ _ _ _ _ _ _ _ E) as (mi & ms & E1 & E2 & Hn).
  injection E1 as <-. injection E2 as <-.
  destruct (paired_sample_same_timestep Z Scalar_Z center_crop two_volumes two_frames
              (1, 1) [1; 0] 1 0 [0] false self 0 E)
    as (k & v & V & views & vol & _ & Hk & Hv & _ & Hg & Hw & _).
  - repeat constructor; lia.
  - repeat constructor; lia.
  - rewrite Hn. cbn. lia.
  - injection Hk as <-.
    exists self, views, vol. split; [reflexivity|]. split; [exact Hg|].
    split; [reflexivity|]. exists v. split; [exact Hv|]. exists V. exact Hw.
Defined.

(** C6, against the claim. With [images_to_use = [1, 0]], sample 0 holds
    frame 1 (value 21) and the volume of file 1 (value 11): position 0 of the
    volume tensor was not filled from file 0, and views and volume belong to
    the same timestep although [images_to_use[0]] is not 0. Sample 1 holds
    frame 0 and the volume of file 0. *)
Lemma paired_sample_follows_images_to_use :
  (self <- swapped_sample ;;
   s0 <- XLFMDatasetFull.__getitem__ self 0 ;;
   s1 <- XLFMDatasetFull.__getitem__ self 1 ;;
   Ok (get3 (fst s0) 0 0 0, option_map (fun v => get3 v 0 0 0) (snd s0),
       get3 (fst s1) 0 0 0, option_map (fun v => get3 v 0 0 0) (snd s1)))
    = Ok (21, Some 11, 20, Some 10).
Proof. vm_compute. reflexivity. Qed.

(** * Further properties of the code *)

(** ** PatchExtractor: slots, edges, failures *)

Section ExtractViewsMore.

Context {A : Type} `{Scalar A}.
Variable image : tensor4 A.

Lemma place_patch_shape (half cc : Z * Z) (k : Z) (sv sv' : tensor5 A) :
  place_patch image half cc k sv = Ok sv' ->
  n5_3 sv' = n5_3 sv /\ n5_4 sv' = n5_4 sv.
Proof.
  unfold place_patch. intros E.
  repeat match type of E with
         | (let '(_, _) := ?p in _) = _ => destruct p
         | bind ?c _ = _ => destruct c; cbn [bind] in E; [|discriminate E]
         end.
  injection E as <-. split; reflexivity.
Qed.

Lemma bcast_raises (n m : Z) (e : exn) : bcast n m = Raise e -> e = RuntimeError.
Proof.
  unfold bcast. destruct (m =? n); [discriminate|].
  destruct (m =? 1); [discriminate|]. intros [= <-]. reflexivity.
Qed.

Lemma place_patch_raises (half cc : Z * Z) (k : Z) (sv : tensor5 A) (e : exn) :
  place_patch image half cc k sv = Raise e -> e = RuntimeError.
Proof.
  unfold place_patch. intros E.
  repeat match type of E with
         | (let '(_, _) := ?p in _) = _ => destruct p
         end.
  destruct (bcast _ _) eqn:E1 in E; cbn [bind] in E;
    [|injection E as <-; exact (bcast_raises _ _ _ E1)].
  destruct (bcast _ _) eqn:E2 in E; cbn [bind] in E;
    [discriminate E|injection E as <-; exact (bcast_raises _ _ _ E2)].
Qed.

(** A slice that starts at or past the end of the axis is empty. *)
Lemma slice_beyond (c p n : Z) :
  0 <= n -> 0 <= p -> n <= c - p / 2 ->
  snd (Py.slice (Some (Z.max (c - p / 2) 0)) (Some (c + p / 2)) n) = 0.
Proof.
  intros Hn Hp Hc. pose proof (half_bounds p Hp) as [Hh _].
  unfold Py.slice, Py.adjust. cbn [snd].
  destruct (Z.ltb_spec (Z.max (c - p / 2) 0) 0); [lia|].
  destruct (Z.ltb_spec (c + p / 2) 0); lia.
Qed.

(** An empty patch does not fit a slot axis that has positions. *)
Lemma bcast_empty (p : Z) :
  0 < p -> (let '(_, r) := Py.slice (Some (- 0)) None p in bcast r 0) = Raise RuntimeError.
Proof.
  intros Hp. unfold Py.slice, Py.adjust. cbn [Z.opp Z.ltb Z.compare].
  rewrite Z.min_l, Z.sub_0_r, Z.max_l by lia. unfold bcast.
  destruct (Z.eqb_spec 0 p); [lia|]. reflexivity.
Qed.

Lemma place_patch_beyond (ph pw : Z) (cc : Z * Z) (k : Z) (sv : tensor5 A) :
  shape4_ok image -> 0 < ph -> 0 < pw ->
  n5_3 sv = ph -> n5_4 sv = pw ->
  n4_2 image <= fst cc - ph / 2 \/ n4_3 image <= snd cc - pw / 2 ->
  place_patch image (ph / 2, pw / 2) cc k sv = Raise RuntimeError.
Proof.
  intros (_ & _ & H2 & H3) Hph Hpw Hp Hq Hb.
  destruct (place_patch image (ph / 2, pw / 2) cc k sv) as [sv'|e] eqn:E;
    [|f_equal; exact (place_patch_raises _ _ _ _ _ E)].
  exfalso. unfold place_patch in E. cbn [fst snd] in E.
  destruct (Py.slice (Some (Z.max (fst cc - ph / 2) 0)) (Some (fst cc + ph / 2))
              (n4_2 image)) as [r0 h] eqn:Er.
  destruct (Py.slice (Some (Z.max (snd cc - pw / 2) 0)) (Some (snd cc + pw / 2))
              (n4_3 image)) as [c0 w] eqn:Ec.
  rewrite Hp, Hq in E.
  destruct Hb as [Hb|Hb].
  - pose proof (slice_beyond (fst cc) ph (n4_2 image) H2 ltac:(lia) Hb) as Hz.
    rewrite Er in Hz. cbn [snd] in Hz. subst h.
    pose proof (bcast_empty ph Hph) as Hr.
    destruct (Py.slice (Some (- 0)) None ph) as [dr rh].
    destruct (Py.slice (Some (- w)) None pw) as [dc rw].
    rewrite Hr in E. discriminate E.
  - pose proof (slice_beyond (snd cc) pw (n4_3 image) H3 ltac:(lia) Hb) as Hz.
    rewrite Ec in Hz. cbn [snd] in Hz. subst w.
    pose proof (bcast_empty pw Hpw) as Hr.
    destruct (Py.slice (Some (- h)) None ph) as [dr rh].
    destruct (Py.slice (Some (- 0)) None pw) as [dc rw].
    destruct (bcast rh h); cbn [bind] in E; [|discriminate E].
    rewrite Hr in E. discriminate E.
Qed.

Lemma extract_loop_beyond (ph pw : Z) (cc : Z * Z) (coords : list (Z * Z)) :
  shape4_ok image -> 0 < ph -> 0 < pw ->
  In cc coords ->
  n4_2 image <= fst cc - ph / 2 \/ n4_3 image <= snd cc - pw / 2 ->
  forall k sv, n5_3 sv = ph -> n5_4 sv = pw ->
    extract_loop image (ph / 2, pw / 2) coords k sv = Raise RuntimeError.
Proof.
  intros Hs Hph Hpw Hin Hb.
  induction coords as [|c0 rest IH]; [destruct Hin|].
  intros k sv Hp Hq. cbn [extract_loop].
  destruct (place_patch image (ph / 2, pw / 2) c0 k sv) as [sv'|e] eqn:E; cbn [bind].
  - destruct Hin as [->|Hin].
    + rewrite (place_patch_beyond ph pw cc k sv Hs Hph Hpw Hp Hq Hb) in E.
      discriminate E.
    + destruct (place_patch_shape _ _ _ _ _ E) as [S3 S4].
      apply (IH Hin); congruence.
  - f_equal. exact (place_patch_raises _ _ _ _ _ E).
Qed.

End ExtractViewsMore.

(** X1. The slot of a lenslet depends on its own center only: in the result
    for a whole table, slot [n] is the single slot of the result for the
    table that holds lenslet [n] alone. *)
Theorem extract_views_slot_of_own_center :
  forall (A : Type) (SA : Scalar A) (image : tensor4 A)
         (lenslet_coords : list (Z * Z)) (ph pw : Z),
    shape4_ok image -> 0 <= ph -> 0 <= pw ->
    table_meets image lenslet_coords (ph, pw) ->
    exists out,
      extract_views image lenslet_coords (ph, pw) = Ok out /\
      forall nLens cc, nth_error lenslet_coords nLens = Some cc ->
        exists alone,
          extract_views image [cc] (ph, pw) = Ok alone /\
          forall b c i j, get5 out b c (Z.of_nat nLens) i j = get5 alone b c 0 i j.
Proof.
  intros A SA image coords ph pw Hs Hph Hpw Ht.
  destruct (extract_views_spec image ph pw coords Hs Hph Hpw Ht)
    as (out & E & _ & _ & _ & _ & _ & G).
  exists out. split; [exact E|]. intros n cc Hn.
  assert (Ht1 : table_meets image [cc] (ph, pw)).
  { unfold table_meets in *. rewrite Forall_forall in Ht.
    constructor; [exact (Ht cc (nth_error_In _ _ Hn))|constructor]. }
  destruct (extract_views_spec image ph pw [cc] Hs Hph Hpw Ht1)
    as (alone & E1 & _ & _ & _ & _ & _ & G1).
  exists alone. split; [exact E1|]. intros b c i j.
  rewrite (G n cc Hn). exact (eq_sym (G1 0%nat cc eq_refl b c i j)).
Qed.

Lemma extract_views_slot_witness :
  exists out alone,
    extract_views ramp_image [(0, 0); (3, 3)] (4, 4) = Ok out /\
    extract_views ramp_image [(3, 3)] (4, 4) = Ok alone /\
    forall i j, get5 out 0 0 1 i j = get5 alone 0 0 0 i j.
Proof.
  destruct (extract_views_slot_of_own_center Z Scalar_Z ramp_image
              [(0, 0); (3, 3)] 4 4) as (out & E & G).
  - unfold shape4_ok; cbn; lia.
  - lia.
  - lia.
  - repeat constructor; unfold meets; cbn; lia.
  - destruct (G 1%nat (3, 3) eq_refl) as (alone & E1 & G1).
    exists out, alone. split; [exact E|]. split; [exact E1|].
    intros i j. exact (G1 0 0 i j).
Defined.

(** X2. A lenslet whose ideal rectangle starts at or beyond the bottom edge
    or the right edge of the frame leaves an empty patch, which cannot be
    assigned to the slot: [extract_views] raises for the whole table
    instead of leaving that slot at zero. *)
Theorem extract_views_raises_beyond_frame :
  forall (A : Type) (SA : Scalar A) (image : tensor4 A)
         (lenslet_coords : list (Z * Z)) (ph pw cx cy : Z),
    shape4_ok image -> 0 < ph -> 0 < pw ->
    In (cx, cy) lenslet_coords ->
    n4_2 image <= cx - ph / 2 \/ n4_3 image <= cy - pw / 2 ->
    extract_views image lenslet_coords (ph, pw) = Raise RuntimeError.
Proof.
  intros A SA image coords ph pw cx cy Hs Hph Hpw Hin Hb.
  unfold extract_views, zeros5. cbn [fst snd].
  destruct Hs as (H0 & H1 & H2 & H3).
  pose proof (len_nonneg coords) as Hn.
  repeat match goal with
         | Hx : 0 <= ?x |- context [0 <=? ?x] =>
             rewrite (proj2 (Z.leb_le 0 x) Hx)
         end.
  rewrite (proj2 (Z.leb_le 0 ph)), (proj2 (Z.leb_le 0 pw)) by lia.
  cbn [andb bind].
  apply (extract_loop_beyond image ph pw (cx, cy)); try assumption;
    try reflexivity.
  repeat split; assumption.
Qed.

Lemma extract_views_raises_witness :
  extract_views ramp_image [(3, 3); (8, 3)] (4, 4) = Raise RuntimeError.
Proof.
  apply (extract_views_raises_beyond_frame Z Scalar_Z ramp_image
           [(3, 3); (8, 3)] 4 4 8 3).
  - unfold shape4_ok; cbn; lia.
  - lia.
  - lia.
  - right; left; reflexivity.
  - left. cbn. lia.
Defined.

(** X3. A lenslet whose rectangle sticks out at the bottom of the frame
    only (even patch, columns inside): the rows that are left are pushed to
    the bottom of the slot. The first [cx + ph//2 - H] rows of the slot are
    zero, and slot row [i] below them holds frame row [H - ph + i], not the
    row [cx - ph//2 + i] it holds for an interior lenslet. *)
Theorem extract_views_bottom_edge_shifts :
  forall (A : Type) (SA : Scalar A) (image : tensor4 A)
         (lenslet_coords : list (Z * Z)) (ph pw : Z),
    shape4_ok image -> 0 <= ph -> 0 <= pw ->
    Z.even ph = true -> Z.even pw = true ->
    table_meets image lenslet_coords (ph, pw) ->
    exists out,
      extract_views image lenslet_coords (ph, pw) = Ok out /\
      forall nLens cx cy,
        nth_error lenslet_coords nLens = Some (cx, cy) ->
        0 <= cx - ph / 2 -> n4_2 image < cx + ph / 2 ->
        interior cy pw (n4_3 image) ->
        forall b c i j, 0 <= i < ph -> 0 <= j < pw ->
          get5 out b c (Z.of_nat nLens) i j
            = if cx + ph / 2 - n4_2 image <=? i
              then get4 image b c (n4_2 image - ph + i) (cy - pw / 2 + j)
              else zero.
Proof.
  intros A SA image coords ph pw Hs Hph Hpw Eph Epw Ht.
  destruct (extract_views_spec image ph pw coords Hs Hph Hpw Ht)
    as (out & E & _ & _ & _ & _ & _ & G).
  exists out. split; [exact E|].
  intros n cx cy Hn Hlo Hhi Hy b c i j Hi Hj.
  pose proof (even_half ph Eph) as Hph2. pose proof (even_half pw Epw) as Hpw2.
  unfold interior in Hy.
  rewrite (G _ _ Hn). unfold slot_pixel, patch_len, patch_start. cbn [fst snd].
  rewrite (Z.max_l (cx - ph / 2) 0), (Z.min_r (cx + ph / 2)) by lia.
  rewrite (Z.max_l (cy - pw / 2) 0), (Z.min_l (cy + pw / 2)) by lia.
  replace (ph - (n4_2 image - (cx - ph / 2))) with (cx + ph / 2 - n4_2 image) by lia.
  replace (pw - (cy + pw / 2 - (cy - pw / 2))) with 0 by lia.
  destruct (Z.leb_spec (cx + ph / 2 - n4_2 image) i);
    destruct (Z.ltb_spec i ph); try lia;
    destruct (Z.leb_spec 0 j); try lia;
    destruct (Z.ltb_spec j pw); try lia; cbn [andb]; [|reflexivity].
  f_equal; lia.
Qed.

Lemma extract_views_bottom_edge_witness :
  exists out,
    extract_views ramp_image [(5, 3)] (4, 4) = Ok out /\
    forall i j, 0 <= i < 4 -> 0 <= j < 4 ->
      get5 out 0 0 0 i j = if 1 <=? i then 10 * (2 + i) + (1 + j) else 0.
Proof.
  destruct (extract_views_bottom_edge_shifts Z Scalar_Z ramp_image [(5, 3)] 4 4)
    as (out & E & G).
  - unfold shape4_ok; cbn; lia.
  - lia.
  - lia.
  - reflexivity.
  - reflexivity.
  - repeat constructor; unfold meets; cbn; lia.
  - exists out. split; [exact E|]. intros i j Hi Hj.
    pose proof (G 0%nat 5 3 eq_refl) as Hg. change (Z.of_nat 0) with 0 in Hg.
    rewrite (Hg ltac:(cbn; lia) ltac:(cbn; lia)
                ltac:(unfold interior; cbn; lia) 0 0 i j Hi Hj).
    change (5 + 4 / 2 - n4_2 ramp_image) with 1.
    destruct (1 <=? i); [|reflexivity].
    unfold ramp_image. cbn [get4 n4_2]. change (3 - 4 / 2) with 1. lia.
Defined.

(** ** Square padding *)

(** X4. On a frame that is at least as wide as it is high, [pad_img_to_min]
    keeps every row and removes [(w - h + 1)//2] columns on each side: the
    result is the centered [h x h] square when [w - h] is even (a square
    frame comes back unchanged), and has one column less than rows when
    [w - h] is odd. *)
Theorem pad_img_to_min_landscape :
  forall (A : Type) (SA : Scalar A) (image : tensor2 A),
    let h := n2_0 image in
    let w := n2_1 image in
    h <= w -> 0 < h - (w - h) mod 2 ->
    exists out,
      pad_img_to_min image = Ok out /\
      n2_0 out = h /\ n2_1 out = h - (w - h) mod 2 /\
      forall i j, 0 <= i < n2_0 out -> 0 <= j < n2_1 out ->
        0 <= j + (w - h + 1) / 2 < w /\
        get2 out i j = get2 image i (j + (w - h + 1) / 2).
Proof.
  intros A SA image h w Hhw Hpos.
  assert (Hm : Z.min h w = h) by lia.
  pose proof (Z.div_mod (h - w) 2 ltac:(lia)) as D1.
  pose proof (Z.mod_pos_bound (h - w) 2 ltac:(lia)) as B1.
  pose proof (Z.div_mod (w - h) 2 ltac:(lia)) as D2.
  pose proof (Z.mod_pos_bound (w - h) 2 ltac:(lia)) as B2.
  pose proof (Z.div_mod (w - h + 1) 2 ltac:(lia)) as D3.
  pose proof (Z.mod_pos_bound (w - h + 1) 2 ltac:(lia)) as B3.
  assert (Hp : (h - w) / 2 = - ((w - h + 1) / 2)) by lia.
  assert (Hw : w + (h - w) / 2 + (h - w) / 2 = h - (w - h) mod 2) by lia.
  unfold pad_img_to_min. cbn [fst snd]. fold h w. rewrite Hm.
  rewrite (F_pad_narrows image) by (fold h w; lia).
  eexists. split; [reflexivity|].
  cbn [n2_0 n2_1 get2]. fold h w. split; [lia|]. split; [lia|].
  intros i j Hi Hj. split; [lia|].
  rewrite (proj2 (inside_spec _ 0 h)), (proj2 (inside_spec _ 0 w)) by lia.
  cbn [andb]. f_equal; lia.
Qed.

Lemma pad_img_to_min_landscape_witness :
  exists out,
    pad_img_to_min (T2 4 7 (fun i j => 10 * i + j)) = Ok out /\
    rows_of out = [[2; 3; 4]; [12; 13; 14]; [22; 23; 24]; [32; 33; 34]].
Proof.
  destruct (pad_img_to_min_landscape Z Scalar_Z (T2 4 7 (fun i j => 10 * i + j)))
    as (out & E & _).
  - cbn. lia.
  - cbn. lia.
  - exists out. split; [exact E|].
    vm_compute in E. injection E as <-. reflexivity.
Defined.

(** X5. On a frame more than twice as high as it is wide the height would
    become negative ([h + 2*(w - h) < 0]): [pad_img_to_min] raises. *)
Theorem pad_img_to_min_raises_tall :
  forall (A : Type) (SA : Scalar A) (image : tensor2 A),
    0 <= n2_1 image -> 2 * n2_1 image < n2_0 image ->
    pad_img_to_min image = Raise RuntimeError.
Proof.
  intros A SA image Hw Hh. unfold pad_img_to_min. cbn [fst snd].
  rewrite Z.min_r by lia. rewrite Z.sub_diag. change (0 / 2) with 0.
  apply F_pad_narrow_raises; try lia.
Qed.

Lemma pad_img_to_min_raises_witness :
  pad_img_to_min (T2 9 4 (fun i j => 10 * i + j)) = Raise RuntimeError.
Proof.
  apply (pad_img_to_min_raises_tall Z Scalar_Z); cbn; lia.
Defined.

(** ** Border blanking *)

Section BlankBorder.

Context {A : Type} `{Scalar A}.

Lemma blank_border_shape (b : Z) (v : tensor3 A) :
  n3_0 (blank_border b v) = n3_0 v /\
  n3_1 (blank_border b v) = n3_1 v /\
  n3_2 (blank_border b v) = n3_2 v.
Proof.
  unfold blank_border. destruct (0 <? b); [|repeat split].
  autorewrite with fill0. repeat split.
Qed.

Lemma blank_border_get (b : Z) (v : tensor3 A) (i j k : Z) :
  0 < b -> shape3_ok v ->
  0 <= i < n3_0 v -> 0 <= j < n3_1 v -> 0 <= k < n3_2 v ->
  get3 (blank_border b v) i j k
    = if near_face b v i j k then zero else get3 v i j k.
Proof.
  intros Hb (H0 & H1 & H2) Hi Hj Hk.
  unfold blank_border. rewrite (proj2 (Z.ltb_lt 0 b) Hb).
  unfold near_face. autorewrite with fill0.
  rewrite !slice_head, !slice_last by assumption. cbn [fst snd].
  rewrite !inside_head, !inside_last by assumption.
  destruct (i <? b), (n3_0 v - b <=? i), (j <? b), (n3_1 v - b <=? j),
           (k <? b), (n3_2 v - b <=? k); reflexivity.
Qed.

(** A thicker border covers a thinner one. *)
Lemma near_face_mono (v : tensor3 A) (b1 b2 i j k : Z) :
  b1 <= b2 -> near_face b1 v i j k = true -> near_face b2 v i j k = true.
Proof.
  unfold near_face. intros Hb.
  rewrite !orb_true_iff, !Z.ltb_lt, !Z.leb_le. lia.
Qed.

End BlankBorder.

(** X6. Blanking composes: blanking with thickness [b1] a volume already
    blanked with [b2] gives the volume blanked once with the larger of the
    two; in particular blanking twice with the same thickness changes
    nothing more. *)
Theorem blank_border_twice :
  forall (A : Type) (SA : Scalar A) (v : tensor3 A) (b1 b2 : Z),
    shape3_ok v -> 0 < b1 -> 0 < b2 ->
    forall i j k,
      0 <= i < n3_0 v -> 0 <= j < n3_1 v -> 0 <= k < n3_2 v ->
      get3 (blank_border b1 (blank_border b2 v)) i j k
        = get3 (blank_border (Z.max b1 b2) v) i j k.
Proof.
  intros A SA v b1 b2 Hs Hb1 Hb2 i j k Hi Hj Hk.
  destruct (blank_border_shape b2 v) as (S0 & S1 & S2).
  rewrite blank_border_get; try assumption;
    [|unfold shape3_ok in *; rewrite S0, S1, S2; exact Hs
     |rewrite S0; exact Hi|rewrite S1; exact Hj|rewrite S2; exact Hk].
  rewrite (blank_border_get b2 v), (blank_border_get (Z.max b1 b2) v);
    try assumption; try lia.
  replace (near_face b1 (blank_border b2 v) i j k) with (near_face b1 v i j k)
    by (unfold near_face; rewrite S0, S1, S2; reflexivity).
  destruct (Z.max_spec b1 b2) as [[Hlt ->]|[Hle ->]].
  - pose proof (near_face_mono v b1 b2 i j k ltac:(lia)) as Hm.
    destruct (near_face b1 v i j k), (near_face b2 v i j k); try reflexivity.
    discriminate (Hm eq_refl).
  - pose proof (near_face_mono v b2 b1 i j k ltac:(lia)) as Hm.
    destruct (near_face b1 v i j k), (near_face b2 v i j k); try reflexivity.
    discriminate (Hm eq_refl).
Qed.

Lemma blank_border_twice_witness :
  get3 (blank_border 3 (blank_border 2 cube10)) 2 5 5
    = get3 (blank_border 3 cube10) 2 5 5 /\
  get3 (blank_border 2 (blank_border 2 cube10)) 5 5 5
    = get3 (blank_border 2 cube10) 5 5 5.
Proof.
  split.
  - exact (blank_border_twice Z Scalar_Z cube10 3 2
             ltac:(unfold shape3_ok; cbn; lia) ltac:(lia) ltac:(lia) 2 5 5
             ltac:(cbn; lia) ltac:(cbn; lia) ltac:(cbn; lia)).
  - exact (blank_border_twice Z Scalar_Z cube10 2 2
             ltac:(unfold shape3_ok; cbn; lia) ltac:(lia) ltac:(lia) 5 5 5
             ltac:(cbn; lia) ltac:(cbn; lia) ltac:(cbn; lia)).
Defined.

(** X7. When the border is at least half as thick as one of the three axes
    ([2*b >= n] for the height, the width or the depth of the volume),
    blanking leaves nothing: every voxel is zero. *)
Theorem blank_border_wipes_thin_volume :
  forall (A : Type) (SA : Scalar A) (v : tensor3 A) (b : Z),
    shape3_ok v -> 0 < b ->
    n3_0 v <= 2 * b \/ n3_1 v <= 2 * b \/ n3_2 v <= 2 * b ->
    forall i j k,
      0 <= i < n3_0 v -> 0 <= j < n3_1 v -> 0 <= k < n3_2 v ->
      get3 (blank_border b v) i j k = zero.
Proof.
  intros A SA v b Hs Hb Hthin i j k Hi Hj Hk.
  rewrite blank_border_get by assumption.
  assert (Hn : near_face b v i j k = true).
  { unfold near_face. rewrite !orb_true_iff, !Z.ltb_lt, !Z.leb_le. lia. }
  rewrite Hn. reflexivity.
Qed.

Lemma blank_border_wipes_witness :
  get3 (blank_border 5 cube10) 5 5 5 = 0 /\ get3 (blank_border 5 cube10) 4 7 2 = 0.
Proof.
  split.
  - exact (blank_border_wipes_thin_volume Z Scalar_Z cube10 5
             ltac:(unfold shape3_ok; cbn; lia) ltac:(lia) ltac:(left; cbn; lia)
             5 5 5 ltac:(cbn; lia) ltac:(cbn; lia) ltac:(cbn; lia)).
  - exact (blank_border_wipes_thin_volume Z Scalar_Z cube10 5
             ltac:(unfold shape3_ok; cbn; lia) ltac:(lia) ltac:(left; cbn; lia)
             4 7 2 ltac:(cbn; lia) ltac:(cbn; lia) ltac:(cbn; lia)).
Defined.

(** ** Storing a volume *)

Section StoreVol.

Context {A : Type} `{Scalar A}.

Lemma slice_window (n0 n : Z) :
  0 <= n0 <= n -> Py.slice (Some 0) (Some n0) n = (0, n0).
Proof.
  intros Hn. unfold Py.slice, Py.adjust. cbn [Z.ltb Z.compare].
  destruct (Z.ltb_spec n0 0); [lia|]. f_equal; lia.
Qed.

Lemma canonical_window_value (first : tensor3 A) :
  canonical_window first = ((0, 0), (n3_0 first, n3_1 first)).
Proof.
  unfold canonical_window. cbn [fst snd].
  rewrite !Z.sub_diag, !Z.add_0_r. reflexivity.
Qed.

End StoreVol.

(** X8. What the ingest loop stores for a volume of [D <= n_depths_to_fill]
    depths whose height and width are at least those of the first volume
    (which sized the tensor): position [nImg] holds the volume depth first,
    [vols[nImg, d, i, j] = currVol[i, j, d]] for [d < D], cropped to the top
    left [H0 x W0] corner; the depths from [D] on keep what they held (the
    zeros of the allocation), and every other position is untouched. *)
Theorem store_vol_depth_first_top_left :
  forall (A : Type) (SA : Scalar A) (first currVol : tensor3 A)
         (vols : tensor4 A) (nImg : Z),
    n4_2 vols = n3_0 first -> n4_3 vols = n3_1 first ->
    0 <= nImg < n4_0 vols ->
    0 <= n3_0 first <= n3_0 currVol ->
    0 <= n3_1 first <= n3_1 currVol ->
    0 <= n3_2 currVol <= n4_1 vols ->
    exists vols',
      XLFMDatasetFull.store_vol (fst (canonical_window first))
        (snd (canonical_window first)) nImg currVol vols = Ok vols' /\
      same_shape4 vols' vols /\
      forall m d i j,
        0 <= d < n4_1 vols -> 0 <= i < n4_2 vols -> 0 <= j < n4_3 vols ->
        get4 vols' m d i j
          = if (m =? nImg) && (d <? n3_2 currVol) then get3 currVol i j d
            else get4 vols m d i j.
Proof.
  intros A SA first cv vols nImg E2 E3 Hn Hh Hw Hd.
  rewrite canonical_window_value. cbn [fst snd].
  unfold XLFMDatasetFull.store_vol, permute201. cbn [fst snd n3_0 n3_1 n3_2 get3].
  rewrite (slice_window _ _ Hh), (slice_window _ _ Hw).
  rewrite (index_in_range nImg _ Hn). cbn [bind].
  unfold Py.slice at 1. unfold Py.adjust.
  destruct (Z.ltb_spec (n3_2 cv) 0); [lia|].
  rewrite Z.min_l, Z.sub_0_r, Z.max_l by lia.
  rewrite E2, E3, !bcast_same. cbn [bind].
  eexists. split; [reflexivity|].
  split; [unfold same_shape4; cbn [n4_0 n4_1 n4_2 n4_3]; auto|].
  intros m d i j Hdr Hi Hj. cbn [get4].
  rewrite (proj2 (inside_spec i 0 (n3_0 first))), (proj2 (inside_spec j 0 (n3_1 first)))
    by lia.
  rewrite !andb_true_r. unfold inside.
  destruct (Z.leb_spec 0 d); [|lia]. cbn [andb]. rewrite Z.add_0_l.
  destruct (m =? nImg), (d <? n3_2 cv); cbn [andb]; try reflexivity.
  f_equal; lia.
Qed.

Lemma store_vol_depth_first_witness :
  exists vols',
    XLFMDatasetFull.store_vol (0, 0) (5, 7) 1 odd_volume
      (T4 2 4 5 7 (fun _ _ _ _ => 0)) = Ok vols' /\
    get4 vols' 1 2 4 6 = get3 odd_volume 4 6 2 /\
    get4 vols' 1 3 4 6 = 0 /\ get4 vols' 0 2 4 6 = 0.
Proof.
  destruct (store_vol_depth_first_top_left Z Scalar_Z odd_volume odd_volume
              (T4 2 4 5 7 (fun _ _ _ _ => 0)) 1)
    as (vols' & E & _ & G); try (cbn; lia); try reflexivity.
  exists vols'. split; [exact E|].
  rewrite !G by (cbn; lia). repeat split.
Defined.

(** X9. A volume that does not fit raises instead of being stored: one with
    more depths than [n_depths_to_fill], or one lower or narrower than the
    first volume (unless that axis has a single position, which is
    repeated). *)
Theorem store_vol_raises_on_misfit :
  forall (A : Type) (SA : Scalar A) (first currVol : tensor3 A)
         (vols : tensor4 A) (nImg : Z),
    n4_2 vols = n3_0 first -> n4_3 vols = n3_1 first ->
    0 <= nImg < n4_0 vols ->
    shape3_ok currVol ->
    0 < n4_1 vols < n3_2 currVol \/
    (n3_0 currVol < n3_0 first /\ n3_0 currVol <> 1) \/
    (n3_1 currVol < n3_1 first /\ n3_1 currVol <> 1) ->
    XLFMDatasetFull.store_vol (fst (canonical_window first))
      (snd (canonical_window first)) nImg currVol vols = Raise RuntimeError.
Proof.
  intros A SA first cv vols nImg E2 E3 Hn (C0 & C1 & C2) Hbad.
  rewrite canonical_window_value. cbn [fst snd].
  unfold XLFMDatasetFull.store_vol, permute201. cbn [fst snd n3_0 n3_1 n3_2 get3].
  rewrite (index_in_range nImg _ Hn).
  unfold Py.slice, Py.adjust. cbn [Z.ltb Z.compare bind].
  rewrite E2, E3.
  destruct (Z.ltb_spec (n3_0 first) 0), (Z.ltb_spec (n3_1 first) 0),
           (Z.ltb_spec (n3_2 cv) 0); try lia;
    unfold bcast;
    repeat match goal with
           | |- context [?a =? ?c] => destruct (Z.eqb_spec a c)
           end; cbn [bind]; try reflexivity; lia.
Qed.

Lemma store_vol_raises_witness :
  XLFMDatasetFull.store_vol (0, 0) (5, 7) 0 odd_volume
    (T4 2 2 5 7 (fun _ _ _ _ => 0)) = Raise RuntimeError.
Proof.
  apply (store_vol_raises_on_misfit Z Scalar_Z odd_volume odd_volume
           (T4 2 2 5 7 (fun _ _ _ _ => 0)) 0);
    try reflexivity; try (unfold shape3_ok; cbn; lia).
Defined.

(** ** The paired dataset: construction *)

Lemma mapM_length {X Y : Type} (f : X -> result Y) (l : list X) :
  forall ys, mapM f l = Ok ys -> length ys = length l.
Proof.
  induction l as [|x l IH]; intros ys E; cbn [mapM] in E.
  - injection E as <-. reflexivity.
  - destruct (f x); cbn [bind] in E; [|discriminate E].
    destruct (mapM f l) as [ys0|]; cbn [bind] in E; [|discriminate E].
    injection E as <-. cbn [length]. f_equal. exact (IH ys0 eq_refl).
Qed.

Lemma py_max_raises (l : list Z) (e : exn) : Py.max l = Raise e -> e = ValueError.
Proof. destruct l; cbn [Py.max]; [intros [= <-]; reflexivity|discriminate]. Qed.

Lemma getitem_in_range {X : Type} (l : list X) (i : Z) :
  0 <= i < Py.len l -> exists x, Py.getitem l i = Ok x.
Proof.
  intros Hi. unfold Py.getitem. rewrite (index_in_range i _ Hi). cbn [bind].
  destruct (nth_error l (Z.to_nat i)) as [x|] eqn:E; [exists x; reflexivity|].
  apply nth_error_None in E. unfold Py.len in Hi. lia.
Qed.

Section Construction.

Context {A : Type} `{Scalar A}.
Variable crop : tensor2 A -> Z * Z -> tensor2 A.

Lemma store_vol_shape (vS vE : Z * Z) (x : Z) (cv : tensor3 A) (vols vols' : tensor4 A) :
  XLFMDatasetFull.store_vol vS vE x cv vols = Ok vols' -> same_shape4 vols' vols.
Proof.
  unfold XLFMDatasetFull.store_vol. intros E.
  repeat match type of E with
         | (let '(_, _) := ?p in _) = _ => destruct p
         | bind ?c _ = _ => destruct c; cbn [bind] in E; [|discriminate E]
         end.
  injection E as <-. repeat split.
Qed.

Lemma store_view_shape (x : Z) (image : tensor2 A) (views views' : tensor3 A) :
  XLFMDatasetFull.store_view x image views = Ok views' -> same_shape3 views' views.
Proof.
  unfold XLFMDatasetFull.store_view. intros E.
  repeat match type of E with
         | bind ?c _ = _ => destruct c; cbn [bind] in E; [|discriminate E]
         end.
  injection E as <-. repeat split.
Qed.

(** A turn of the loop, with or without volumes, keeps both shapes and
    has read a frame inside the stack. *)
Lemma ingest_step_shape (all_files : list (tensor3 A)) (img_dataset : tensor3 A)
    (img_shape : Z * Z) (b : Z) (lv : bool) (vS vE : Z * Z) (x : Z)
    (st st' : tensor4 A * tensor3 A) :
  XLFMDatasetFull.ingest_step crop all_files img_dataset img_shape b lv vS vE x st
    = Ok st' ->
  same_shape4 (fst st') (fst st) /\ same_shape3 (snd st') (snd st) /\
  is_ok (Py.index x (n3_0 img_dataset)) = true.
Proof.
  unfold XLFMDatasetFull.ingest_step. intros E.
  match type of E with
  | bind ?c _ = _ => destruct c as [v|] eqn:Ec; cbn [bind] in E; [|discriminate E]
  end.
  assert (Hv : same_shape4 v (fst st)).
  { destruct lv.
    - destruct (XLFMDatasetFull.ingest_vol all_files b x); cbn [bind] in Ec;
        [|discriminate Ec].
      exact (store_vol_shape _ _ _ _ _ _ Ec).
    - injection Ec as <-. repeat split. }
  unfold XLFMDatasetFull.ingest_img, select3 in E.
  destruct (Py.index x (n3_0 img_dataset)) as [k|] eqn:Ek; cbn [bind] in E;
    [|discriminate E].
  destruct (pad_img_to_min _); cbn [bind] in E; [|discriminate E].
  destruct (XLFMDatasetFull.store_view x _ (snd st)) as [w|] eqn:Ew;
    cbn [bind] in E; [|discriminate E].
  injection E as <-. cbn [fst snd].
  split; [exact Hv|]. split; [exact (store_view_shape _ _ _ _ Ew)|reflexivity].
Qed.

Lemma ingest_loop_shape (all_files : list (tensor3 A)) (img_dataset : tensor3 A)
    (img_shape : Z * Z) (b : Z) (lv : bool) (vS vE : Z * Z) (l : list Z) :
  forall st st',
    foldM (XLFMDatasetFull.ingest_step crop all_files img_dataset img_shape b lv vS vE)
      l st = Ok st' ->
    same_shape4 (fst st') (fst st) /\ same_shape3 (snd st') (snd st) /\
    forall x, In x l -> is_ok (Py.index x (n3_0 img_dataset)) = true.
Proof.
  induction l as [|y l IH]; intros st st' E; cbn [foldM] in E.
  - injection E as <-. split; [repeat split|]. split; [repeat split|]. intros x [].
  - match type of E with
    | bind ?c _ = _ => destruct c as [sa|] eqn:Ey; cbn [bind] in E; [|discriminate E]
    end.
    destruct (ingest_step_shape _ _ _ _ _ _ _ _ _ _ Ey) as (S4 & S3 & Hy).
    destruct (IH sa st' E) as (T4' & T3' & Hl).
    split; [exact (same_shape4_trans _ _ _ T4' S4)|].
    split; [exact (same_shape3_trans _ _ _ T3' S3)|].
    intros x [<-|Hx]; [exact Hy|exact (Hl x Hx)].
Qed.

(** What a constructor call has gone through when it returns, with or
    without volumes. *)
Lemma init_inv_any (files : list (tensor3 A)) (img_dataset : tensor3 A)
    (img_shape : Z * Z) (itu : option (list Z)) (nd b : Z) (lv : bool)
    (shifts : list Z) (rnd : bool) (self : dataset A) :
  XLFMDatasetFull.__init__ crop files img_dataset img_shape itu nd b lv shifts rnd
    = Ok self ->
  exists mi ms,
    Py.max (match itu with Some l => l | None => Py.range (n3_0 img_dataset) end)
      = Ok mi /\
    Py.max shifts = Ok ms /\
    0 <= mi + ms + 1 /\
    n3_0 (stacked_views self) = mi + ms + 1 /\
    n3_1 (stacked_views self) = fst img_shape /\
    n3_2 (stacked_views self) = snd img_shape /\
    (lv = false -> vols self = None) /\
    (forall x, 0 <= x < mi + ms + 1 -> x < n3_0 img_dataset).
Proof.
  unfold XLFMDatasetFull.__init__. intros E.
  match type of E with
  | bind ?c _ = _ => destruct c as [mi|] eqn:E1; cbn [bind] in E; [|discriminate E]
  end.
  destruct (Py.max shifts) as [ms|] eqn:E2; cbn [bind] in E; [|discriminate E].
  match type of E with
  | bind ?c _ = _ => destruct c as [all_files|] eqn:E3; cbn [bind] in E;
                     [|discriminate E]
  end.
  match type of E with
  | bind ?c _ = _ => destruct c as [[window vols0]|] eqn:E4; cbn [bind] in E;
                     [|discriminate E]
  end.
  unfold XLFMDatasetFull.zeros3 in E.
  destruct (Z.leb_spec 0 (mi + ms + 1)); cbn [andb bind] in E; [|discriminate E].
  match type of E with
  | bind (if ?c then _ else _) _ = _ =>
      destruct c; cbn [bind] in E; [|discriminate E]
  end.
  match type of E with
  | bind ?c _ = _ => destruct c as [st'|] eqn:E5; cbn [bind] in E; [|discriminate E]
  end.
  injection E as <-. exists mi, ms.
  destruct (ingest_loop_shape _ _ _ _ _ _ _ _ _ _ E5) as (_ & (S0 & S1 & S2) & Hr).
  cbn [fst snd n3_0 n3_1 n3_2] in S0, S1, S2.
  cbn [stacked_views vols].
  repeat split; try assumption.
  - intros ->. reflexivity.
  - intros x Hx. specialize (Hr x (proj2 (in_range _ _) Hx)).
    destruct (Py.index x (n3_0 img_dataset)) as [k|] eqn:Ek; [|discriminate Hr].
    exact (proj2 (index_ok_range _ _ _ (proj1 Hx) Ek)).
Qed.

(** With volumes, the loop reads [self.all_files] at every stored position:
    there are at most [n_images] of them. *)
Lemma init_stored_le_images (files : list (tensor3 A)) (img_dataset : tensor3 A)
    (img_shape : Z * Z) (itu : list Z) (nd b : Z) (shifts : list Z) (rnd : bool)
    (self : dataset A) :
  XLFMDatasetFull.__init__ crop files img_dataset img_shape (Some itu) nd b true
    shifts rnd = Ok self ->
  n3_0 (stacked_views self) <= n_images self.
Proof.
  intros Einit.
  destruct (init_stored_count crop _ _ _ _ _ _ _ _ _ Einit) as (mi & ms & E1 & E2 & Hn).
  destruct (init_inv crop _ _ _ _ _ _ _ _ _ Einit)
    as (mi' & ms' & all_files & v0 & st' & E1' & E2' & E3 & E4 & Hpos & E5 & ->).
  rewrite E1 in E1'. injection E1' as <-. rewrite E2 in E2'. injection E2' as <-.
  cbn [n_images stacked_views] in *.
  assert (Hlen : Py.len all_files = Z.min (Py.len itu) (n3_0 img_dataset)
                 /\ 0 < Py.len all_files).
  { destruct (getitem_nonneg_nth _ _ _ (Z.le_refl 0) E4) as [_ Hl].
    split; [|exact Hl].
    unfold XLFMDatasetFull.select_files in E3.
    destruct (Z.ltb_spec 0 (Py.len files)); cbn [andb] in E3.
    - apply mapM_length in E3. unfold Py.len at 1. rewrite E3.
      unfold Py.range. rewrite length_map, length_seq.
      unfold Py.len in Hl. rewrite E3 in Hl.
      unfold Py.range in Hl. rewrite length_map, length_seq in Hl. lia.
    - injection E3 as <-. lia. }
  destruct Hlen as [Hlen Hne]. rewrite Hn.
  destruct (Z.le_gt_cases (mi + ms + 1) 0) as [|Hgt]; [lia|].
  destruct (ingest_loop_entries crop all_files img_dataset img_shape b _ _
              (Py.range (mi + ms + 1)) _ st' E5 (NoDup_range _))
    as (_ & _ & _ & Hin).
  { intros x Hx. apply in_range in Hx. cbn. split; lia. }
  assert (Hlast : In (mi + ms) (Py.range (mi + ms + 1))) by (apply in_range; lia).
  destruct (Hin (mi + ms) Hlast) as (v & _ & _ & _ & G1 & _).
  assert (Hnn : 0 <= mi + ms) by lia.
  destruct (getitem_nonneg_nth _ _ _ Hnn G1) as [_ Hl]. lia.
Qed.

End Construction.

(** X10. A paired dataset built with [images_to_use] left out (the
    constructor's default) cannot be indexed: the constructor defaults its
    local list but stores the argument as given, and [__getitem__]
    subscripts the stored [None], which raises [TypeError] for every
    index. *)
Theorem paired_getitem_needs_images_to_use :
  forall (A : Type) (SA : Scalar A) (crop : tensor2 A -> Z * Z -> tensor2 A)
         (files : list (tensor3 A)) (img_dataset : tensor3 A) (img_shape : Z * Z)
         (n_depths_to_fill border_blanking : Z) (with_vols : bool)
         (shifts : list Z) (random : bool) (self : dataset A),
    XLFMDatasetFull.__init__ crop files img_dataset img_shape None
      n_depths_to_fill border_blanking with_vols shifts random = Ok self ->
    forall index, XLFMDatasetFull.__getitem__ self index = Raise TypeError.
Proof.
  intros A SA crop files imgs img_shape nd b lv shifts rnd self E index.
  destruct (init_fields _ _ _ _ _ _ _ _ _ _ _ E) as (Hi & _).
  unfold XLFMDatasetFull.__getitem__. rewrite Hi. reflexivity.
Qed.

Lemma paired_getitem_default_witness :
  is_ok default_sample = true /\
  (self <- default_sample ;; XLFMDatasetFull.__getitem__ self 0) = Raise TypeError.
Proof.
  split; [vm_compute; reflexivity|].
  unfold default_sample.
  destruct (XLFMDatasetFull.__init__ center_crop [] frames12 (1, 1) None 1 0 false
              [0] false) as [self|e] eqn:E; [|vm_compute in E; discriminate E].
  cbn [bind].
  exact (paired_getitem_needs_images_to_use Z Scalar_Z center_crop [] frames12 (1, 1)
           1 0 false [0] false self E 0).
Defined.

(** X11. A paired dataset built with volumes stores
    [max(images_to_use) + max(shifts) + 1] frames and volumes, and the
    constructor returns only if that count is at most [n_images], hence at
    most the number of entries of [images_to_use] and the number of frames
    of the stack (the loop reads [self.all_files], which has [n_images]
    entries, at every stored position). *)
Theorem paired_stored_count_bounded :
  forall (A : Type) (SA : Scalar A) (crop : tensor2 A -> Z * Z -> tensor2 A)
         (files : list (tensor3 A)) (img_dataset : tensor3 A) (img_shape : Z * Z)
         (itu : list Z) (n_depths_to_fill border_blanking : Z)
         (shifts : list Z) (random : bool) (self : dataset A),
    XLFMDatasetFull.__init__ crop files img_dataset img_shape (Some itu)
      n_depths_to_fill border_blanking true shifts random = Ok self ->
    exists mi ms,
      Py.max itu = Ok mi /\ Py.max shifts = Ok ms /\
      n3_0 (stacked_views self) = mi + ms + 1 /\
      mi + ms + 1 <= n_images self /\
      n_images self <= Py.len itu /\
      n_images self <= n3_0 img_dataset.
Proof.
  intros A SA crop files imgs img_shape itu nd b shifts rnd self E.
  destruct (init_stored_count crop _ _ _ _ _ _ _ _ _ E) as (mi & ms & E1 & E2 & Hn).
  pose proof (init_stored_le_images crop _ _ _ _ _ _ _ _ _ E) as Hle.
  destruct (init_fields _ _ _ _ _ _ _ _ _ _ _ E) as (_ & _ & _ & _ & Hni).
  exists mi, ms. repeat split; try assumption; lia.
Qed.

Lemma paired_stored_count_witness :
  exists self,
    swapped_sample = Ok self /\
    n3_0 (stacked_views self) = 2 /\ n_images self = 2.
Proof.
  unfold swapped_sample.
  destruct (XLFMDatasetFull.__init__ center_crop two_volumes two_frames (1, 1)
              (Some [1; 0]) 1 0 true [0] false) as [self|e] eqn:E;
    [|vm_compute in E; discriminate E].
  destruct (paired_stored_count_bounded Z Scalar_Z center_crop two_volumes two_frames
              (1, 1) [1; 0] 1 0 [0] false self E)
    as (mi & ms & E1 & E2 & Hn & H1 & H2 & H3).
  injection E1 as <-. injection E2 as <-.
  exists self. split; [reflexivity|]. split; [exact Hn|].
  cbn in H1, H2. lia.
Defined.

(** X12. Selecting the first [N] images with a shift set whose largest
    shift is positive (the default [[0, 1, 2]]) and loading volumes never
    yields a dataset: the loop asks for [N + max(shifts)] volumes while
    [self.all_files] holds [N] at most, so the constructor raises. *)
Theorem paired_init_lookahead_with_vols_fails :
  forall (A : Type) (SA : Scalar A) (crop : tensor2 A -> Z * Z -> tensor2 A)
         (files : list (tensor3 A)) (img_dataset : tensor3 A) (img_shape : Z * Z)
         (N n_depths_to_fill border_blanking : Z)
         (shifts : list Z) (random : bool) (ms : Z),
    0 < N -> Py.max shifts = Ok ms -> 0 < ms ->
    is_ok (XLFMDatasetFull.__init__ crop files img_dataset img_shape
             (Some (Py.range N)) n_depths_to_fill border_blanking true shifts random)
      = false.
Proof.
  intros A SA crop files imgs img_shape N nd b shifts rnd ms HN Hms Hpos.
  destruct (XLFMDatasetFull.__init__ crop files imgs img_shape (Some (Py.range N))
              nd b true shifts rnd) as [self|e] eqn:E; [|reflexivity].
  exfalso.
  destruct (init_stored_count crop _ _ _ _ _ _ _ _ _ E) as (mi & ms' & E1 & E2 & Hn).
  pose proof (init_stored_le_images crop _ _ _ _ _ _ _ _ _ E) as Hle.
  destruct (init_fields _ _ _ _ _ _ _ _ _ _ _ E) as (_ & _ & _ & _ & Hni).
  rewrite Hms in E2. injection E2 as <-.
  rewrite (py_max_greatest (Py.range N) (N - 1)) in E1.
  - injection E1 as <-. rewrite (len_range N) in Hni by lia. lia.
  - apply in_range. lia.
  - intros x Hx. apply in_range in Hx. lia.
Qed.

Lemma paired_init_lookahead_witness :
  is_ok (XLFMDatasetFull.__init__ center_crop three_volumes five_frames (1, 1)
           (Some (Py.range 3)) 1 0 true [0; 1; 2] false) = false.
Proof.
  apply (paired_init_lookahead_with_vols_fails Z Scalar_Z center_crop three_volumes
           five_frames (1, 1) 3 1 0 [0; 1; 2] false 2); [lia|reflexivity|lia].
Defined.

(** X13. An empty [temporal_shifts] or an empty [images_to_use] makes the
    constructor raise [ValueError] ([max] of an empty sequence), whatever
    the other arguments. *)
Theorem paired_init_empty_arguments :
  forall (A : Type) (SA : Scalar A) (crop : tensor2 A -> Z * Z -> tensor2 A)
         (files : list (tensor3 A)) (img_dataset : tensor3 A) (img_shape : Z * Z)
         (itu : option (list Z)) (n_depths_to_fill border_blanking : Z)
         (with_vols : bool) (shifts : list Z) (random : bool),
    XLFMDatasetFull.__init__ crop files img_dataset img_shape itu
      n_depths_to_fill border_blanking with_vols [] random = Raise ValueError /\
    XLFMDatasetFull.__init__ crop files img_dataset img_shape (Some [])
      n_depths_to_fill border_blanking with_vols shifts random = Raise ValueError.
Proof.
  intros A SA crop files imgs img_shape itu nd b lv shifts rnd.
  unfold XLFMDatasetFull.__init__. split; [|reflexivity].
  match goal with
  | |- bind ?c _ = _ => destruct c as [mi|e] eqn:E1; cbn [bind]
  end; [reflexivity|].
  f_equal. exact (py_max_raises _ _ E1).
Qed.

(** X14. Asking for volumes when no volume file was found makes the
    constructor raise [IndexError] (at [self.all_files[0]]), for every
    non-empty image selection and shift set. *)
Theorem paired_init_no_volume_files :
  forall (A : Type) (SA : Scalar A) (crop : tensor2 A -> Z * Z -> tensor2 A)
         (img_dataset : tensor3 A) (img_shape : Z * Z)
         (itu : list Z) (n_depths_to_fill border_blanking : Z)
         (shifts : list Z) (random : bool),
    itu <> [] -> shifts <> [] ->
    XLFMDatasetFull.__init__ crop [] img_dataset img_shape (Some itu)
      n_depths_to_fill border_blanking true shifts random = Raise IndexError.
Proof.
  intros A SA crop imgs img_shape itu nd b shifts rnd Hi Hs.
  unfold XLFMDatasetFull.__init__.
  destruct itu as [|i0 itu]; [contradiction|].
  destruct shifts as [|s0 shifts]; [contradiction|].
  reflexivity.
Qed.

Lemma paired_init_no_volume_files_witness :
  XLFMDatasetFull.__init__ center_crop [] five_frames (1, 1) (Some [0; 1])
    1 0 true [0] false = Raise IndexError.
Proof.
  apply (paired_init_no_volume_files Z Scalar_Z); discriminate.
Defined.

(** ** The paired dataset: accessors and samples *)

(** X15. [get_n_depths] of a dataset built with volumes is
    [n_depths_to_fill], whatever the depth of the volume files; on a dataset
    built without volumes it raises [IndexError], the placeholder having a
    single axis. *)
Theorem get_n_depths_of_built_dataset :
  forall (A : Type) (SA : Scalar A) (crop : tensor2 A -> Z * Z -> tensor2 A)
         (files : list (tensor3 A)) (img_dataset : tensor3 A) (img_shape : Z * Z)
         (itu : list Z) (n_depths_to_fill border_blanking : Z)
         (shifts : list Z) (random : bool) (self : dataset A),
    (XLFMDatasetFull.__init__ crop files img_dataset img_shape (Some itu)
       n_depths_to_fill border_blanking true shifts random = Ok self ->
     get_n_depths self = Ok n_depths_to_fill) /\
    (XLFMDatasetFull.__init__ crop files img_dataset img_shape (Some itu)
       n_depths_to_fill border_blanking false shifts random = Ok self ->
     get_n_depths self = Raise IndexError).
Proof.
  intros A SA crop files imgs img_shape itu nd b shifts rnd self. split; intros E.
  - destruct (init_inv crop _ _ _ _ _ _ _ _ _ E)
      as (mi & ms & all_files & v0 & st' & _ & _ & _ & _ & _ & E5 & ->).
    destruct (ingest_loop_shape crop _ _ _ _ _ _ _ _ _ _ E5) as ((_ & S1 & _) & _).
    unfold get_n_depths. cbn [vols]. f_equal. exact S1.
  - destruct (init_inv_any crop _ _ _ _ _ _ _ _ _ _ E)
      as (mi & ms & _ & _ & _ & _ & _ & _ & Hv & _).
    unfold get_n_depths. rewrite (Hv eq_refl). reflexivity.
Qed.

Lemma get_n_depths_witness :
  (self <- swapped_sample ;; get_n_depths self) = Ok 1 /\
  (self <- paired_sample ;; get_n_depths self) = Raise IndexError.
Proof.
  split.
  - unfold swapped_sample.
    destruct (XLFMDatasetFull.__init__ center_crop two_volumes two_frames (1, 1)
                (Some [1; 0]) 1 0 true [0] false) as [self|e] eqn:E;
      [|vm_compute in E; discriminate E].
    exact (proj1 (get_n_depths_of_built_dataset Z Scalar_Z center_crop two_volumes
                    two_frames (1, 1) [1; 0] 1 0 [0] false self) E).
  - unfold paired_sample.
    destruct (XLFMDatasetFull.__init__ center_crop [] frames12 (1, 1)
                (Some (Py.range 10)) 1 0 false [0; 1; 2] false) as [self|e] eqn:E;
      [|vm_compute in E; discriminate E].
    exact (proj2 (get_n_depths_of_built_dataset Z Scalar_Z center_crop []
                    frames12 (1, 1) (Py.range 10) 1 0 [0; 1; 2] false self) E).
Defined.

(** X16. The tensors of a dataset built with volumes: with
    [n = max(images_to_use) + max(shifts) + 1], the views have shape
    [[n, img_shape]] and the volumes [[n, n_depths_to_fill, H0, W0]], where
    [H0 x W0] is the extent of the volume file of [images_to_use[0]] (the
    first one read); the window kept is [(0, 0)] to [(H0, W0)]. *)
Theorem paired_dataset_shapes :
  forall (A : Type) (SA : Scalar A) (crop : tensor2 A -> Z * Z -> tensor2 A)
         (files : list (tensor3 A)) (img_dataset : tensor3 A) (img_shape : Z * Z)
         (itu : list Z) (n_depths_to_fill border_blanking : Z)
         (shifts : list Z) (random : bool) (self : dataset A),
    XLFMDatasetFull.__init__ crop files img_dataset img_shape (Some itu)
      n_depths_to_fill border_blanking true shifts random = Ok self ->
    exists mi ms k0 v0 stored_vols,
      Py.max itu = Ok mi /\ Py.max shifts = Ok ms /\
      Py.getitem itu 0 = Ok k0 /\ Py.getitem files k0 = Ok v0 /\
      vols self = Some stored_vols /\
      (n4_0 stored_vols, n4_1 stored_vols, n4_2 stored_vols, n4_3 stored_vols)
        = (mi + ms + 1, n_depths_to_fill, n3_0 v0, n3_1 v0) /\
      (n3_0 (stacked_views self), n3_1 (stacked_views self), n3_2 (stacked_views self))
        = (mi + ms + 1, fst img_shape, snd img_shape) /\
      volStart self = (0, 0) /\ volEnd self = (n3_0 v0, n3_1 v0).
Proof.
  intros A SA crop files imgs img_shape itu nd b shifts rnd self E.
  destruct (init_inv crop _ _ _ _ _ _ _ _ _ E)
    as (mi & ms & all_files & v0 & st' & E1 & E2 & E3 & E4 & _ & E5 & ->).
  destruct (ingest_loop_shape crop _ _ _ _ _ _ _ _ _ _ E5)
    as ((S0 & S1 & S2 & S3) & (T0 & T1 & T2) & _).
  cbn [fst snd n4_0 n4_1 n4_2 n4_3 n3_0 n3_1 n3_2] in *.
  assert (Hk : exists k0, Py.getitem itu 0 = Ok k0 /\ Py.getitem files k0 = Ok v0).
  { destruct (getitem_nonneg_nth _ _ _ (Z.le_refl 0) E4) as [Hnth Hlen].
    unfold XLFMDatasetFull.select_files in E3.
    destruct (Z.ltb_spec 0 (Py.len files)); cbn [andb] in E3.
    - destruct (mapM_nth _ _ _ E3 _ _ Hnth) as (x & Hx & Ex).
      apply nth_error_range in Hx. destruct Hx as [-> _].
      cbn [Z.to_nat Z.of_nat] in Ex.
      destruct (Py.getitem itu 0) as [k|]; cbn [bind] in Ex; [|discriminate Ex].
      exists k. split; [reflexivity|exact Ex].
    - injection E3 as <-. lia. }
  destruct Hk as (k0 & Ek & Ev).
  exists mi, ms, k0, v0, (fst st').
  cbn [vols stacked_views volStart volEnd].
  rewrite canonical_window_value. cbn [fst snd].
  repeat split; try assumption; congruence.
Qed.

Lemma paired_dataset_shapes_witness :
  exists self stored_vols,
    swapped_sample = Ok self /\ vols self = Some stored_vols /\
    (n4_0 stored_vols, n4_1 stored_vols, n4_2 stored_vols, n4_3 stored_vols)
      = (2, 1, 1, 1) /\
    volEnd self = (1, 1).
Proof.
  unfold swapped_sample.
  destruct (XLFMDatasetFull.__init__ center_crop two_volumes two_frames (1, 1)
              (Some [1; 0]) 1 0 true [0] false) as [self|e] eqn:E;
    [|vm_compute in E; discriminate E].
  destruct (paired_dataset_shapes Z Scalar_Z center_crop two_volumes two_frames
              (1, 1) [1; 0] 1 0 [0] false self E)
    as (mi & ms & k0 & v0 & V & E1 & E2 & Ek & Ev & HV & Hs & _ & _ & He).
  injection E1 as <-. injection E2 as <-. injection Ek as <-.
  injection Ev as <-.
  exists self, V. split; [reflexivity|]. split; [exact HV|].
  split; [exact Hs|exact He].
Defined.

(** X17. Every index below [len()] of a paired dataset built without
    volumes is served (image numbers and shifts not negative): the window
    [images_to_use[index] + shifts[n]] lies inside the stored frames, view
    [n] of the sample is the stored frame at that position, and the volume
    is the placeholder. *)
Theorem paired_getitem_serves_every_index :
  forall (A : Type) (SA : Scalar A) (crop : tensor2 A -> Z * Z -> tensor2 A)
         (files : list (tensor3 A)) (img_dataset : tensor3 A) (img_shape : Z * Z)
         (itu : list Z) (n_depths_to_fill border_blanking : Z)
         (shifts : list Z) (random : bool) (self : dataset A) (index : Z),
    XLFMDatasetFull.__init__ crop files img_dataset img_shape (Some itu)
      n_depths_to_fill border_blanking false shifts random = Ok self ->
    Forall (fun x => 0 <= x) itu ->
    Forall (fun s => 0 <= s) shifts ->
    0 <= index < XLFMDatasetFull.__len__ self ->
    exists k views,
      Py.getitem itu index = Ok k /\
      XLFMDatasetFull.__getitem__ self index = Ok (views, None) /\
      n3_0 views = Py.len shifts /\
      forall n s, nth_error shifts n = Some s ->
        0 <= k + s < n3_0 (stacked_views self) /\
        forall i j, get3 views (Z.of_nat n) i j = get3 (stacked_views self) (k + s) i j.
Proof.
  intros A SA crop files imgs img_shape itu nd b shifts rnd self index
         E Hitu Hshifts Hidx.
  destruct (init_fields _ _ _ _ _ _ _ _ _ _ _ E) as (Hi & Hlv & Hs & _ & Hni).
  destruct (init_inv_any crop _ _ _ _ _ _ _ _ _ _ E)
    as (mi & ms & E1 & E2 & _ & N0 & _ & _ & _ & _).
  unfold XLFMDatasetFull.__len__ in Hidx. rewrite Hni in Hidx.
  cbn beta iota in Hidx.
  assert (Hlt : 0 <= index < Py.len itu) by lia.
  destruct (getitem_in_range itu index Hlt) as (k & Ek).
  assert (Hk0 : 0 <= k <= mi).
  { pose proof (getitem_in _ _ _ Ek) as Hin_k. split.
    - rewrite Forall_forall in Hitu. exact (Hitu k Hin_k).
    - exact (py_max_upper _ _ E1 k Hin_k). }
  assert (Hs0 : forall s, In s shifts -> 0 <= s <= ms).
  { intros s Hin_s. split.
    - rewrite Forall_forall in Hshifts. exact (Hshifts s Hin_s).
    - exact (py_max_upper _ _ E2 s Hin_s). }
  exists k. eexists. split; [exact Ek|]. split.
  { unfold XLFMDatasetFull.__getitem__, get_n_temporal_frames.
    rewrite Hi, Hlv, Hs, Ek. cbn [bind].
    rewrite (mapM_getitem_range (fun s => k + s) shifts (Py.len shifts))
      by (pose proof (len_nonneg shifts); lia).
    rewrite firstn_len. cbn [bind]. unfold gather3. rewrite N0.
    rewrite mapM_index_id.
    2:{ intros x Hx. apply in_map_iff in Hx. destruct Hx as (s & <- & Hin_s).
        specialize (Hs0 s Hin_s). lia. }
    cbn [bind negb]. reflexivity. }
  split; [cbn [n3_0]; apply length_map_len|].
  intros n s Hns. specialize (Hs0 s (nth_error_In _ _ Hns)).
  split; [lia|]. intros i j. cbn [get3]. rewrite Nat2Z.id.
  rewrite (nth_error_nth _ _ 0 (map_nth_error (fun s => k + s) _ _ Hns)).
  reflexivity.
Qed.

Lemma paired_getitem_serves_witness :
  exists self views,
    paired_sample = Ok self /\
    XLFMDatasetFull.__getitem__ self 9 = Ok (views, None) /\
    n3_0 views = 3.
Proof.
  unfold paired_sample.
  destruct (XLFMDatasetFull.__init__ center_crop [] frames12 (1, 1)
              (Some (Py.range 10)) 1 0 false [0; 1; 2] false) as [self|e] eqn:E;
    [|vm_compute in E; discriminate E].
  destruct (init_fields _ _ _ _ _ _ _ _ _ _ _ E) as (_ & _ & _ & _ & Hni).
  destruct (paired_getitem_serves_every_index Z Scalar_Z center_crop [] frames12
              (1, 1) (Py.range 10) 1 0 [0; 1; 2] false self 9 E)
    as (k & views & _ & Hg & Hn & _).
  - apply Forall_forall. intros x Hx. apply in_range in Hx. lia.
  - repeat constructor; lia.
  - unfold XLFMDatasetFull.__len__. rewrite Hni. cbn beta iota.
    change (Z.min (Py.len (Py.range 10)) (n3_0 frames12)) with 10. lia.
  - exists self, views. split; [reflexivity|]. split; [exact Hg|exact Hn].
Defined.

(** ** The frame window of the registration and volume-only datasets *)

Lemma window_indices_contiguous {A : Type} (self : dataset A) (index : Z)
    (g : generator) :
  is_contiguous (temporal_shifts self) = Ok true ->
  window_indices self index g
    = Ok (map (fun i => index + i) (Py.range (Py.len (temporal_shifts self))), g).
Proof.
  intros Hc. unfold window_indices, get_n_temporal_frames.
  pose proof (len_nonneg (temporal_shifts self)) as Hl.
  assert (Hm : mapM (fun i => s <- Py.getitem (Py.range (Py.len (temporal_shifts self))) i ;;
                              Ok (index + s))
                 (Py.range (Py.len (temporal_shifts self)))
               = Ok (map (fun i => index + i) (Py.range (Py.len (temporal_shifts self))))).
  { rewrite (mapM_getitem_range (fun s => index + s)) by (rewrite len_range; lia).
    rewrite <- (len_range (Py.len (temporal_shifts self))) at 1 by lia.
    rewrite firstn_len. reflexivity. }
  destruct (0 <? Py.len (temporal_shifts self)).
  - rewrite Hc. cbn [bind negb]. rewrite Hm. reflexivity.
  - cbn [bind]. rewrite Hm. reflexivity.
Qed.

Lemma sorted_shifted_seq (a : Z) (k : nat) :
  forall x,
    Py.sorted (map (fun n => a + Z.of_nat n) (seq x k))
      = map (fun n => a + Z.of_nat n) (seq x k).
Proof.
  induction k as [|k IH]; intros x; [reflexivity|].
  cbn [seq map Py.sorted fold_right].
  fold (Py.sorted (map (fun n => a + Z.of_nat n) (seq (S x) k))).
  rewrite IH. destruct k as [|k]; [reflexivity|].
  cbn [seq map Py.insert].
  destruct (Z.leb_spec (a + Z.of_nat x) (a + Z.of_nat (S x))); [reflexivity|lia].
Qed.

Lemma range2_as_seq (a n : Z) :
  Py.range2 a (a + n) = map (fun k => a + Z.of_nat k) (seq 0 (Z.to_nat n)).
Proof.
  unfold Py.range2, Py.range. replace (a + n - a) with n by lia.
  rewrite map_map. reflexivity.
Qed.

Lemma in_range2 (a n x : Z) : In x (Py.range2 a (a + n)) <-> a <= x < a + n.
Proof.
  rewrite range2_as_seq, in_map_iff. split.
  - intros (k & <- & Hk). apply in_seq in Hk. lia.
  - intros Hx. exists (Z.to_nat (x - a)). split; [lia|]. apply in_seq. lia.
Qed.

(** A run [a, a+1, ..., a+n-1] passes the test for a contiguous run. *)
Lemma range2_is_contiguous (a n : Z) :
  0 < n -> is_contiguous (Py.range2 a (a + n)) = Ok true.
Proof.
  intros Hn. unfold is_contiguous.
  rewrite (py_min_least (Py.range2 a (a + n)) a),
          (py_max_greatest (Py.range2 a (a + n)) (a + n - 1)).
  - cbn [bind]. f_equal.
    replace (a + n - 1 + 1) with (a + n) by lia.
    rewrite range2_as_seq, sorted_shifted_seq. apply list_eqb_refl.
  - apply in_range2. lia.
  - intros x Hx. apply in_range2 in Hx. lia.
  - apply in_range2. lia.
  - intros x Hx. apply in_range2 in Hx. lia.
Qed.

Lemma len_range2 (a n : Z) : 0 <= n -> Py.len (Py.range2 a (a + n)) = n.
Proof.
  intros Hn. rewrite range2_as_seq. unfold Py.len.
  rewrite length_map, length_seq. lia.
Qed.

(** X18. A configured run of consecutive shifts loses its first value: for
    shifts [[a, a+1, ..., a+n-1]], whatever [a] is and whether or not
    [use_random_shifts] is set, the window of sample [index] is
    [index, index+1, ..., index+n-1], as for [[0, ..., n-1]]. *)
Theorem window_indices_drop_run_offset :
  forall (A : Type) (self : dataset A) (index : Z) (g : generator) (a n : Z),
    0 < n ->
    temporal_shifts self = Py.range2 a (a + n) ->
    window_indices self index g = Ok (map (fun i => index + i) (Py.range n), g).
Proof.
  intros A self index g a n Hn Hs.
  rewrite (window_indices_contiguous self index g)
    by (rewrite Hs; exact (range2_is_contiguous a n Hn)).
  rewrite Hs, len_range2 by lia. reflexivity.
Qed.

Lemma window_indices_run_witness :
  window_indices (stored_sample [5; 6; 7] false false) 1 gen0 = Ok ([1; 2; 3], gen0).
Proof.
  exact (window_indices_drop_run_offset Z (stored_sample [5; 6; 7] false false) 1 gen0
           5 3 eq_refl eq_refl).
Defined.

Lemma mapM_app {X Y : Type} (f : X -> result Y) (l1 l2 : list X) :
  mapM f (l1 ++ l2)
    = (ys1 <- mapM f l1 ;; ys2 <- mapM f l2 ;; Ok (ys1 ++ ys2)).
Proof.
  induction l1 as [|x l1 IH]; cbn [app mapM bind].
  - destruct (mapM f l2); reflexivity.
  - destruct (f x); cbn [bind]; [|reflexivity].
    rewrite IH. destruct (mapM f l1); cbn [bind]; [|reflexivity].
    destruct (mapM f l2); reflexivity.
Qed.

(** Reading more entries than a sequence has. *)
Lemma mapM_getitem_short {X Y : Type} (f : X -> Y) (l : list X) (n : Z) :
  Py.len l < n ->
  mapM (fun i => s <- Py.getitem l i ;; Ok (f s)) (Py.range n) = Raise IndexError.
Proof.
  intros Hn. unfold Py.range, Py.len in *.
  replace (Z.to_nat n) with (length l + S (Z.to_nat n - S (length l)))%nat by lia.
  rewrite seq_app, map_app, mapM_app.
  rewrite mapM_getitem_seq by lia. cbn [bind seq map mapM Nat.add].
  unfold Py.getitem at 1, Py.index, Py.len.
  destruct (Z.ltb_spec (Z.of_nat (length l)) (Z.of_nat (length l))); [lia|].
  rewrite andb_false_r.
  destruct (Z.ltb_spec (Z.of_nat (length l)) 0); [lia|].
  rewrite andb_false_r. reflexivity.
Qed.

(** X19. With non-contiguous shifts and [use_random_shifts] set, three
    frame numbers are drawn whatever the length of the shift set: a shift
    set of more than three entries makes every access raise [IndexError],
    and a dataset of fewer than two images makes it raise at the draw
    (empty range). *)
Theorem window_indices_random_failures :
  forall (A : Type) (self : dataset A) (index : Z) (g : generator),
    is_contiguous (temporal_shifts self) = Ok false ->
    use_random_shifts self = true ->
    (1 < n_images self -> 3 < Py.len (temporal_shifts self) ->
     window_indices self index g = Raise IndexError) /\
    (n_images self <= 1 -> window_indices self index g = Raise RuntimeError).
Proof.
  intros A self index g Hc Hr.
  assert (Hl : 0 < Py.len (temporal_shifts self)).
  { destruct (temporal_shifts self); [discriminate Hc|].
    unfold Py.len. cbn [length]. lia. }
  unfold window_indices, get_n_temporal_frames.
  rewrite (proj2 (Z.ltb_lt _ _) Hl), Hc, Hr. cbn [bind negb]. unfold torch_randint.
  split.
  - intros Hn Hlen.
    destruct (Z.leb_spec (n_images self - 1) 0); [lia|].
    cbn [Z.ltb Z.compare bind].
    rewrite (mapM_getitem_short (fun s => 0 + s)); [reflexivity|].
    unfold Py.len at 1. rewrite length_map, length_seq. cbn. exact Hlen.
  - intros Hn. destruct (Z.leb_spec (n_images self - 1) 0); [|lia]. reflexivity.
Qed.

Lemma window_indices_random_failures_witness :
  window_indices (stored_sample [0; 2; 4; 6] true false) 0 gen0 = Raise IndexError.
Proof.
  exact (proj1 (window_indices_random_failures Z
                  (stored_sample [0; 2; 4; 6] true false) 0 gen0 eq_refl eq_refl)
           ltac:(cbn; lia) ltac:(cbn; lia)).
Defined.

(** ** Samples of the volume-only dataset *)

Lemma insert_length (x : Z) (l : list Z) : length (Py.insert x l) = S (length l).
Proof.
  induction l as [|y l IH]; cbn [Py.insert length]; [reflexivity|].
  destruct (x <=? y); cbn [length]; [reflexivity|]. now rewrite IH.
Qed.

Lemma sorted_length (l : list Z) : length (Py.sorted l) = length l.
Proof.
  induction l as [|x l IH]; [reflexivity|].
  unfold Py.sorted in *. cbn [fold_right length]. now rewrite insert_length, IH.
Qed.

Lemma list_eqb_length (a : list Z) :
  forall b, Py.list_eqb a b = true -> length a = length b.
Proof.
  induction a as [|x a IH]; intros [|y b] E; cbn [Py.list_eqb] in E;
    try discriminate E; [reflexivity|].
  apply andb_prop in E as [_ E]. cbn [length]. f_equal. exact (IH b E).
Qed.

Lemma py_min_in (l : list Z) (m : Z) : Py.min l = Ok m -> In m l.
Proof.
  destruct l as [|y r]; [discriminate|]. cbn [Py.min]. intros [= <-].
  destruct (fold_min_spec r y) as ([->|Hin] & _); [left; reflexivity|right; exact Hin].
Qed.

Lemma py_max_in (l : list Z) (m : Z) : Py.max l = Ok m -> In m l.
Proof.
  destruct l as [|y r]; [discriminate|]. cbn [Py.max]. intros [= <-].
  destruct (fold_max_spec r y) as ([->|Hin] & _); [left; reflexivity|right; exact Hin].
Qed.

(** A contiguous run of shifts that are not negative is no longer than its
    greatest value plus one. *)
Lemma is_contiguous_len (l : list Z) (m : Z) :
  is_contiguous l = Ok true -> Py.max l = Ok m ->
  (forall s, In s l -> 0 <= s) -> Py.len l <= m + 1.
Proof.
  unfold is_contiguous. intros Ec Em Hnn. rewrite Em in Ec.
  destruct (Py.min l) as [lo|] eqn:El; cbn [bind] in Ec; [|discriminate Ec].
  injection Ec as Ec. apply list_eqb_length in Ec.
  rewrite sorted_length in Ec. unfold Py.len. rewrite Ec.
  unfold Py.range2, Py.range. rewrite !length_map, length_seq.
  pose proof (Hnn lo (py_min_in _ _ El)). pose proof (Hnn m (py_max_in _ _ Em)). lia.
Qed.

Lemma is_contiguous_total (l : list Z) (m : Z) :
  Py.max l = Ok m -> exists c, is_contiguous l = Ok c.
Proof.
  unfold is_contiguous. intros Em. rewrite Em.
  destruct l as [|x r]; [discriminate Em|].
  cbn [Py.min bind]. eexists. reflexivity.
Qed.

(** Below [n_images - max(shifts)], without random shifts and with shifts
    that are not negative, the window is resolved, the generator is left
    alone and every frame number lies between [index] and the last stored
    frame. *)
Lemma window_indices_within {A : Type} (self : dataset A) (index m : Z)
    (g : generator) :
  use_random_shifts self = false ->
  (forall s, In s (temporal_shifts self) -> 0 <= s) ->
  Py.max (temporal_shifts self) = Ok m ->
  0 <= index < n_images self - m ->
  exists indices,
    window_indices self index g = Ok (indices, g) /\
    Py.len indices = Py.len (temporal_shifts self) /\
    forall x, In x indices -> index <= x < n_images self.
Proof.
  intros Hr Hnn Em Hi.
  destruct (is_contiguous_total _ _ Em) as ([|] & Ec).
  - rewrite (window_indices_contiguous self index g Ec). eexists.
    split; [reflexivity|]. split.
    + rewrite length_map_len. apply len_range. apply len_nonneg.
    + intros x Hx. apply in_map_iff in Hx as (i & <- & Hx). apply in_range in Hx.
      pose proof (is_contiguous_len _ _ Ec Em Hnn). lia.
  - assert (Hl : 0 < Py.len (temporal_shifts self)).
    { destruct (temporal_shifts self); [discriminate Em|].
      unfold Py.len. cbn [length]. lia. }
    unfold window_indices, get_n_temporal_frames.
    rewrite (proj2 (Z.ltb_lt _ _) Hl), Ec, Hr. cbn [bind negb].
    rewrite (mapM_getitem_range (fun s => index + s))
      by (pose proof (len_nonneg (temporal_shifts self)); lia).
    rewrite firstn_len. cbn [bind]. eexists. split; [reflexivity|]. split.
    + apply length_map_len.
    + intros x Hx. apply in_map_iff in Hx as (s & <- & Hs).
      pose proof (Hnn s Hs). pose proof (py_max_upper _ _ Em s Hs). lia.
Qed.

Section Gather.

Context {A : Type}.

Lemma gather3_in_range (t : tensor3 A) (indices : list Z) :
  (forall x, In x indices -> 0 <= x < n3_0 t) ->
  gather3 t indices
    = Ok (T3 (Py.len indices) (n3_1 t) (n3_2 t)
            (fun n a b => get3 t (nth (Z.to_nat n) indices 0) a b)).
Proof. intros Hx. unfold gather3. rewrite (mapM_index_id _ _ Hx). reflexivity. Qed.

Lemma gather4_in_range (t : tensor4 A) (indices : list Z) :
  (forall x, In x indices -> 0 <= x < n4_0 t) ->
  gather4 t indices
    = Ok (T4 (Py.len indices) (n4_1 t) (n4_2 t) (n4_3 t)
            (fun n a b c => get4 t (nth (Z.to_nat n) indices 0) a b c)).
Proof. intros Hx. unfold gather4. rewrite (mapM_index_id _ _ Hx). reflexivity. Qed.

End Gather.

(** X20. The volume-only dataset serves every index below its length: with
    both parts loaded, [n_images] stored entries, shifts that are not
    negative and no random shifts, [__getitem__(index)] returns for
    [0 <= index < __len__()]; views and volumes are read at the same stored
    positions, one per shift, none before [index] and none past the last
    stored entry; the generator is not used. *)
Theorem vol_getitem_serves_every_index :
  forall (A : Type) (self : dataset A) (v : tensor4 A) (index n : Z) (g : generator),
    use_random_shifts self = false ->
    Forall (fun s => 0 <= s) (temporal_shifts self) ->
    load_imgs self = true -> load_vols self = true -> vols self = Some v ->
    n3_0 (stacked_views self) = n_images self -> n4_0 v = n_images self ->
    XLFMDatasetVol.__len__ self = Ok n ->
    0 <= index < n ->
    exists indices views vol,
      XLFMDatasetVol.__getitem__ self index g = Ok ((Some views, Some vol), g) /\
      Py.len indices = Py.len (temporal_shifts self) /\
      (forall x, In x indices -> index <= x < n_images self) /\
      n3_0 views = Py.len (temporal_shifts self) /\
      n4_0 vol = Py.len (temporal_shifts self) /\
      (forall k a b,
         get3 views k a b
           = get3 (stacked_views self) (nth (Z.to_nat k) indices 0) a b) /\
      (forall k d a b,
         get4 vol k d a b = get4 v (nth (Z.to_nat k) indices 0) d a b).
Proof.
  intros A self v index n g Hr Hnn Hli Hlv Hv N3 N4 Hlen Hi.
  unfold XLFMDatasetVol.__len__, np_max in Hlen. rewrite Hr in Hlen.
  destruct (Py.max (temporal_shifts self)) as [m|] eqn:Em; cbn [bind] in Hlen;
    [|discriminate Hlen].
  injection Hlen as <-.
  rewrite Forall_forall in Hnn.
  destruct (window_indices_within self index m g Hr Hnn Em Hi)
    as (indices & Ew & Hl & Hin).
  exists indices. eexists. eexists.
  split.
  { unfold XLFMDatasetVol.__getitem__. rewrite Ew. cbn [bind]. rewrite Hli, Hlv, Hv.
    rewrite gather3_in_range
      by (intros x Hx; rewrite N3; specialize (Hin x Hx); lia).
    cbn [bind].
    rewrite gather4_in_range
      by (intros x Hx; rewrite N4; specialize (Hin x Hx); lia).
    cbn [bind]. reflexivity. }
  cbn [n3_0 n4_0 get3 get4].
  repeat split; try assumption; apply Hin; assumption.
Qed.

Lemma vol_getitem_serves_witness :
  exists views vol,
    XLFMDatasetVol.__getitem__ (stored_sample [0; 1; 2] false true) 7 gen0
      = Ok ((Some views, Some vol), gen0) /\
    n3_0 views = 3 /\ n4_0 vol = 3.
Proof.
  destruct (vol_getitem_serves_every_index Z (stored_sample [0; 1; 2] false true)
              (T4 10 1 1 1 (fun n _ _ _ => n)) 7 8 gen0)
    as (indices & views & vol & Hg & _ & _ & H3 & H4 & _);
    try reflexivity.
  - repeat constructor; lia.
  - lia.
  - exists views, vol. split; [exact Hg|]. split; [exact H3|exact H4].
Defined.

(** ** Normalisation *)

(** X21. Without the secondary channel the normalisation round trip does
    not go through: [get_statistics] returns four values and [get_max]
    three, and [standarize] unpacks six, so handing it either result raises
    [ValueError]; its default argument [None] raises [TypeError]. This holds
    whatever the reductions and the element arithmetic are. *)
Theorem standarize_rejects_own_statistics :
  forall (A : Type) (max_views mean_views std_views : tensor3 A -> A)
         (max_vols mean_vols std_vols : option (tensor4 A) -> A)
         (sub div : A -> A -> A) (self : dataset A),
    standarize sub div self
      (Some (get_statistics mean_views std_views mean_vols std_vols self))
      = Raise ValueError /\
    standarize sub div self (Some (get_max max_views max_vols self))
      = Raise ValueError /\
    standarize sub div self None = Raise TypeError.
Proof. intros. repeat split. Qed.

(** ** The registration dataset: construction *)

Section RegistrationIngest.

Context {A : Type} `{Scalar A}.
Variable crop : tensor2 A -> Z * Z -> tensor2 A.
Variable itu : list Z.
Variable all_files : list (tensor3 A).
Variable img_dataset : tensor3 A.
Variables (img_shape : Z * Z) (b : Z) (vS vE : Z * Z).

Local Abbreviation reg_turn lv :=
  (XLFMDatasetFullRegistration.ingest_step crop itu all_files img_dataset img_shape b
     lv vS vE).

Lemma registration_step_inv (lv : bool) (x : Z) (st st' : tensor4 A * tensor3 A) :
  reg_turn lv x st = Ok st' ->
  exists k image,
    Py.getitem itu x = Ok k /\
    XLFMDatasetFull.ingest_img crop img_dataset img_shape k = Ok image /\
    XLFMDatasetFull.store_view x image (snd st) = Ok (snd st') /\
    (lv = true ->
       exists v, Py.getitem all_files k = Ok v /\
         XLFMDatasetFull.store_vol vS vE x (blank_border b v) (fst st)
           = Ok (fst st')) /\
    (lv = false -> fst st' = fst st).
Proof.
  unfold XLFMDatasetFullRegistration.ingest_step, XLFMDatasetFull.ingest_vol.
  intros E.
  destruct (Py.getitem itu x) as [k|]; cbn [bind] in E; [|discriminate E].
  match type of E with
  | bind ?c _ = _ => destruct c as [vols'|] eqn:Ev; cbn [bind] in E; [|discriminate E]
  end.
  destruct (XLFMDatasetFull.ingest_img crop img_dataset img_shape k) as [image|] eqn:Ei;
    cbn [bind] in E; [|discriminate E].
  destruct (XLFMDatasetFull.store_view x image (snd st)) as [views'|] eqn:Ew;
    cbn [bind] in E; [|discriminate E].
  injection E as <-. exists k, image. cbn [fst snd].
  split; [reflexivity|]. split; [exact Ei|]. split; [exact Ew|]. split.
  - intros Hlv. rewrite Hlv in Ev.
    destruct (Py.getitem all_files k) as [v|]; cbn [bind] in Ev; [|discriminate Ev].
    destruct (assert_no_inf v); cbn [bind] in Ev; [|discriminate Ev].
    exists v. split; [reflexivity|exact Ev].
  - intros Hlv. rewrite Hlv in Ev. injection Ev as <-. reflexivity.
Qed.

(** The loop over distinct positions, with or without volumes: the shapes
    stay, a position that is not visited keeps its entries, and a visited
    position [x] holds what the stores of its turn wrote for image number
    [images_to_use[x]]. *)
Lemma registration_loop_entries (lv : bool) (l : list Z) :
  forall st st',
    foldM (reg_turn lv) l st = Ok st' ->
    NoDup l ->
    (forall x, In x l ->
       0 <= x < n3_0 (snd st) /\ (lv = true -> 0 <= x < n4_0 (fst st))) ->
    same_shape4 (fst st') (fst st) /\ same_shape3 (snd st') (snd st) /\
    (forall m, ~ In m l ->
       same_entry4 m (fst st') (fst st) /\ same_entry3 m (snd st') (snd st)) /\
    (forall x, In x l ->
       exists k image st1 st2,
         Py.getitem itu x = Ok k /\
         XLFMDatasetFull.ingest_img crop img_dataset img_shape k = Ok image /\
         XLFMDatasetFull.store_view x image (snd st1) = Ok (snd st2) /\
         same_shape3 (snd st1) (snd st) /\ same_entry3 x (snd st1) (snd st) /\
         same_entry3 x (snd st') (snd st2) /\
         (lv = true ->
            exists v,
              Py.getitem all_files k = Ok v /\
              XLFMDatasetFull.store_vol vS vE x (blank_border b v) (fst st1)
                = Ok (fst st2) /\
              same_shape4 (fst st1) (fst st) /\ same_entry4 x (fst st1) (fst st) /\
              same_entry4 x (fst st') (fst st2))).
Proof.
  induction l as [|y l IH]; intros st st' E Hnd Hr; cbn [foldM] in E.
  - injection E as <-.
    split; [repeat split|]. split; [repeat split|].
    split; [intros m _; split; intro; reflexivity|]. intros x [].
  - destruct (reg_turn lv y st) as [sa|] eqn:Ey; cbn [bind] in E; [|discriminate E].
    destruct (registration_step_inv _ _ _ _ Ey) as (k & image & Eg & Ei & Ew & Hv & Hnv).
    destruct (Hr y (or_introl eq_refl)) as [Hy3 Hy4].
    destruct (store_view_frame _ _ _ _ Ew Hy3) as [S3 F3].
    assert (SF4 : same_shape4 (fst sa) (fst st) /\
                  forall m, m <> y -> same_entry4 m (fst sa) (fst st)).
    { destruct lv.
      - destruct (Hv eq_refl) as (v & _ & Es).
        exact (store_vol_frame _ _ _ _ _ _ Es (Hy4 eq_refl)).
      - rewrite (Hnv eq_refl). split; [repeat split|]. intros m _ d i j. reflexivity. }
    destruct SF4 as [S4 F4].
    apply NoDup_cons_iff in Hnd as [Hny Hnd].
    destruct (IH sa st' E Hnd) as (T4' & T3' & Hout & Hin).
    { intros x Hx. destruct (Hr x (or_intror Hx)) as [Hx3 Hx4].
      destruct S4 as (-> & _). destruct S3 as (-> & _). split; assumption. }
    split; [exact (same_shape4_trans _ _ _ T4' S4)|].
    split; [exact (same_shape3_trans _ _ _ T3' S3)|].
    split.
    + intros m Hm. destruct (Hout m) as [O4 O3]; [intros Hx; apply Hm; right; exact Hx|].
      assert (m <> y) by (intros ->; apply Hm; left; reflexivity).
      split.
      * exact (same_entry4_trans _ _ _ _ O4 (F4 m ltac:(assumption))).
      * exact (same_entry3_trans _ _ _ _ O3 (F3 m ltac:(assumption))).
    + intros x [<-|Hx].
      * destruct (Hout y Hny) as [O4 O3].
        exists k, image, st, sa.
        split; [exact Eg|]. split; [exact Ei|]. split; [exact Ew|].
        split; [repeat split|]. split; [intros i j; reflexivity|].
        split; [exact O3|].
        intros Hlv. destruct (Hv Hlv) as (v & Ef & Es). exists v.
        split; [exact Ef|]. split; [exact Es|]. split; [repeat split|].
        split; [intros d i j; reflexivity|exact O4].
      * destruct (Hin x Hx) as (k' & image' & st1 & st2 & G1 & G2 & G3 & G4 & G5 & G6 & G7).
        assert (x <> y) by (intros ->; contradiction).
        exists k', image', st1, st2.
        split; [exact G1|]. split; [exact G2|]. split; [exact G3|].
        split; [exact (same_shape3_trans _ _ _ G4 S3)|].
        split; [exact (same_entry3_trans _ _ _ _ G5 (F3 x ltac:(assumption)))|].
        split; [exact G6|].
        intros Hlv. destruct (G7 Hlv) as (v & V1 & V2 & V3 & V4 & V5). exists v.
        split; [exact V1|]. split; [exact V2|].
        split; [exact (same_shape4_trans _ _ _ V3 S4)|].
        split; [exact (same_entry4_trans _ _ _ _ V4 (F4 x ltac:(assumption)))|exact V5].
Qed.

End RegistrationIngest.

Section RegistrationInit.

Context {A : Type} `{Scalar A}.
Variable crop : tensor2 A -> Z * Z -> tensor2 A.

(** What a constructor call has gone through when it returns. *)
Lemma registration_init_inv (files : list (tensor3 A)) (img_dataset : tensor3 A)
    (img_shape : Z * Z) (itu : option (list Z)) (nd b : Z) (lv : bool)
    (shifts : list Z) (rnd : bool) (self : dataset A) :
  XLFMDatasetFullRegistration.__init__ crop files img_dataset img_shape itu nd b lv
    shifts rnd = Ok self ->
  exists sel n all_files window vols0 st',
    sel = match itu with Some l => l | None => Py.range (n3_0 img_dataset) end /\
    n = Z.min (Py.len sel) (n3_0 img_dataset) /\
    XLFMDatasetFull.select_files files sel n lv = Ok all_files /\
    0 <= n /\
    (lv = true ->
       exists v0,
         Py.getitem all_files 0 = Ok v0 /\ window = canonical_window v0 /\
         vols0 = T4 n nd (n3_0 v0) (n3_1 v0) (fun _ _ _ _ => zero)) /\
    foldM (XLFMDatasetFullRegistration.ingest_step crop sel all_files img_dataset
             img_shape b lv (fst window) (snd window))
      (Py.range n)
      (vols0, T3 n (fst img_shape) (snd img_shape) (fun _ _ _ => zero)) = Ok st' /\
    self = Dataset None lv true shifts rnd n (fst window) (snd window)
             (if lv then Some (fst st') else None) (snd st').
Proof.
  unfold XLFMDatasetFullRegistration.__init__. intros E. cbv zeta in E.
  match type of E with
  | bind ?c _ = _ => destruct c as [all_files|] eqn:E3; cbn [bind] in E;
                     [|discriminate E]
  end.
  match type of E with
  | bind ?c _ = _ => destruct c as [[window vols0]|] eqn:E4; cbn [bind] in E;
                     [|discriminate E]
  end.
  unfold XLFMDatasetFull.zeros3 in E.
  match type of E with
  | bind (if (0 <=? ?n) && _ && _ then _ else _) _ = _ =>
      destruct (Z.leb_spec 0 n) as [Hn|Hn]; cbn [andb bind] in E; [|discriminate E]
  end.
  match type of E with
  | bind (if ?c then _ else _) _ = _ =>
      destruct c; cbn [bind] in E; [|discriminate E]
  end.
  match type of E with
  | bind ?c _ = _ => destruct c as [st'|] eqn:E5; cbn [bind] in E; [|discriminate E]
  end.
  injection E as <-.
  eexists _, _, all_files, window, vols0, st'.
  split; [reflexivity|]. split; [reflexivity|]. split; [exact E3|].
  split; [exact Hn|]. split; [|split; [exact E5|reflexivity]].
  intros Hlv. rewrite Hlv in E4.
  destruct (Py.getitem all_files 0) as [v0|]; cbn [bind] in E4; [|discriminate E4].
  unfold XLFMDatasetFull.zeros4 in E4.
  match type of E4 with
  | bind (if ?c then _ else _) _ = _ =>
      destruct c; cbn [bind] in E4; [|discriminate E4]
  end.
  injection E4 as <- <-. exists v0. repeat split.
Qed.

(** Entry [k] of the remapped file list is file [images_to_use[k]], and the
    list has [n_images] entries. *)
Lemma select_files_lookup (files : list (tensor3 A)) (itu : list Z) (n : Z)
    (all_files : list (tensor3 A)) (k : Z) (v : tensor3 A) :
  XLFMDatasetFull.select_files files itu n true = Ok all_files ->
  0 <= k -> Py.getitem all_files k = Ok v ->
  k < n /\ exists k2, Py.getitem itu k = Ok k2 /\ Py.getitem files k2 = Ok v.
Proof.
  intros E3 Hk G1.
  destruct (getitem_nonneg_nth _ _ _ Hk G1) as [Hnth Hlen].
  unfold XLFMDatasetFull.select_files in E3.
  destruct (Z.ltb_spec 0 (Py.len files)); cbn [andb] in E3.
  - destruct (mapM_nth _ _ _ E3 _ _ Hnth) as (x & Hx & Ex).
    apply nth_error_range in Hx. destruct Hx as [-> Hx].
    rewrite Z2Nat.id in * by lia. split; [exact Hx|].
    destruct (Py.getitem itu k) as [k2|]; cbn [bind] in Ex; [|discriminate Ex].
    exists k2. split; [reflexivity|exact Ex].
  - injection E3 as <-. lia.
Qed.

End RegistrationInit.

(** X22. The registration constructor looks a volume up through
    [images_to_use] twice. [self.all_files] is already
    [sorted(glob)[images_to_use[i]]], and the turn [nImg] reads
    [self.all_files[images_to_use[nImg]]]: position [nImg] holds the blanked
    volume of file [images_to_use[images_to_use[nImg]]] next to frame
    [images_to_use[nImg]], and every image number used is below [n_images].
    (Image numbers are not negative.) *)
Theorem registration_init_double_lookup :
  forall (A : Type) (SA : Scalar A) (crop : tensor2 A -> Z * Z -> tensor2 A)
         (files : list (tensor3 A)) (img_dataset : tensor3 A) (img_shape : Z * Z)
         (itu : list Z) (n_depths_to_fill border_blanking : Z)
         (shifts : list Z) (random : bool) (self : dataset A) (nImg : Z),
    XLFMDatasetFullRegistration.__init__ crop files img_dataset img_shape (Some itu)
      n_depths_to_fill border_blanking true shifts random = Ok self ->
    Forall (fun x => 0 <= x) itu ->
    0 <= nImg < n_images self ->
    exists k k2 v stored_vols vol frame padded,
      Py.getitem itu nImg = Ok k /\ k < n_images self /\
      Py.getitem itu k = Ok k2 /\ Py.getitem files k2 = Ok v /\
      vols self = Some stored_vols /\
      select4 stored_vols nImg = Ok vol /\
      vol_written_from (volStart self) (volEnd self) nImg
        (blank_border border_blanking v) stored_vols vol /\
      select3 img_dataset k = Ok frame /\
      pad_img_to_min frame = Ok padded /\
      view_written_from nImg (crop padded img_shape) (stacked_views self)
        nImg (stacked_views self).
Proof.
  intros A SA crop files imgs img_shape itu nd b shifts rnd self nImg
         Einit Hitu Hidx.
  destruct (registration_init_inv crop _ _ _ _ _ _ _ _ _ _ Einit)
    as (sel & n & all_files & window & vols0 & st' & -> & -> & E3 & Hn & Hw & E5 & ->).
  destruct (Hw eq_refl) as (v0 & E0 & -> & ->).
  cbn [stacked_views n_images vols volStart volEnd] in *.
  set (n := Z.min (Py.len itu) (n3_0 imgs)) in *.
  set (vS := fst (canonical_window v0)) in *.
  set (vE := snd (canonical_window v0)) in *.
  destruct (registration_loop_entries crop itu all_files imgs img_shape b vS vE true
              (Py.range n) _ st' E5 (NoDup_range _))
    as (S4 & S3 & _ & Hin).
  { intros x Hx. apply in_range in Hx. cbn. split; [lia|intros _; lia]. }
  cbn [fst snd] in S4, S3, Hin.
  assert (N3 : n3_0 (snd st') = n) by (destruct S3 as (-> & _); reflexivity).
  assert (N4 : n4_0 (fst st') = n) by (destruct S4 as (-> & _); reflexivity).
  destruct (Hin nImg (proj2 (in_range _ _) Hidx))
    as (k & image & st1 & st2 & G1 & G2 & G3 & G4 & G5 & G6 & G7).
  destruct (G7 eq_refl) as (v & V1 & V2 & V3 & V4 & V5).
  assert (Hk0 : 0 <= k).
  { rewrite Forall_forall in Hitu. exact (Hitu k (getitem_in _ _ _ G1)). }
  destruct (select_files_lookup _ _ _ _ _ _ E3 Hk0 V1) as (Hlt & k2 & Ek2 & Ev).
  unfold XLFMDatasetFull.ingest_img in G2.
  destruct (select3 imgs k) as [frame|] eqn:Ef; cbn [bind] in G2; [|discriminate G2].
  destruct (pad_img_to_min frame) as [padded|] eqn:Ep; cbn [bind] in G2;
    [|discriminate G2].
  injection G2 as <-.
  exists k, k2, v, (fst st'). eexists. exists frame, padded.
  split; [exact G1|]. split; [exact Hlt|]. split; [exact Ek2|]. split; [exact Ev|].
  split; [reflexivity|].
  split; [unfold select4; rewrite N4, (index_in_range nImg) by lia; reflexivity|].
  split.
  { unfold vol_written_from.
    destruct (store_vol_ext vS vE nImg (blank_border b v) (fst st1)
                (T4 (n4_0 (fst st')) (n4_1 (fst st')) (n4_2 (fst st')) (n4_3 (fst st'))
                    (fun _ _ _ _ => zero)) (fst st2)) as (r2 & Er & Hr).
    - unfold same_shape4 in *. cbn [n4_0 n4_1 n4_2 n4_3] in *. intuition congruence.
    - destruct V3 as (-> & _). cbn. lia.
    - intros d i j. rewrite (V4 d i j). reflexivity.
    - exact V2.
    - exists r2. split; [exact Er|]. intros d i j. cbn [get3].
      rewrite (V5 d i j). apply Hr. }
  split; [exact Ef|]. split; [exact Ep|].
  unfold view_written_from.
  destruct (store_view_ext nImg (crop padded img_shape) (snd st1)
              (T3 (n3_0 (snd st')) (n3_1 (snd st')) (n3_2 (snd st'))
                  (fun _ _ _ => zero)) (snd st2)) as (r2 & Er & Hr).
  - unfold same_shape3 in *. cbn [n3_0 n3_1 n3_2] in *. intuition congruence.
  - destruct G4 as (-> & _). cbn. lia.
  - intros i j. rewrite (G5 i j). reflexivity.
  - exact G3.
  - exists r2. split; [exact Er|]. intros i j. rewrite (G6 i j). apply Hr.
Qed.

Lemma registration_init_double_lookup_witness :
  exists self v stored_vols vol,
    swapped_registration = Ok self /\
    Py.getitem [1; 0] 0 = Ok 1 /\ Py.getitem [1; 0] 1 = Ok 0 /\
    Py.getitem two_volumes 0 = Ok v /\
    vols self = Some stored_vols /\
    vol_written_from (volStart self) (volEnd self) 0 (blank_border 0 v)
      stored_vols vol.
Proof.
  unfold swapped_registration.
  destruct (XLFMDatasetFullRegistration.__init__ center_crop two_volumes two_frames
              (1, 1) (Some [1; 0]) 1 0 true [0] false) as [self|e] eqn:E;
    [|vm_compute in E; discriminate E].
  destruct (registration_init_inv center_crop _ _ _ _ _ _ _ _ _ _ E)
    as (sel & n & af & w & z & st' & -> & -> & _ & _ & _ & _ & Hs).
  destruct (registration_init_double_lookup Z Scalar_Z center_crop two_volumes
              two_frames (1, 1) [1; 0] 1 0 [0] false self 0 E)
    as (k & k2 & v & V & vol & _ & _ & Hk & _ & Hk2 & Hv & HV & _ & Hw & _).
  - repeat constructor; lia.
  - rewrite Hs. cbn. lia.
  - injection Hk as <-. injection Hk2 as <-.
    exists self, v, V, vol. split; [reflexivity|]. split; [reflexivity|].
    split; [reflexivity|]. split; [exact Hv|]. split; [exact HV|exact Hw].
Defined.

(** The same on values: with [images_to_use = [1, 0]], position 0 holds
    frame 1 (value 21) next to the volume of file 0 (value 10), position 1
    frame 0 next to the volume of file 1. *)
Example registration_init_swapped_values :
  (self <- swapped_registration ;;
   Ok (get3 (stacked_views self) 0 0 0,
       option_map (fun v => get4 v 0 0 0 0) (vols self),
       get3 (stacked_views self) 1 0 0,
       option_map (fun v => get4 v 1 0 0 0) (vols self)))
    = Ok (21, Some 10, 20, Some 11).
Proof. vm_compute. reflexivity. Qed.

(** X23. With volumes, a selection that names an image number at or beyond
    [n_images = min(len(images_to_use), n_frames)] cannot be built: the turn
    that uses it reads [self.all_files], which has [n_images] entries, at
    that number. *)
Theorem registration_init_rejects_selection_beyond_count :
  forall (A : Type) (SA : Scalar A) (crop : tensor2 A -> Z * Z -> tensor2 A)
         (files : list (tensor3 A)) (img_dataset : tensor3 A) (img_shape : Z * Z)
         (itu : list Z) (n_depths_to_fill border_blanking : Z)
         (shifts : list Z) (random : bool) (nImg k : Z),
    0 <= nImg < Z.min (Py.len itu) (n3_0 img_dataset) ->
    Py.getitem itu nImg = Ok k ->
    Z.min (Py.len itu) (n3_0 img_dataset) <= k ->
    is_ok (XLFMDatasetFullRegistration.__init__ crop files img_dataset img_shape
             (Some itu) n_depths_to_fill border_blanking true shifts random) = false.
Proof.
  intros A SA crop files imgs img_shape itu nd b shifts rnd nImg k Hidx Ek Hk.
  destruct (XLFMDatasetFullRegistration.__init__ crop files imgs img_shape (Some itu)
              nd b true shifts rnd) as [self|] eqn:Einit; [|reflexivity].
  exfalso.
  destruct (registration_init_inv crop _ _ _ _ _ _ _ _ _ _ Einit)
    as (sel & n & all_files & window & vols0 & st' & -> & -> & E3 & Hn & Hw & E5 & _).
  destruct (Hw eq_refl) as (v0 & E0 & -> & ->).
  destruct (registration_loop_entries crop itu all_files imgs img_shape b _ _ true
              (Py.range _) _ st' E5 (NoDup_range _))
    as (_ & _ & _ & Hin).
  { intros x Hx. apply in_range in Hx. cbn. split; [lia|intros _; lia]. }
  destruct (Hin nImg (proj2 (in_range _ _) Hidx))
    as (k' & image & st1 & st2 & G1 & _ & _ & _ & _ & _ & G7).
  rewrite Ek in G1. injection G1 as <-.
  destruct (G7 eq_refl) as (v & V1 & _).
  assert (Hk0 : 0 <= k) by lia.
  destruct (select_files_lookup _ _ _ _ _ _ E3 Hk0 V1) as (Hlt & _). lia.
Qed.

Lemma registration_init_rejects_witness :
  is_ok (XLFMDatasetFullRegistration.__init__ center_crop three_volumes five_frames
           (1, 1) (Some [1; 2]) 1 0 true [0] false) = false.
Proof.
  apply (registration_init_rejects_selection_beyond_count Z Scalar_Z center_crop
           three_volumes five_frames (1, 1) [1; 2] 1 0 [0] false 1 2).
  - cbn. lia.
  - reflexivity.
  - cbn. lia.
Defined.

(** X24. A registration dataset built without volumes serves every index
    below its length (no random shifts, shifts not negative), without
    touching the generator. The window is applied to stored positions: view
    [k] of the sample is position [p = indices[k]] of the stored frames,
    which holds frame [images_to_use[p]], padded and cropped, and not frame
    [images_to_use[index] + shifts[k]]. *)
Theorem registration_getitem_serves_every_index :
  forall (A : Type) (SA : Scalar A) (crop : tensor2 A -> Z * Z -> tensor2 A)
         (files : list (tensor3 A)) (img_dataset : tensor3 A) (img_shape : Z * Z)
         (itu : option (list Z)) (n_depths_to_fill border_blanking : Z)
         (shifts : list Z) (self : dataset A) (index n : Z) (g : generator),
    XLFMDatasetFullRegistration.__init__ crop files img_dataset img_shape itu
      n_depths_to_fill border_blanking false shifts false = Ok self ->
    Forall (fun s => 0 <= s) shifts ->
    XLFMDatasetFullRegistration.__len__ self = Ok n ->
    0 <= index < n ->
    exists indices views,
      window_indices self index g = Ok (indices, g) /\
      XLFMDatasetFullRegistration.__getitem__ self index g = Ok ((views, None), g) /\
      n3_0 views = Py.len shifts /\
      forall k p, nth_error indices k = Some p ->
        exists f frame padded,
          index <= p < n_images self /\
          Py.getitem
            (match itu with Some l => l | None => Py.range (n3_0 img_dataset) end) p
            = Ok f /\
          select3 img_dataset f = Ok frame /\
          pad_img_to_min frame = Ok padded /\
          view_written_from p (crop padded img_shape) (stacked_views self)
            (Z.of_nat k) views.
Proof.
  intros A SA crop files imgs img_shape itu nd b shifts self index n' g
         Einit Hshifts Hlen Hidx.
  destruct (registration_init_inv crop _ _ _ _ _ _ _ _ _ _ Einit)
    as (sel & n & all_files & window & vols0 & st' & Hsel & Hn' & E3 & Hn & _ & E5 & Hs).
  rewrite <- Hsel.
  destruct (registration_loop_entries crop sel all_files imgs img_shape b _ _ false
              (Py.range n) _ st' E5 (NoDup_range _))
    as (_ & S3 & _ & Hin).
  { intros x Hx. apply in_range in Hx. cbn. split; [lia|discriminate]. }
  cbn [fst snd] in S3, Hin.
  assert (N3 : n3_0 (snd st') = n) by (destruct S3 as (-> & _); reflexivity).
  assert (Hf : use_random_shifts self = false /\ temporal_shifts self = shifts /\
               n_images self = n /\ stacked_views self = snd st' /\
               load_vols self = false).
  { rewrite Hs. repeat split. }
  destruct Hf as (Hr & Ht & Hni & Hsv & Hlv).
  unfold XLFMDatasetFullRegistration.__len__, np_max in Hlen.
  rewrite Hr, Ht in Hlen.
  destruct (Py.max shifts) as [m|] eqn:Em; cbn [bind] in Hlen; [|discriminate Hlen].
  injection Hlen as <-. rewrite Hni in Hidx.
  rewrite Forall_forall in Hshifts.
  destruct (window_indices_within self index m g Hr) as (indices & Ew & Hl & Hw).
  { rewrite Ht. exact Hshifts. }
  { rewrite Ht. exact Em. }
  { rewrite Hni. exact Hidx. }
  rewrite Hni in Hw. rewrite Ht in Hl.
  exists indices. eexists.
  split; [exact Ew|]. split.
  { unfold XLFMDatasetFullRegistration.__getitem__. rewrite Ew. cbn [bind].
    rewrite gather3_in_range
      by (intros x Hx; rewrite Hsv, N3; specialize (Hw x Hx); lia).
    cbn [bind]. rewrite Hlv. cbn [negb]. reflexivity. }
  split; [exact Hl|].
  intros k p Hkp.
  assert (Hp : index <= p < n) by exact (Hw p (nth_error_In _ _ Hkp)).
  assert (Hp0 : 0 <= p < n) by lia.
  destruct (Hin p (proj2 (in_range _ _) Hp0))
    as (f & image & st1 & st2 & G1 & G2 & G3 & G4 & G5 & G6 & _).
  unfold XLFMDatasetFull.ingest_img in G2.
  destruct (select3 imgs f) as [frame|] eqn:Ef; cbn [bind] in G2; [|discriminate G2].
  destruct (pad_img_to_min frame) as [padded|] eqn:Ep; cbn [bind] in G2;
    [|discriminate G2].
  injection G2 as <-.
  exists f, frame, padded.
  split; [rewrite Hni; exact Hp|]. split; [exact G1|]. split; [exact Ef|].
  split; [exact Ep|].
  unfold view_written_from. rewrite Hsv.
  destruct (store_view_ext p (crop padded img_shape) (snd st1)
              (T3 (n3_0 (snd st')) (n3_1 (snd st')) (n3_2 (snd st'))
                  (fun _ _ _ => zero)) (snd st2)) as (r2 & Er & Hr2).
  - unfold same_shape3 in *. cbn [n3_0 n3_1 n3_2] in *. intuition congruence.
  - destruct G4 as (-> & _). cbn. lia.
  - intros i j. rewrite (G5 i j). reflexivity.
  - exact G3.
  - exists r2. split; [exact Er|]. intros i j. cbn [get3].
    rewrite Nat2Z.id, (nth_error_nth _ _ 0 Hkp), (G6 i j). apply Hr2.
Qed.

Lemma registration_getitem_serves_witness :
  exists self views,
    registration_sample = Ok self /\
    XLFMDatasetFullRegistration.__getitem__ self 7 gen0 = Ok ((views, None), gen0) /\
    n3_0 views = 3.
Proof.
  unfold registration_sample.
  destruct (XLFMDatasetFullRegistration.__init__ center_crop [] frames12 (1, 1)
              (Some (Py.range 10)) 1 0 false [0; 1; 2] false) as [self|e] eqn:E;
    [|vm_compute in E; discriminate E].
  destruct (registration_init_inv center_crop _ _ _ _ _ _ _ _ _ _ E)
    as (sel & n & af & w & z & st' & -> & -> & _ & _ & _ & _ & Hs).
  destruct (registration_getitem_serves_every_index Z Scalar_Z center_crop []
              frames12 (1, 1) (Some (Py.range 10)) 1 0 [0; 1; 2] self 7 8 gen0 E)
    as (indices & views & _ & Hg & Hn & _).
  - repeat constructor; lia.
  - rewrite Hs. reflexivity.
  - lia.
  - exists self, views. split; [reflexivity|]. split; [exact Hg|exact Hn].
Defined.
